(** * The quality checker of the patent-disclosure assistant

    A shallow embedding of [js/quality-checker.js] (class [QualityChecker]):
    the rule table of [initCheckRules], the evaluation in [checkCategory] and
    [checkDocument], the renderer [generateReport] and the proposals of
    [getAutoFixSuggestions], followed by the properties proved of them.

    JavaScript data is modelled as the engine holds it: a string is its
    sequence of UTF-16 code units, a property read of a missing key gives
    [undefined], [&&] returns one of its operands, a method call on a value
    that has no such method throws a [TypeError]. *)

From Stdlib Require Import ZArith NArith QArith Qround List Ascii String DecimalString.
From Stdlib Require Import Floats.SpecFloat.
From stdpp Require Import gmap strings list.

Set Warnings "-register-all".

(** ** Strings *)

(** A JavaScript string: a finite sequence of 16-bit code units. *)
Abbreviation code_unit := N (only parsing).
Abbreviation jsstring := (list N) (only parsing).

(** The source file is UTF-8; a literal of it is held by the engine as
    UTF-16. [utf16_of_utf8] turns the bytes of a literal into its code units
    (one unit for a code point below U+10000, a surrogate pair above). *)
Fixpoint utf16_of_utf8 (bs : list N) : jsstring :=
  match bs with
  | [] => []
  | b0 :: r0 =>
    if (b0 <? 128)%N then b0 :: utf16_of_utf8 r0
    else
      match r0 with
      | [] => []
      | b1 :: r1 =>
        if (b0 <? 224)%N
        then ((b0 - 192) * 64 + (b1 - 128))%N :: utf16_of_utf8 r1
        else
          match r1 with
          | [] => []
          | b2 :: r2 =>
            if (b0 <? 240)%N
            then ((b0 - 224) * 4096 + (b1 - 128) * 64 + (b2 - 128))%N
                   :: utf16_of_utf8 r2
            else
              match r2 with
              | [] => []
              | b3 :: r3 =>
                let cp := ((b0 - 240) * 262144 + (b1 - 128) * 4096
                           + (b2 - 128) * 64 + (b3 - 128))%N in
                let v := (cp - 65536)%N in
                (55296 + v / 1024)%N :: (56320 + v mod 1024)%N
                  :: utf16_of_utf8 r3
              end
          end
      end
  end.

(** [js "..."] is the JavaScript string written ['...'] in the source. *)
Definition js (s : string) : jsstring :=
  utf16_of_utf8 (map N_of_ascii (list_ascii_of_string s)).
Arguments js s%_string.

(** [s.length]: the number of code units. *)
Definition String_length (s : jsstring) : nat := length s.

(** The number of Unicode code points of a string: a high surrogate followed
    by a low surrogate is one code point, every other unit is one. *)
Definition is_high_surrogate (c : code_unit) : bool :=
  ((55296 <=? c) && (c <? 56320))%N.
Definition is_low_surrogate (c : code_unit) : bool :=
  ((56320 <=? c) && (c <? 57344))%N.

Fixpoint code_points (s : jsstring) : nat :=
  match s with
  | [] => 0
  | c :: s' =>
    match s' with
    | d :: s'' =>
      if is_high_surrogate c && is_low_surrogate d
      then S (code_points s'')
      else S (code_points s')
    | [] => 1
    end
  end.

(** White space and line terminators, as [String.prototype.trim] strips
    them (ECMAScript WhiteSpace and LineTerminator; all are single units). *)
Definition isWhiteSpace (c : code_unit) : bool :=
  ((9 <=? c) && (c <=? 13) || (c =? 32) || (c =? 160) || (c =? 5760)
   || (8192 <=? c) && (c <=? 8202) || (c =? 8232) || (c =? 8233)
   || (c =? 8239) || (c =? 8287) || (c =? 12288) || (c =? 65279))%N.

Fixpoint trimStart (s : jsstring) : jsstring :=
  match s with
  | [] => []
  | c :: s' => if isWhiteSpace c then trimStart s' else s
  end.

Fixpoint trimEnd (s : jsstring) : jsstring :=
  match s with
  | [] => []
  | c :: s' =>
    match trimEnd s' with
    | [] => if isWhiteSpace c then [] else [c]
    | t => c :: t
    end
  end.

(** [s.trim()] *)
Definition String_trim (s : jsstring) : jsstring := trimEnd (trimStart s).
Arguments String_trim : simpl never.

(** [s === t] on strings. *)
Definition String_eqb (s t : jsstring) : bool := bool_decide (s = t).

(** ** Numbers *)

(** A Number is an IEEE 754 binary64. Lengths and counters are kept as [nat]:
    they are small non-negative integers, which binary64 holds exactly and on
    which [+] and [++] are exact. The one inexact computation of the source,
    the quotient behind the score, is carried out in binary64. *)
Definition prec : Z := 53.
Definition emax : Z := 1024.

Definition Number_of_Z (z : Z) : spec_float := binary_normalize prec emax z 0 false.
Definition Number_of_nat (n : nat) : spec_float := Number_of_Z (Z.of_nat n).

(** [Math.round(x)], for finite [x], as the integer it denotes: the integer
    nearest to [x], the larger one on a tie, that is [floor (x + 1/2)].
    On NaN and the infinities [Math.round] returns its argument, which
    denotes no integer (0 here). *)
Definition Math_round (x : spec_float) : Z :=
  match x with
  | S754_finite s m e =>
    let n := if s then Z.neg m else Z.pos m in
    if (0 <=? e)%Z then (n * 2 ^ e)%Z
    else ((2 * n + 2 ^ (- e)) / 2 ^ (1 - e))%Z
  | _ => 0%Z
  end.

(** [Math.floor(x)] for finite [x], as the integer it denotes. *)
Definition Math_floor (x : spec_float) : Z :=
  match x with
  | S754_finite s m e =>
    let n := if s then Z.neg m else Z.pos m in
    if (0 <=? e)%Z then (n * 2 ^ e)%Z else (n / 2 ^ (- e))%Z
  | _ => 0%Z
  end.

(** [String(n)] for an integer Number: its decimal digits. *)
Definition Number_toString (z : Z) : jsstring :=
  let digits := js (NilZero.string_of_uint (N.to_uint (Z.to_N (Z.abs z)))) in
  if (z <? 0)%Z then js "-" ++ digits else digits.

(** ** Values *)

(** The values a record of form data can hold. Function values are left
    out: a document record is data. *)
Inductive value : Type :=
  | VUndefined
  | VNull
  | VBool (b : bool)
  | VNumber (x : spec_float)
  | VString (s : jsstring)
  | VArray (elems : list value)
  | VObject (props : list (jsstring * value)).

(** The truthiness of a value ([ToBoolean]). *)
Definition ToBoolean (v : value) : bool :=
  match v with
  | VUndefined | VNull => false
  | VBool b => b
  | VNumber (S754_zero _) | VNumber S754_nan => false
  | VNumber _ => true
  | VString s => negb (bool_decide (s = []))
  | VArray _ | VObject _ => true
  end.

(** [Array.isArray(v)] *)
Definition Array_isArray (v : value) : bool :=
  match v with VArray _ => true | _ => false end.

(** A document record: an object read as a map from property name to
    value; [data.k] on a missing key is [undefined]. *)
Abbreviation DocumentRecord := (gmap (list N) value) (only parsing).

Definition Get (data : DocumentRecord) (k : jsstring) : value :=
  default VUndefined (data !! k).

(** ** Exceptions *)

Inductive exn : Type :=
  | TypeError (msg : string).
Arguments TypeError msg%_string.

Inductive completion (A : Type) : Type :=
  | Ok (a : A)
  | Throw (e : exn).
Arguments Ok {A} a.
Arguments Throw {A} e.

Definition bind {A B} (m : completion A) (k : A -> completion B) : completion B :=
  match m with
  | Ok a => k a
  | Throw e => Throw e
  end.

Declare Scope js_scope.
Delimit Scope js_scope with js.
Notation "'do' x <- m ; k" := (bind m (fun x => k))
  (at level 10, x name, m at level 100, k at level 200) : js_scope.
Local Open Scope js_scope.

(** [l.forEach(f)] where the callback updates the state [s] and may throw. *)
Fixpoint forEach {A S : Type} (f : A -> S -> completion S) (l : list A) (s : S)
  : completion S :=
  match l with
  | [] => Ok s
  | x :: l' => do s' <- f x s ; forEach f l' s'
  end.

(** [v.trim()] on the values a record of data holds: defined on strings;
    any other such value has no [trim] method (or, for [undefined] and
    [null], no properties at all) and the call throws a [TypeError], whose
    message is the engine's: the text here stands for it. A String wrapper
    object, or an object with a callable [trim], on which the call would
    return, is not a value of a record of data. *)
Definition call_trim (v : value) : completion jsstring :=
  match v with
  | VString s => Ok (String_trim s)
  | VUndefined | VNull =>
    Throw (TypeError "Cannot read properties of undefined (reading 'trim')")
  | _ => Throw (TypeError "trim is not a function")
  end.

(** [v.length] for an array. *)
Definition Array_length (v : value) : nat :=
  match v with VArray elems => length elems | _ => 0 end.

(** ** Rules and results *)

Module Rule.
Record t : Type := mk {
  id : jsstring;
  name : jsstring;
  description : jsstring;
  check : DocumentRecord -> completion value;
  severity : jsstring;
  suggestion : jsstring
}.
End Rule.

Module CheckResult.
Record t : Type := mk {
  id : jsstring;
  name : jsstring;
  description : jsstring;
  passed : value;
  severity : jsstring;
  suggestion : jsstring
}.
End CheckResult.

Module CategoryResult.
Record t : Type := mk {
  total : nat;
  passed : nat;
  errors : list CheckResult.t;
  warnings : list CheckResult.t;
  suggestions : list CheckResult.t
}.
End CategoryResult.

Module CheckReport.
Record t : Type := mk {
  overall : jsstring;
  score : Z;
  totalChecks : nat;
  passedChecks : nat;
  errors : list CheckResult.t;
  warnings : list CheckResult.t;
  suggestions : list CheckResult.t;
  categories : list (jsstring * CategoryResult.t)
}.
End CheckReport.

(** An object whose keys are kept in insertion order ([Object.keys]); the
    keys used here are names, never array indices. *)
Section Objects.
Context {V : Type}.

Definition Object_keys (o : list (jsstring * V)) : list jsstring := map fst o.

Fixpoint obj_get (o : list (jsstring * V)) (k : jsstring) : option V :=
  match o with
  | [] => None
  | (k', v) :: o' => if String_eqb k' k then Some v else obj_get o' k
  end.

(** [o[k] = v]: overwrite in place when the key exists, append otherwise. *)
Fixpoint obj_set (k : jsstring) (v : V) (o : list (jsstring * V))
  : list (jsstring * V) :=
  match o with
  | [] => [(k, v)]
  | (k', v') :: o' =>
    if String_eqb k' k then (k', v) :: o' else (k', v') :: obj_set k v o'
  end.
End Objects.

(** ** The rule table *)

(** The two shapes of predicate of [initCheckRules].

    [data.f && data.f.trim().length > 0]: when [data.f] is falsy the
    conjunction is [data.f] itself, otherwise the comparison. *)
Definition check_nonempty (f : jsstring) (data : DocumentRecord) : completion value :=
  let v := Get data f in
  if ToBoolean v
  then do s <- call_trim v ; Ok (VBool (0 <? String_length s)%nat)
  else Ok v.

(** [data.f && data.f.trim().length >= n] *)
Definition check_min_length (f : jsstring) (n : nat) (data : DocumentRecord)
  : completion value :=
  let v := Get data f in
  if ToBoolean v
  then do s <- call_trim v ; Ok (VBool (n <=? String_length s)%nat)
  else Ok v.

(** [Array.isArray(data.f) && data.f.length >= n] *)
Definition check_array_min (f : jsstring) (n : nat) (data : DocumentRecord)
  : completion value :=
  let v := Get data f in
  if Array_isArray v
  then Ok (VBool (n <=? Array_length v)%nat)
  else Ok (VBool false).

Definition initCheckRules : list (jsstring * list Rule.t) :=
  [ (js "basicInfo",
     [ Rule.mk (js "title") (js "文档标题") (js "文档标题是否填写且有意义")
         (check_nonempty (js "title"))
         (js "error") (js "请填写文档标题");
       Rule.mk (js "technicalField") (js "技术领域") (js "技术领域是否明确具体")
         (check_min_length (js "technicalField") 10)
         (js "warning") (js "技术领域描述应至少10个字符，并明确具体");
       Rule.mk (js "inventor") (js "发明人") (js "发明人信息是否完整")
         (check_nonempty (js "inventor"))
         (js "error") (js "请填写发明人姓名") ]);
    (js "backgroundTech",
     [ Rule.mk (js "backgroundTechnology") (js "背景技术描述")
         (js "背景技术描述是否详细")
         (check_min_length (js "backgroundTechnology") 50)
         (js "warning") (js "背景技术描述应至少50个字符，详细说明现有技术状况");
       Rule.mk (js "currentProblems") (js "现有技术问题")
         (js "是否明确指出现有技术存在的问题")
         (check_min_length (js "currentProblems") 30)
         (js "error") (js "请详细描述现有技术存在的问题，不少于30个字符") ]);
    (js "technicalSolution",
     [ Rule.mk (js "technicalProblem") (js "技术问题")
         (js "要解决的技术问题是否明确")
         (check_min_length (js "technicalProblem") 20)
         (js "error") (js "请明确描述要解决的技术问题，至少20个字符");
       Rule.mk (js "technicalSolution") (js "技术方案")
         (js "技术方案是否详细可行")
         (check_min_length (js "technicalSolution") 100)
         (js "error") (js "技术方案描述应详细可行，至少100个字符");
       Rule.mk (js "keyFeatures") (js "关键技术特征")
         (js "是否列出了关键技术特征")
         (check_array_min (js "keyFeatures") 3)
         (js "warning") (js "建议列出至少3个关键技术特征") ]);
    (js "technicalEffects",
     [ Rule.mk (js "beneficialEffects") (js "有益效果")
         (js "是否说明了有益效果")
         (check_min_length (js "beneficialEffects") 30)
         (js "error") (js "请详细描述有益效果，至少30个字符");
       Rule.mk (js "performanceData") (js "性能数据")
         (js "是否有性能数据支持")
         (check_nonempty (js "performanceData"))
         (js "info") (js "建议提供具体的性能数据以增强说服力") ]);
    (js "implementation",
     [ Rule.mk (js "embodimentDescription") (js "具体实施方式")
         (js "实施方式是否描述清楚")
         (check_min_length (js "embodimentDescription") 50)
         (js "warning") (js "具体实施方式应详细描述，至少50个字符") ]) ].

(** ** The checker *)

Record QualityChecker : Type := { checkRules : list (jsstring * list Rule.t) }.

(** [new QualityChecker()] *)
Definition new_QualityChecker : QualityChecker :=
  {| checkRules := initCheckRules |}.

(** The object literal built for a rule once its predicate has returned. *)
Definition checkResult_of (rule : Rule.t) (isValid : value) : CheckResult.t :=
  CheckResult.mk (Rule.id rule) (Rule.name rule) (Rule.description rule)
    isValid (Rule.severity rule) (Rule.suggestion rule).

(** The body of the [rules.forEach] callback of [checkCategory]. *)
Definition checkRule (data : DocumentRecord) (rule : Rule.t)
    (result : CategoryResult.t) : completion CategoryResult.t :=
  do isValid <- Rule.check rule data ;
  let checkResult := checkResult_of rule isValid in
  let '(CategoryResult.mk total passed errors warnings suggestions) := result in
  if ToBoolean isValid then
    Ok (CategoryResult.mk total (passed + 1) errors warnings suggestions)
  else if String_eqb (Rule.severity rule) (js "error") then
    Ok (CategoryResult.mk total passed (errors ++ [checkResult]) warnings suggestions)
  else if String_eqb (Rule.severity rule) (js "warning") then
    Ok (CategoryResult.mk total passed errors (warnings ++ [checkResult]) suggestions)
  else
    Ok (CategoryResult.mk total passed errors warnings (suggestions ++ [checkResult])).

Definition checkCategory (data : DocumentRecord) (rules : list Rule.t)
  : completion CategoryResult.t :=
  forEach (checkRule data) rules (CategoryResult.mk (length rules) 0 [] [] []).

(** The body of the [Object.keys(this.checkRules).forEach] callback. *)
Definition checkDocument_step (this : QualityChecker) (data : DocumentRecord)
    (category : jsstring) (results : CheckReport.t) : completion CheckReport.t :=
  match obj_get (checkRules this) category with
  | None => Throw (TypeError "Cannot read properties of undefined (reading 'length')")
  | Some rules =>
    do categoryResults <- checkCategory data rules ;
    Ok (CheckReport.mk
          (CheckReport.overall results)
          (CheckReport.score results)
          (CheckReport.totalChecks results + CategoryResult.total categoryResults)
          (CheckReport.passedChecks results + CategoryResult.passed categoryResults)
          (CheckReport.errors results ++ CategoryResult.errors categoryResults)
          (CheckReport.warnings results ++ CategoryResult.warnings categoryResults)
          (CheckReport.suggestions results ++ CategoryResult.suggestions categoryResults)
          (obj_set category categoryResults (CheckReport.categories results)))
  end.

(** [Math.round((passedChecks / totalChecks) * 100)] when [totalChecks > 0],
    else [0]. *)
Definition score_of (passedChecks totalChecks : nat) : Z :=
  if (0 <? totalChecks)%nat
  then Math_round
         (SFmul prec emax
            (SFdiv prec emax (Number_of_nat passedChecks) (Number_of_nat totalChecks))
            (Number_of_nat 100))
  else 0%Z.

Definition overall_of (errors warnings : list CheckResult.t) : jsstring :=
  if (0 <? length errors)%nat then js "fail"
  else if (0 <? length warnings)%nat then js "warning"
  else js "pass".

Definition checkDocument (this : QualityChecker) (data : DocumentRecord)
  : completion CheckReport.t :=
  let results := CheckReport.mk (js "pass") 0 0 0 [] [] [] [] in
  do results <- forEach (checkDocument_step this data)
                        (Object_keys (checkRules this)) results ;
  Ok (CheckReport.mk
        (overall_of (CheckReport.errors results) (CheckReport.warnings results))
        (score_of (CheckReport.passedChecks results) (CheckReport.totalChecks results))
        (CheckReport.totalChecks results)
        (CheckReport.passedChecks results)
        (CheckReport.errors results)
        (CheckReport.warnings results)
        (CheckReport.suggestions results)
        (CheckReport.categories results)).

(** ** The report renderer *)

(** The line feed written [\n] in the source. *)
Definition LF : jsstring := [10%N].

(** [statusMap[status] || status]; the three labels are non-empty, hence
    truthy. Properties a literal inherits from [Object.prototype] are not
    modelled. *)
Definition getStatusText (status : jsstring) : jsstring :=
  let statusMap :=
    [ (js "pass", js "✅ 通过");
      (js "warning", js "⚠️ 有警告");
      (js "fail", js "❌ 未通过") ] in
  match obj_get statusMap status with
  | Some text => text
  | None => status
  end.

(** [nameMap[category] || category] *)
Definition getCategoryName (category : jsstring) : jsstring :=
  let nameMap :=
    [ (js "basicInfo", js "基本信息");
      (js "backgroundTech", js "背景技术");
      (js "technicalSolution", js "技术方案");
      (js "technicalEffects", js "技术效果");
      (js "implementation", js "实施方式") ] in
  match obj_get nameMap category with
  | Some text => text
  | None => category
  end.

Definition Number_of_length {A} (l : list A) : jsstring :=
  Number_toString (Z.of_nat (length l)).

(** The callback of the three [forEach] loops over issues:
    [report += `- **${x.name}**: ${x.suggestion}\n`]. *)
Definition report_issue (report : jsstring) (x : CheckResult.t) : jsstring :=
  report ++ js "- **" ++ CheckResult.name x ++ js "**: "
         ++ CheckResult.suggestion x ++ LF.

(** The callback of the loop over [Object.keys(checkResults.categories)],
    with the category's result already looked up. *)
Definition report_category (report : jsstring)
    (entry : jsstring * CategoryResult.t) : jsstring :=
  let '(category, categoryResult) := entry in
  let report := report ++ js "### " ++ getCategoryName category ++ LF ++ LF in
  let report :=
    report ++ js "- 通过: "
           ++ Number_toString (Z.of_nat (CategoryResult.passed categoryResult))
           ++ js "/"
           ++ Number_toString (Z.of_nat (CategoryResult.total categoryResult))
           ++ LF in
  let report :=
    if (0 <? length (CategoryResult.errors categoryResult))%nat
    then report ++ js "- 错误: "
                ++ Number_of_length (CategoryResult.errors categoryResult) ++ LF
    else report in
  let report :=
    if (0 <? length (CategoryResult.warnings categoryResult))%nat
    then report ++ js "- 警告: "
                ++ Number_of_length (CategoryResult.warnings categoryResult) ++ LF
    else report in
  let report :=
    if (0 <? length (CategoryResult.suggestions categoryResult))%nat
    then report ++ js "- 建议: "
                ++ Number_of_length (CategoryResult.suggestions categoryResult) ++ LF
    else report in
  report ++ LF.

Definition generateReport (checkResults : CheckReport.t) : jsstring :=
  let report := js "# 质量检查报告" ++ LF ++ LF in
  let report := report ++ js "## 总体评估" ++ LF ++ LF in
  let report :=
    report ++ js "- **总分**: "
           ++ Number_toString (CheckReport.score checkResults)
           ++ js "/100" ++ LF in
  let report :=
    report ++ js "- **状态**: "
           ++ getStatusText (CheckReport.overall checkResults) ++ LF in
  let report :=
    report ++ js "- **检查项目**: "
           ++ Number_toString (Z.of_nat (CheckReport.passedChecks checkResults))
           ++ js "/"
           ++ Number_toString (Z.of_nat (CheckReport.totalChecks checkResults))
           ++ js " 通过" ++ LF ++ LF in
  let report :=
    if (0 <? length (CheckReport.errors checkResults))%nat then
      let report :=
        report ++ js "## ❌ 错误 ("
               ++ Number_of_length (CheckReport.errors checkResults)
               ++ js ")" ++ LF ++ LF in
      let report := report ++ js "以下问题需要立即修复：" ++ LF ++ LF in
      let report := fold_left report_issue (CheckReport.errors checkResults) report in
      report ++ LF
    else report in
  let report :=
    if (0 <? length (CheckReport.warnings checkResults))%nat then
      let report :=
        report ++ js "## ⚠️ 警告 ("
               ++ Number_of_length (CheckReport.warnings checkResults)
               ++ js ")" ++ LF ++ LF in
      let report := report ++ js "以下问题建议修复：" ++ LF ++ LF in
      let report := fold_left report_issue (CheckReport.warnings checkResults) report in
      report ++ LF
    else report in
  let report :=
    if (0 <? length (CheckReport.suggestions checkResults))%nat then
      let report :=
        report ++ js "## 💡 建议 ("
               ++ Number_of_length (CheckReport.suggestions checkResults)
               ++ js ")" ++ LF ++ LF in
      let report := report ++ js "以下改进建议供参考：" ++ LF ++ LF in
      let report := fold_left report_issue (CheckReport.suggestions checkResults) report in
      report ++ LF
    else report in
  let report := report ++ js "## 分类详情" ++ LF ++ LF in
  fold_left report_category (CheckReport.categories checkResults) report.

(** ** Proposals for missing fields *)

(** What [getAutoFixSuggestions] reads from its environment: the clock,
    through [new Date()], and [Math.random()]. A [Date] is kept as the two
    observations the code makes of it. *)
Module Date.
Record t : Type := mk {
  toLocaleDateString : jsstring;
  getFullYear : Z
}.
End Date.

(** The world threaded through a call: the successive clock readings and
    random draws, with the number of each consumed so far. *)
Record World : Type := {
  clock : nat -> Date.t;
  clock_reads : nat;
  dice : nat -> spec_float;
  dice_reads : nat
}.

(** [new Date()] *)
Definition new_Date (w : World) : Date.t * World :=
  (clock w (clock_reads w),
   {| clock := clock w; clock_reads := S (clock_reads w);
      dice := dice w; dice_reads := dice_reads w |}).

(** [Math.random()] *)
Definition Math_random (w : World) : spec_float * World :=
  (dice w (dice_reads w),
   {| clock := clock w; clock_reads := clock_reads w;
      dice := dice w; dice_reads := S (dice_reads w) |}).

(** [s.padStart(maxLength, fillString)] *)
Definition String_padStart (s : jsstring) (maxLength : nat) (fillString : jsstring)
  : jsstring :=
  if (maxLength <=? length s)%nat then s
  else if bool_decide (fillString = []) then s
  else
    let fillLen := (maxLength - length s)%nat in
    take fillLen (concat (replicate fillLen fillString)) ++ s.

Module FixSuggestion.
Record t : Type := mk {
  type : jsstring;
  action : jsstring;
  value : jsstring
}.
End FixSuggestion.

(** State passing over the record [data], the world [w] and the local
    [suggestions]; the record is handed back as the call leaves it. *)
Definition getAutoFixSuggestions (data : DocumentRecord) (w : World)
  : completion (list FixSuggestion.t * DocumentRecord * World) :=
  let suggestions : list FixSuggestion.t := [] in
  (* !data.title || data.title.trim().length === 0 *)
  do noTitle <-
    (if negb (ToBoolean (Get data (js "title"))) then Ok true
     else do s <- call_trim (Get data (js "title")) ;
          Ok (String_length s =? 0)%nat) ;
  let '(suggestions, w) :=
    if noTitle : bool then
      let '(now, w) := new_Date w in
      (suggestions ++
         [FixSuggestion.mk (js "title") (js "setTitle")
            (js "技术方案_" ++ Date.toLocaleDateString now)], w)
    else (suggestions, w) in
  let '(suggestions, w) :=
    if negb (ToBoolean (Get data (js "documentId"))) then
      let '(now, w) := new_Date w in
      let '(r, w) := Math_random w in
      (suggestions ++
         [FixSuggestion.mk (js "documentId") (js "setDocumentId")
            (js "TD-" ++ Number_toString (Date.getFullYear now) ++ js "-"
               ++ String_padStart
                    (Number_toString
                       (Math_floor (SFmul prec emax r (Number_of_Z 1000))))
                    3 (js "0"))], w)
    else (suggestions, w) in
  let '(suggestions, w) :=
    if negb (ToBoolean (Get data (js "date"))) then
      let '(now, w) := new_Date w in
      (suggestions ++
         [FixSuggestion.mk (js "date") (js "setDate")
            (Date.toLocaleDateString now)], w)
    else (suggestions, w) in
  Ok (suggestions, data, w).

(** ** Vocabulary of the properties *)

(** *** Rules, verdicts and the report without loops *)

(** Every rule of a checker, in category-then-rule order. *)
Definition all_rules (this : QualityChecker) : list Rule.t :=
  concat (map snd (checkRules this)).

(** The value a rule's predicate returns on a record ([undefined] stands
    in when it throws), and whether the rule passes: the test
    [if (isValid)] of [checkCategory]. *)
Definition verdict (data : DocumentRecord) (rule : Rule.t) : value :=
  match Rule.check rule data with
  | Ok v => v
  | Throw _ => VUndefined
  end.

Definition passes (data : DocumentRecord) (rule : Rule.t) : bool :=
  match Rule.check rule data with
  | Ok v => ToBoolean v
  | Throw _ => false
  end.

(** The free-text fields the rule table reads. *)
Definition string_fields : list jsstring :=
  [ js "title"; js "technicalField"; js "inventor"; js "backgroundTechnology";
    js "currentProblems"; js "technicalProblem"; js "technicalSolution";
    js "beneficialEffects"; js "performanceData"; js "embodimentDescription" ].

Definition absent_or_string (data : DocumentRecord) (f : jsstring) : bool :=
  match data !! f with
  | None | Some (VString _) => true
  | Some _ => false
  end.

(** A well-formed record: every free-text field is absent or a string;
    [keyFeatures], like any other property, may hold any value. *)
Definition well_formed (data : DocumentRecord) : bool :=
  forallb (absent_or_string data) string_fields.

(** Whether a property is one of the free-text fields. *)
Definition is_text_field (f : jsstring) : bool := existsb (String_eqb f) string_fields.

(** The severity bucket a failed rule is routed to. *)
Inductive bucket : Type := Errors | Warnings | Suggestions.

Definition bucket_of (rule : Rule.t) : bucket :=
  if String_eqb (Rule.severity rule) (js "error") then Errors
  else if String_eqb (Rule.severity rule) (js "warning") then Warnings
  else Suggestions.

Definition bucket_eqb (a b : bucket) : bool :=
  match a, b with
  | Errors, Errors | Warnings, Warnings | Suggestions, Suggestions => true
  | _, _ => false
  end.

(** The failed rules of a list that are routed to bucket [b], as results. *)
Definition failures (b : bucket) (data : DocumentRecord) (rules : list Rule.t)
  : list CheckResult.t :=
  map (fun rule => checkResult_of rule (verdict data rule))
      (List.filter (fun rule => negb (passes data rule) && bucket_eqb (bucket_of rule) b)
                   rules).

(** What [checkCategory] computes, written without the loop. *)
Definition summary (data : DocumentRecord) (rules : list Rule.t) : CategoryResult.t :=
  CategoryResult.mk (length rules)
    (length (List.filter (passes data) rules))
    (failures Errors data rules)
    (failures Warnings data rules)
    (failures Suggestions data rules).

(** The list a category result keeps for a bucket. *)
Definition bucket_list (b : bucket) (c : CategoryResult.t) : list CheckResult.t :=
  match b with
  | Errors => CategoryResult.errors c
  | Warnings => CategoryResult.warnings c
  | Suggestions => CategoryResult.suggestions c
  end.

(** How often a rule id occurs in a bucket. *)
Definition occurrences (id : jsstring) (l : list CheckResult.t) : nat :=
  length (List.filter (fun c => String_eqb (CheckResult.id c) id) l).

(** What [checkDocument] computes, written without the loops. *)
Definition summaries (data : DocumentRecord) (rules : list (jsstring * list Rule.t))
  : list (jsstring * CategoryResult.t) :=
  map (fun entry => (fst entry, summary data (snd entry))) rules.

Definition report_of (this : QualityChecker) (data : DocumentRecord) : CheckReport.t :=
  let rules := all_rules this in
  let passed := length (List.filter (passes data) rules) in
  CheckReport.mk
    (overall_of (failures Errors data rules) (failures Warnings data rules))
    (score_of passed (length rules))
    (length rules)
    passed
    (failures Errors data rules)
    (failures Warnings data rules)
    (failures Suggestions data rules)
    (summaries data (checkRules this)).

(** Every predicate of the checker returns on the record. *)
Definition predicates_return (this : QualityChecker) (data : DocumentRecord) : Prop :=
  Forall (fun rule => exists v, Rule.check rule data = Ok v) (all_rules this).

(** The rules of a checker that carry a given severity. *)
Definition rules_of_severity (this : QualityChecker) (sev : jsstring) : list Rule.t :=
  List.filter (fun rule => String_eqb (Rule.severity rule) sev) (all_rules this).

(** The rule of a checker with a given id. *)
Definition find_rule (this : QualityChecker) (id : jsstring) : option Rule.t :=
  List.find (fun rule => String_eqb (Rule.id rule) id) (all_rules this).

(** Exposes the eleven rules of the table in a goal [Forall P (all_rules _)]
    and leaves one goal per rule. *)
Ltac each_rule :=
  cbv [all_rules new_QualityChecker checkRules initCheckRules concat map snd app];
  repeat apply List.Forall_cons; try apply List.Forall_nil;
  cbn [Rule.check Rule.id Rule.severity].

(** *** Records used as examples *)

(** A text of [n] letters. *)
Definition letters (n : nat) : jsstring := replicate n 120%N.

(** A record whose only field is backgroundTechnology. *)
Definition background_only (s : jsstring) : DocumentRecord :=
  <[js "backgroundTechnology" := VString s]> ∅.

(** A record that satisfies the six error-severity rules and nothing else. *)
Definition errors_satisfied : DocumentRecord :=
  <[js "title" := VString (js "Widget")]>
  (<[js "inventor" := VString (js "Jane Doe")]>
  (<[js "currentProblems" := VString (letters 30)]>
  (<[js "technicalProblem" := VString (letters 20)]>
  (<[js "technicalSolution" := VString (letters 100)]>
  (<[js "beneficialEffects" := VString (letters 30)]> ∅))))).

(** A record that satisfies all eleven rules. *)
Definition all_satisfied : DocumentRecord :=
  <[js "technicalField" := VString (letters 10)]>
  (<[js "backgroundTechnology" := VString (letters 50)]>
  (<[js "keyFeatures" := VArray [VString (js "a"); VString (js "b"); VString (js "c")]]>
  (<[js "performanceData" := VString (js "12 ms")]>
  (<[js "embodimentDescription" := VString (letters 50)]> errors_satisfied)))).

(** 98 letters followed by one emoji, a surrogate pair: 99 code points in
    100 code units. *)
Definition ninety_nine_code_points : jsstring := letters 98 ++ js "😀".

(** A record whose title is present and blank, with an id and a date. *)
Definition blank_title_record : DocumentRecord :=
  <[js "title" := VString (js "   ")]>
  (<[js "documentId" := VString (js "TD-2024-001")]>
  (<[js "date" := VString (js "2024/1/2")]> ∅)).

(** *** The score, exactly *)

(** The score as the specification words it: the exact quotient
    [passedChecks / totalChecks * 100], rounded to the nearest integer with
    halves away from zero; 0 when there is no check. *)
Definition round_half_away_from_zero (q : Q) : Z :=
  if Qle_bool 0 q then Qfloor (q + (1 # 2))%Q
  else (- Qfloor (- q + (1 # 2))%Q)%Z.

Definition exact_score (passedChecks totalChecks : nat) : Z :=
  if (0 <? totalChecks)%nat
  then round_half_away_from_zero
         (inject_Z (Z.of_nat passedChecks) / inject_Z (Z.of_nat totalChecks) * 100)%Q
  else 0%Z.

(** *** Thresholds and the value copied into a result *)

(** The text of a free-text field: the empty string when it is absent. *)
Definition field_text (data : DocumentRecord) (f : jsstring) : jsstring :=
  match data !! f with
  | Some (VString s) => s
  | _ => []
  end.

(** The values a predicate of the table returns on a well-formed record. *)
Definition table_verdict (v : value) : Prop :=
  v = VBool true \/ v = VBool false \/ v = VUndefined \/ v = VString [].

(** The minimum-length rules of the table: field and threshold. *)
Definition min_length_rules : list (list N * nat) :=
  [ (js "technicalField", 10); (js "backgroundTechnology", 50);
    (js "currentProblems", 30); (js "technicalProblem", 20);
    (js "technicalSolution", 100); (js "beneficialEffects", 30);
    (js "embodimentDescription", 50) ].

(** A string without surrogate code units: every unit is a code point. *)
Definition no_surrogates (s : jsstring) : bool :=
  forallb (fun c => negb (is_high_surrogate c || is_low_surrogate c)) s.

(** The reading of a minimum-length rule that counts code points: the rule
    on field [f] passes exactly when the trimmed text has [n] or more. *)
Definition threshold_in_code_points (rule : Rule.t) (f : jsstring) (n : nat) : Prop :=
  forall (data : DocumentRecord) (s : jsstring),
    data !! f = Some (VString s) ->
    passes data rule = (n <=? code_points (String_trim s))%nat.

(** The value [checkCategory] copies into [passed] for a rule of the table,
    on a well-formed record: [&&] hands back its left operand when that is
    falsy, so a rule on an absent text field yields [undefined] and one on an
    empty text yields the empty string; otherwise the comparison's boolean. *)
Definition copied_verdict (data : DocumentRecord) (rule : Rule.t) : value :=
  if is_text_field (Rule.id rule) then
    match data !! Rule.id rule with
    | None => VUndefined
    | Some (VString []) => VString []
    | _ => VBool (passes data rule)
    end
  else VBool (passes data rule).

(** Replaces [is_text_field f], for a field [f] of the table, by its value. *)
Ltac evaluate_is_text_field :=
  repeat match goal with
         | |- context [is_text_field ?f] =>
           let b := eval vm_compute in (is_text_field f) in
           change (is_text_field f) with b
         end.

(** What a rule measures of the value of its field: the trimmed length of
    a text, the number of elements of the keyFeatures list; other values
    measure nothing. Improving a field is not lowering this measure. *)
Definition field_measure (f : jsstring) (v : value) : nat :=
  if is_text_field f then
    match v with
    | VString s => String_length (String_trim s)
    | _ => 0
    end
  else
    match v with
    | VArray elems => length elems
    | _ => 0
    end.

(** *** The text of a report *)

(** The parts of the text [generateReport] writes. *)

(** The title and the overall-assessment block. *)
Definition assessment_block (r : CheckReport.t) : jsstring :=
  js "# 质量检查报告" ++ LF ++ LF
  ++ js "## 总体评估" ++ LF ++ LF
  ++ js "- **总分**: " ++ Number_toString (CheckReport.score r) ++ js "/100" ++ LF
  ++ js "- **状态**: " ++ getStatusText (CheckReport.overall r) ++ LF
  ++ js "- **检查项目**: "
  ++ Number_toString (Z.of_nat (CheckReport.passedChecks r)) ++ js "/"
  ++ Number_toString (Z.of_nat (CheckReport.totalChecks r)) ++ js " 通过" ++ LF ++ LF.

Definition issue_line (x : CheckResult.t) : jsstring :=
  js "- **" ++ CheckResult.name x ++ js "**: " ++ CheckResult.suggestion x ++ LF.

(** A section of issues, present when the list is not empty: its heading
    with the count, its introduction, one line per issue. *)
Definition issues_section (heading intro : jsstring) (l : list CheckResult.t)
  : jsstring :=
  match l with
  | [] => []
  | _ :: _ =>
    heading ++ Number_of_length l ++ js ")" ++ LF ++ LF
    ++ intro ++ LF ++ LF
    ++ concat (map issue_line l) ++ LF
  end.

(** A count line of a category's detail, present when the count is not 0. *)
Definition count_line (label : jsstring) (l : list CheckResult.t) : jsstring :=
  match l with
  | [] => []
  | _ :: _ => label ++ Number_of_length l ++ LF
  end.

Definition category_block (entry : list N * CategoryResult.t) : jsstring :=
  js "### " ++ getCategoryName (fst entry) ++ LF ++ LF
  ++ js "- 通过: "
  ++ Number_toString (Z.of_nat (CategoryResult.passed (snd entry))) ++ js "/"
  ++ Number_toString (Z.of_nat (CategoryResult.total (snd entry))) ++ LF
  ++ count_line (js "- 错误: ") (CategoryResult.errors (snd entry))
  ++ count_line (js "- 警告: ") (CategoryResult.warnings (snd entry))
  ++ count_line (js "- 建议: ") (CategoryResult.suggestions (snd entry))
  ++ LF.

(** The text as the sequence of its blocks. *)
Definition report_blocks (r : CheckReport.t) : list N :=
  assessment_block r
  ++ issues_section (js "## ❌ 错误 (") (js "以下问题需要立即修复：")
       (CheckReport.errors r)
  ++ issues_section (js "## ⚠️ 警告 (") (js "以下问题建议修复：")
       (CheckReport.warnings r)
  ++ issues_section (js "## 💡 建议 (") (js "以下改进建议供参考：")
       (CheckReport.suggestions r)
  ++ js "## 分类详情" ++ LF ++ LF
  ++ concat (map category_block (CheckReport.categories r)).

(** Whether [needle] occurs in [text] as a run of consecutive units. *)
Fixpoint starts_with (needle text : jsstring) : bool :=
  match needle, text with
  | [], _ => true
  | _ :: _, [] => false
  | c :: needle', d :: text' => (c =? d)%N && starts_with needle' text'
  end.

Fixpoint occurs_in (needle text : jsstring) : bool :=
  starts_with needle text
  || match text with
     | [] => false
     | _ :: text' => occurs_in needle text'
     end.

(** Whether the code unit [c] occurs in a text. *)
Definition has (c : code_unit) (text : list N) : bool := existsb (N.eqb c) text.

Definition is_nil {A} (l : list A) : bool :=
  match l with [] => true | _ :: _ => false end.

(** What can be read off the text of a report: each of the three section
    headings occurs in it exactly when its list is not empty, and in the
    detail of a category each count label occurs exactly when its list is not
    empty. *)
Definition headings_match (r : CheckReport.t) : bool :=
  let text := generateReport r in
  Bool.eqb (occurs_in (js "## ❌ 错误 (") text) (negb (is_nil (CheckReport.errors r)))
  && Bool.eqb (occurs_in (js "## ⚠️ 警告 (") text) (negb (is_nil (CheckReport.warnings r)))
  && Bool.eqb (occurs_in (js "## 💡 建议 (") text)
       (negb (is_nil (CheckReport.suggestions r)))
  && forallb
       (fun entry : list N * CategoryResult.t =>
          Bool.eqb (occurs_in (js "- 错误: ") (category_block entry))
            (negb (is_nil (CategoryResult.errors (snd entry))))
          && Bool.eqb (occurs_in (js "- 警告: ") (category_block entry))
               (negb (is_nil (CategoryResult.warnings (snd entry))))
          && Bool.eqb (occurs_in (js "- 建议: ") (category_block entry))
               (negb (is_nil (CategoryResult.suggestions (snd entry)))))
       (CheckReport.categories r).

(** A category result in which every count line is written. *)
Definition every_count : CategoryResult.t :=
  let x := CheckResult.mk [] [] [] VUndefined [] [] in
  CategoryResult.mk 0 0 [x] [x] [x].

(** *** Proposals and their environment *)

(** The conditions under which [getAutoFixSuggestions] proposes a value. *)
Definition title_blank (data : DocumentRecord) : bool :=
  match Get data (js "title") with
  | VString s => (String_length (String_trim s) =? 0)%nat
  | v => negb (ToBoolean v)
  end.

Definition falsy (data : DocumentRecord) (f : jsstring) : bool :=
  negb (ToBoolean (Get data f)).

Definition proposed_fields (data : DocumentRecord) : list (list N) :=
  (if title_blank data then [js "title"] else [])
  ++ (if falsy data (js "documentId") then [js "documentId"] else [])
  ++ (if falsy data (js "date") then [js "date"] else []).

Definition is_digit (c : code_unit) : bool := ((48 <=? c) && (c <=? 57))%N.

(** A draw of [Math.random()]: a binary64 number, zero or positive, below 1. *)
Definition unit_interval (r : spec_float) : bool :=
  match r with
  | S754_zero _ => true
  | S754_finite false m e =>
    bounded prec emax m e && (e <? 0)%Z && (Z.pos m <? 2 ^ (- e))%Z
  | _ => false
  end.

(** The floor of a number is a three-digit suffix: one of 0, ..., 999. *)
Definition floor_is_suffix (x : spec_float) : Prop :=
  (0 <= Math_floor x <= 999)%Z.

(** The suffix written for [n]: three decimal digits. *)
Definition suffix_of (n : Z) : list N := String_padStart (Number_toString n) 3 (js "0").

Definition three_digits (t : list N) : bool :=
  (length t =? 3)%nat && forallb is_digit t.

(** The clock readings a call in world [w] makes before it leaves [w']. *)
Definition read_between (w w' : World) (now : Date.t) : Prop :=
  exists k, (clock_reads w <= k < clock_reads w')%nat /\ now = clock w k.

(** The number a run of decimal digits writes. *)
Definition digits_value (t : list N) : Z :=
  fold_left (fun acc c => (acc * 10 + (Z.of_N c - 48))%Z) t 0%Z.

(** The number behind the suffix of a document id proposed in world [w]:
    the floor of a thousand times the next draw of [Math.random()]. *)
Definition drawn_number (w : World) : Z :=
  Math_floor (SFmul prec emax (dice w (dice_reads w)) (Number_of_Z 1000)).

(** The suffix of a drawn number: it lies in 0, ..., 999, is written with
    three digits, and these digits write it. *)
Definition suffix_writes (n : Z) : Prop :=
  (0 <= n <= 999)%Z
  /\ three_digits (suffix_of n) = true
  /\ digits_value (suffix_of n) = n.

(** The shape of a proposal made in world [w] by a call that leaves [w'].
    The document id ends with the suffix of the number drawn in [w], and the
    call has consumed that draw. *)
Definition proposal_shape (w w' : World) (p : FixSuggestion.t) : Prop :=
  (FixSuggestion.type p = js "title"
   /\ FixSuggestion.action p = js "setTitle"
   /\ exists now, read_between w w' now
        /\ FixSuggestion.value p = js "技术方案_" ++ Date.toLocaleDateString now)
  \/ (FixSuggestion.type p = js "documentId"
      /\ FixSuggestion.action p = js "setDocumentId"
      /\ exists now,
           read_between w w' now
           /\ dice_reads w' = S (dice_reads w)
           /\ FixSuggestion.value p =
              js "TD-" ++ Number_toString (Date.getFullYear now) ++ js "-"
              ++ suffix_of (drawn_number w)
           /\ suffix_writes (drawn_number w))
  \/ (FixSuggestion.type p = js "date"
      /\ FixSuggestion.action p = js "setDate"
      /\ exists now, read_between w w' now
           /\ FixSuggestion.value p = Date.toLocaleDateString now).

(** A world whose clock stands still and whose draws are all one half. *)
Definition still_world : World :=
  {| clock := fun _ => Date.mk (js "2024/1/2") 2024;
     clock_reads := 0;
     dice := fun _ => S754_finite false 4503599627370496 (-53);
     dice_reads := 0 |}.

(** *** Records on which the predicates return *)

(** A value on which [v && v.trim()] returns: a falsy value, which ends the
    conjunction, or a string, which has [trim]. *)
Definition trimmable (v : value) : bool :=
  match v with
  | VString _ => true
  | _ => negb (ToBoolean v)
  end.

(** The truthy values of a record of data that have no [trim]: [true], a
    number other than 0 and NaN, an array, an object. *)
Definition lacks_trim (v : value) : bool :=
  match v with
  | VBool b => b
  | VNumber x => ToBoolean (VNumber x)
  | VArray _ | VObject _ => true
  | VUndefined | VNull | VString _ => false
  end.

(** A record of which every text field is a trimmable value. *)
Definition text_fields_trimmable (data : DocumentRecord) : bool :=
  forallb (fun f => trimmable (Get data f)) string_fields.

(** Whether a rule's predicate returns on a record. *)
Definition returns_on (data : DocumentRecord) (rule : Rule.t) : bool :=
  match Rule.check rule data with
  | Ok _ => true
  | Throw _ => false
  end.

(** The properties the rule table reads. *)
Definition rule_fields : list (list N) := map Rule.id (all_rules new_QualityChecker).

(** Whether a text is made of white space only. *)
Definition blank (s : jsstring) : bool := forallb isWhiteSpace s.

(** The non-emptiness rules of the table. *)
Definition nonempty_rules : list (list N) :=
  [ js "title"; js "inventor"; js "performanceData" ].

(** The rules of the first category of the table. *)
Definition basicInfo_rules : list Rule.t :=
  default [] (obj_get (checkRules new_QualityChecker) (js "basicInfo")).

(** A record as a form with no text control gives it: every text field is
    [null]. *)
Definition null_fields_record : DocumentRecord :=
  foldr (fun f data => <[f := VNull]> data) ∅ string_fields.

(** A record whose title is a number. *)
Definition number_title_record : DocumentRecord :=
  <[js "title" := VNumber (Number_of_Z 5)]> ∅.

(** A record that lacks nothing [getAutoFixSuggestions] looks for. *)
Definition complete_record : DocumentRecord :=
  <[js "title" := VString (js "Widget")]>
  (<[js "documentId" := VString (js "TD-2024-001")]>
  (<[js "date" := VString (js "2024/1/2")]> ∅)).

(** *** The totals of a report *)

(** The number of issues of a report. *)
Definition issue_count (r : CheckReport.t) : nat :=
  length (CheckReport.errors r) + length (CheckReport.warnings r)
  + length (CheckReport.suggestions r).

(** The lists of one bucket, category by category. *)
Definition bucket_lists (b : bucket) (r : CheckReport.t) : list (list CheckResult.t) :=
  map (fun entry => bucket_list b (snd entry)) (CheckReport.categories r).

(** The scores a report of the checker can carry, by number of passed
    checks. *)
Definition score_steps : list Z := [0; 9; 18; 27; 36; 45; 55; 64; 73; 82; 91; 100]%Z.

(** * Properties *)

Section Evaluation.
Variable data : DocumentRecord.

(** One step of the loop of [checkCategory], for a predicate that returns. *)
Lemma checkRule_returns rule v t p es ws ss :
  Rule.check rule data = Ok v ->
  checkRule data rule (CategoryResult.mk t p es ws ss) =
  Ok (CategoryResult.mk t
        (p + length (List.filter (passes data) [rule]))
        (es ++ failures Errors data [rule])
        (ws ++ failures Warnings data [rule])
        (ss ++ failures Suggestions data [rule])).
Proof.
  intros Hv. unfold checkRule, failures, passes, verdict, bucket_of.
  cbn [List.filter]. rewrite !Hv. cbn [bind].
  destruct (ToBoolean v); cbn [negb andb length map].
  - rewrite !app_nil_r. reflexivity.
  - destruct (String_eqb (Rule.severity rule) (js "error"));
      [|destruct (String_eqb (Rule.severity rule) (js "warning"))];
      cbn [bucket_eqb map length]; rewrite ?Hv, !app_nil_r, Nat.add_0_r;
      reflexivity.
Qed.

Lemma failures_cons b rule rules :
  failures b data (rule :: rules) = failures b data [rule] ++ failures b data rules.
Proof.
  unfold failures. cbn [List.filter].
  destruct (negb (passes data rule) && bucket_eqb (bucket_of rule) b); reflexivity.
Qed.

Lemma forEach_checkRule rules :
  Forall (fun rule => exists v, Rule.check rule data = Ok v) rules ->
  forall t p es ws ss,
    forEach (checkRule data) rules (CategoryResult.mk t p es ws ss) =
    Ok (CategoryResult.mk t
          (p + length (List.filter (passes data) rules))
          (es ++ failures Errors data rules)
          (ws ++ failures Warnings data rules)
          (ss ++ failures Suggestions data rules)).
Proof.
  induction 1 as [|rule rules [v Hv] _ IH]; intros t p es ws ss.
  - cbn. rewrite !app_nil_r, Nat.add_0_r. reflexivity.
  - cbn [forEach]. rewrite (checkRule_returns _ _ _ _ _ _ _ Hv).
    cbn [bind]. rewrite IH.
    rewrite (failures_cons Errors rule rules),
      (failures_cons Warnings rule rules),
      (failures_cons Suggestions rule rules), !app_assoc.
    cbn [List.filter]. destruct (passes data rule); cbn [length];
      do 2 f_equal; lia.
Qed.

(** [checkCategory] returns the summary whenever every predicate returns. *)
Lemma checkCategory_summary rules :
  Forall (fun rule => exists v, Rule.check rule data = Ok v) rules ->
  checkCategory data rules = Ok (summary data rules).
Proof.
  intros H. unfold checkCategory. rewrite (forEach_checkRule _ H).
  reflexivity.
Qed.
End Evaluation.

(** ** Objects with ordered keys *)

Section ObjectLemmas.
Context {V : Type}.
Implicit Types (o : list (jsstring * V)) (k : jsstring).

Lemma String_eqb_eq (s t : jsstring) : String_eqb s t = true <-> s = t.
Proof. unfold String_eqb. apply bool_decide_eq_true. Qed.

Lemma String_eqb_neq (s t : jsstring) : String_eqb s t = false <-> s <> t.
Proof. unfold String_eqb. apply bool_decide_eq_false. Qed.

Lemma obj_get_app_fresh o o' k :
  ~ In k (map fst o) -> obj_get (o ++ o') k = obj_get o' k.
Proof.
  induction o as [|[k' v] o IH]; intros Hk; [reflexivity|].
  cbn in *. destruct (String_eqb k' k) eqn:E.
  - apply String_eqb_eq in E. tauto.
  - apply IH. tauto.
Qed.

Lemma obj_get_head o k v : obj_get ((k, v) :: o) k = Some v.
Proof.
  cbn. destruct (String_eqb k k) eqn:E; [reflexivity|].
  apply String_eqb_neq in E. congruence.
Qed.

Lemma obj_set_fresh o k v :
  ~ In k (map fst o) -> obj_set k v o = o ++ [(k, v)].
Proof.
  induction o as [|[k' v'] o IH]; intros Hk; [reflexivity|].
  cbn in *. destruct (String_eqb k' k) eqn:E.
  - apply String_eqb_eq in E. tauto.
  - rewrite IH by tauto. reflexivity.
Qed.
End ObjectLemmas.

(** ** The loops of [checkDocument] *)

Section Aggregation.
Variable this : QualityChecker.
Variable data : DocumentRecord.

Lemma failures_app b (l1 l2 : list Rule.t) :
  failures b data (l1 ++ l2) = failures b data l1 ++ failures b data l2.
Proof. unfold failures. rewrite List.filter_app, map_app. reflexivity. Qed.

Lemma checkDocument_loop (todo : list (jsstring * list Rule.t)) :
  forall (finished : list (jsstring * list Rule.t)) (results : CheckReport.t),
    checkRules this = finished ++ todo ->
    List.NoDup (Object_keys (checkRules this)) ->
    Object_keys (CheckReport.categories results) = Object_keys finished ->
    Forall (fun rule => exists v, Rule.check rule data = Ok v)
           (concat (map snd todo)) ->
    forEach (checkDocument_step this data) (Object_keys todo) results =
    Ok (CheckReport.mk
          (CheckReport.overall results)
          (CheckReport.score results)
          (CheckReport.totalChecks results + length (concat (map snd todo)))
          (CheckReport.passedChecks results
           + length (List.filter (passes data) (concat (map snd todo))))
          (CheckReport.errors results
           ++ failures Errors data (concat (map snd todo)))
          (CheckReport.warnings results
           ++ failures Warnings data (concat (map snd todo)))
          (CheckReport.suggestions results
           ++ failures Suggestions data (concat (map snd todo)))
          (CheckReport.categories results ++ summaries data todo)).
Proof.
  induction todo as [|[category rules] todo IH];
    intros finished results Hsplit Hnodup Hkeys Hret.
  - cbn. rewrite !app_nil_r, !Nat.add_0_r. destruct results; reflexivity.
  - cbn [map concat fst snd] in Hret. apply Forall_app in Hret as [Hhere Hrest].
    assert (Hfresh : ~ In category (Object_keys finished)).
    { rewrite Hsplit in Hnodup. unfold Object_keys in *.
      rewrite map_app in Hnodup. cbn in Hnodup.
      apply List.NoDup_remove_2 in Hnodup.
      intros Hin. apply Hnodup, in_or_app. left. exact Hin. }
    cbn [Object_keys map fst forEach]. unfold checkDocument_step at 1.
    rewrite Hsplit, (obj_get_app_fresh _ _ _ Hfresh), obj_get_head.
    rewrite (checkCategory_summary data rules Hhere). cbn [bind].
    rewrite obj_set_fresh
      by (change (~ In category (Object_keys (CheckReport.categories results)));
          rewrite Hkeys; exact Hfresh).
    fold (Object_keys todo).
    rewrite (IH (finished ++ [(category, rules)])).
    + cbn [CheckReport.overall CheckReport.score CheckReport.totalChecks
           CheckReport.passedChecks CheckReport.errors CheckReport.warnings
           CheckReport.suggestions CheckReport.categories
           CategoryResult.total CategoryResult.passed CategoryResult.errors
           CategoryResult.warnings CategoryResult.suggestions summary
           map concat fst snd summaries].
      rewrite !failures_app, List.filter_app, !length_app, <- !app_assoc.
      do 2 f_equal; lia.
    + rewrite <- app_assoc. exact Hsplit.
    + exact Hnodup.
    + cbn [CheckReport.categories]. unfold Object_keys in *.
      rewrite !map_app, Hkeys. reflexivity.
    + exact Hrest.
Qed.

(** [checkDocument] returns the report written without loops, whenever
    the category names are distinct and every predicate returns. *)
Lemma checkDocument_report :
  List.NoDup (Object_keys (checkRules this)) ->
  predicates_return this data ->
  checkDocument this data = Ok (report_of this data).
Proof.
  intros Hnodup Hret. unfold checkDocument.
  rewrite (checkDocument_loop (checkRules this) []); [|reflexivity|assumption|reflexivity|exact Hret].
  reflexivity.
Qed.
End Aggregation.

(** ** The predicates of the table *)

Section Predicates.
Variable data : DocumentRecord.

Lemma check_min_length_spec f n :
  absent_or_string data f = true -> (1 <= n)%nat ->
  exists v, check_min_length f n data = Ok v
            /\ ToBoolean v = (n <=? length (String_trim (field_text data f)))%nat
            /\ table_verdict v.
Proof.
  unfold absent_or_string, check_min_length, field_text, Get, table_verdict.
  intros Hf Hn.
  destruct (data !! f) as [[| | | |s| |]|]; try discriminate; cbn.
  - destruct s as [|c s]; cbn.
    + exists (VString []). split; [reflexivity|].
      split; [|tauto]. symmetry. apply Nat.leb_gt. change (String_trim []) with (@nil N). cbn. lia.
    + eexists. split; [reflexivity|]. split; [reflexivity|].
      unfold String_length.
      match goal with |- context [VBool ?b] => destruct b end; auto.
  - exists VUndefined. split; [reflexivity|].
    split; [|tauto]. symmetry. apply Nat.leb_gt. change (String_trim []) with (@nil N). cbn. lia.
Qed.

Lemma check_nonempty_spec f :
  absent_or_string data f = true ->
  exists v, check_nonempty f data = Ok v
            /\ ToBoolean v = (1 <=? length (String_trim (field_text data f)))%nat
            /\ table_verdict v.
Proof.
  intros Hf. destruct (check_min_length_spec f 1 Hf (le_n 1)) as (v & Hv & Ht & Hs).
  exists v. split; [exact Hv|]. split; assumption.
Qed.

Lemma check_array_min_spec f n :
  check_array_min f n data =
  Ok (VBool (Array_isArray (Get data f) && (n <=? Array_length (Get data f))%nat)).
Proof.
  unfold check_array_min. destruct (Array_isArray (Get data f)); reflexivity.
Qed.
End Predicates.

(** ** The table of [initCheckRules] *)

Section Table.
Let checker := new_QualityChecker.

Lemma category_names_distinct : List.NoDup (Object_keys (checkRules checker)).
Proof. apply NoDup_ListNoDup, (bool_decide_unpack _). vm_compute. exact I. Qed.

Lemma well_formed_fields data :
  well_formed data = true ->
  Forall (fun f => absent_or_string data f = true) string_fields.
Proof.
  intros H. apply List.Forall_forall.
  exact (proj1 (List.forallb_forall _ _) H).
Qed.

(** On a well-formed record every predicate of the table returns, and
    returns [true], [false], [undefined] or the empty string. *)
Lemma table_verdicts data :
  well_formed data = true ->
  Forall (fun rule => exists v, Rule.check rule data = Ok v /\ table_verdict v)
         (all_rules checker).
Proof.
  intros Hwf. apply well_formed_fields in Hwf.
  unfold string_fields in Hwf.
  repeat match type of Hwf with
         | Forall _ (_ :: _) =>
           let H := fresh "Hf" in
           apply Forall_cons_1 in Hwf as [H Hwf]
         end.
  cbv [all_rules checker new_QualityChecker checkRules initCheckRules
       concat map snd app].
  repeat apply List.Forall_cons; try apply List.Forall_nil; cbn [Rule.check];
    try (match goal with
         | |- exists v, check_min_length ?f ?n _ = _ /\ _ =>
           destruct (check_min_length_spec data f n) as (v & Hv & _ & Hs);
           [assumption | lia | exists v; split; assumption]
         | |- exists v, check_nonempty ?f _ = _ /\ _ =>
           destruct (check_nonempty_spec data f) as (v & Hv & _ & Hs);
           [assumption | exists v; split; assumption]
         end).
  rewrite check_array_min_spec. eexists. split; [reflexivity|].
  unfold table_verdict.
  match goal with |- context [VBool ?b] => destruct b end; auto.
Qed.

Lemma table_returns data :
  well_formed data = true -> predicates_return checker data.
Proof.
  intros Hwf. unfold predicates_return.
  eapply List.Forall_impl; [|exact (table_verdicts data Hwf)].
  intros rule (v & Hv & _). exists v. exact Hv.
Qed.

Lemma checkDocument_well_formed data :
  well_formed data = true ->
  checkDocument checker data = Ok (report_of checker data).
Proof.
  intros Hwf. apply checkDocument_report.
  - exact category_names_distinct.
  - exact (table_returns data Hwf).
Qed.
End Table.

(** ** Scenario A: the empty record *)

(** C1: on the empty record [checkDocument] returns a report with overall
    ["fail"], score 0, no passed check out of 11, and whose errors are
    the six error-severity rules title, inventor, currentProblems,
    technicalProblem, technicalSolution, beneficialEffects, in category-then-rule
    order. *)
Theorem empty_record_report :
  exists r,
    checkDocument new_QualityChecker ∅ = Ok r
    /\ CheckReport.overall r = js "fail"
    /\ CheckReport.score r = 0%Z
    /\ CheckReport.passedChecks r = 0
    /\ CheckReport.totalChecks r = 11
    /\ map CheckResult.id (CheckReport.errors r) =
       [ js "title"; js "inventor"; js "currentProblems"; js "technicalProblem";
         js "technicalSolution"; js "beneficialEffects" ]
    /\ map CheckResult.id (CheckReport.errors r) =
       map Rule.id (rules_of_severity new_QualityChecker (js "error"))
    /\ Forall (fun c => CheckResult.severity c = js "error") (CheckReport.errors r).
Proof.
  exists (report_of new_QualityChecker ∅).
  split; [apply checkDocument_well_formed; reflexivity|].
  vm_compute. repeat split; repeat apply List.Forall_cons; try apply List.Forall_nil;
    reflexivity.
Qed.

(** ** The overall status *)

Section Overall.
Variable data : DocumentRecord.

Lemma error_severity_bucket rule :
  String_eqb (Rule.severity rule) (js "error") = true <-> bucket_of rule = Errors.
Proof.
  unfold bucket_of. destruct (String_eqb (Rule.severity rule) (js "error")).
  - tauto.
  - destruct (String_eqb (Rule.severity rule) (js "warning"));
      split; discriminate.
Qed.

Lemma warning_severity_bucket rule :
  String_eqb (Rule.severity rule) (js "warning") = true <-> bucket_of rule = Warnings.
Proof.
  unfold bucket_of.
  destruct (String_eqb (Rule.severity rule) (js "error")) eqn:Ee;
    destruct (String_eqb (Rule.severity rule) (js "warning")) eqn:Ew;
    try (split; (reflexivity || discriminate)).
  apply String_eqb_eq in Ee, Ew. rewrite Ee in Ew. vm_compute in Ew. discriminate.
Qed.

(** No failure is routed to errors when every error-severity rule passes. *)
Lemma failures_Errors_nil rules :
  forallb (passes data)
    (List.filter (fun rule => String_eqb (Rule.severity rule) (js "error")) rules)
  = true ->
  failures Errors data rules = [].
Proof.
  unfold failures. induction rules as [|rule rules IH]; [reflexivity|].
  cbn [List.filter]. intros H.
  destruct (String_eqb (Rule.severity rule) (js "error")) eqn:E.
  - cbn [forallb] in H. apply andb_true_iff in H as [Hp H].
    rewrite Hp. cbn [negb andb]. exact (IH H).
  - assert (Hb : bucket_eqb (bucket_of rule) Errors = false).
    { destruct (bucket_of rule) eqn:Eb; try reflexivity.
      apply error_severity_bucket in Eb. congruence. }
    rewrite Hb, andb_false_r. exact (IH H).
Qed.

(** Some failure is routed to warnings when a warning-severity rule fails. *)
Lemma failures_Warnings_cons rules :
  existsb (fun rule => negb (passes data rule))
    (List.filter (fun rule => String_eqb (Rule.severity rule) (js "warning")) rules)
  = true ->
  failures Warnings data rules <> [].
Proof.
  unfold failures. induction rules as [|rule rules IH]; [discriminate|].
  cbn [List.filter]. intros H.
  destruct (String_eqb (Rule.severity rule) (js "warning")) eqn:E.
  - apply warning_severity_bucket in E. rewrite E. cbn [bucket_eqb].
    cbn [existsb] in H. rewrite andb_true_r.
    destruct (negb (passes data rule)); [discriminate|].
    exact (IH H).
  - destruct (negb (passes data rule) && bucket_eqb (bucket_of rule) Warnings);
      [discriminate|]. exact (IH H).
Qed.
End Overall.

(** C2: the overall status is ["fail"] when the errors are non-empty, else
    ["warning"] when the warnings are non-empty, else ["pass"], whatever the
    suggestions are; a record that passes the six error-severity rules and
    fails a warning-severity rule gets ["warning"], with no error and some
    warning. *)
Theorem overall_priority (data : DocumentRecord) :
  well_formed data = true ->
  exists r,
    checkDocument new_QualityChecker data = Ok r
    /\ CheckReport.overall r =
       match CheckReport.errors r, CheckReport.warnings r with
       | _ :: _, _ => js "fail"
       | [], _ :: _ => js "warning"
       | [], [] => js "pass"
       end
    /\ (forallb (passes data) (rules_of_severity new_QualityChecker (js "error")) = true ->
        existsb (fun rule => negb (passes data rule))
                (rules_of_severity new_QualityChecker (js "warning")) = true ->
        CheckReport.overall r = js "warning"
        /\ CheckReport.errors r = []
        /\ CheckReport.warnings r <> []).
Proof.
  intros Hwf. exists (report_of new_QualityChecker data).
  split; [exact (checkDocument_well_formed data Hwf)|].
  cbn [report_of CheckReport.overall CheckReport.errors CheckReport.warnings].
  unfold overall_of. split.
  - destruct (failures Errors data _); [|reflexivity].
    destruct (failures Warnings data _); reflexivity.
  - intros He Hw.
    apply failures_Errors_nil in He. apply failures_Warnings_cons in Hw.
    rewrite He. cbn [length Nat.ltb Nat.leb].
    destruct (failures Warnings data _); [congruence|].
    repeat split. discriminate.
Qed.

Lemma overall_priority_witness :
  exists r,
    checkDocument new_QualityChecker errors_satisfied = Ok r
    /\ CheckReport.overall r =
       match CheckReport.errors r, CheckReport.warnings r with
       | _ :: _, _ => js "fail"
       | [], _ :: _ => js "warning"
       | [], [] => js "pass"
       end
    /\ CheckReport.overall r = js "warning"
    /\ CheckReport.errors r = []
    /\ CheckReport.warnings r <> [].
Proof.
  destruct (overall_priority errors_satisfied) as (r & Hr & Ho & Hc).
  - vm_compute. reflexivity.
  - exists r. split; [exact Hr|]. split; [exact Ho|].
    apply Hc; vm_compute; reflexivity.
Defined.

(** ** No exception on well-formed records *)





(** The model does throw on an ill-formed record: a title that is a
    number has no [trim]. *)
Lemma checkDocument_throws_on_number_title :
  checkDocument new_QualityChecker
    (<[js "title" := VNumber (Number_of_Z 5)]> ∅)
  = Throw (TypeError "trim is not a function").
Proof. vm_compute. reflexivity. Qed.

(** ** The invariants of a category result *)

Section Buckets.
Variable data : DocumentRecord.

Lemma summary_bucket b rules :
  bucket_list b (summary data rules) = failures b data rules.
Proof. destruct b; reflexivity. Qed.

(** Every rule is counted once: as passed, or in one of the three buckets. *)
Lemma summary_partition rules :
  length (List.filter (passes data) rules)
  + length (failures Errors data rules)
  + length (failures Warnings data rules)
  + length (failures Suggestions data rules)
  = length rules.
Proof.
  unfold failures. rewrite !length_map.
  induction rules as [|rule rules IH]; [reflexivity|].
  cbn [List.filter length].
  destruct (passes data rule); cbn [negb andb length]; [lia|].
  destruct (bucket_of rule); cbn [bucket_eqb length]; lia.
Qed.

Lemma occurrences_failures_cons id b rule rules :
  occurrences id (failures b data (rule :: rules)) =
  (if String_eqb (Rule.id rule) id
      && (negb (passes data rule) && bucket_eqb (bucket_of rule) b)
   then 1 else 0)
  + occurrences id (failures b data rules).
Proof.
  unfold occurrences, failures. cbn [List.filter].
  destruct (negb (passes data rule) && bucket_eqb (bucket_of rule) b);
    cbn [map List.filter checkResult_of CheckResult.id].
  - destruct (String_eqb (Rule.id rule) id); reflexivity.
  - rewrite andb_false_r. reflexivity.
Qed.

Lemma occurrences_failures_fresh id b rules :
  ~ In id (map Rule.id rules) ->
  occurrences id (failures b data rules) = 0.
Proof.
  induction rules as [|rule rules IH]; intros Hid; [reflexivity|].
  rewrite occurrences_failures_cons. cbn in Hid.
  destruct (String_eqb (Rule.id rule) id) eqn:E.
  - apply String_eqb_eq in E. tauto.
  - rewrite IH by tauto. reflexivity.
Qed.

(** With distinct ids, a rule occurs once in the bucket it is routed to
    when it fails, and nowhere else. *)
Lemma occurrences_failures rules :
  List.NoDup (map Rule.id rules) ->
  Forall (fun rule =>
            forall b,
              occurrences (Rule.id rule) (failures b data rules) =
              if negb (passes data rule) && bucket_eqb (bucket_of rule) b
              then 1 else 0)
         rules.
Proof.
  induction rules as [|rule rules IH]; intros Hnodup; [apply List.Forall_nil|].
  cbn [map] in Hnodup. apply List.NoDup_cons_iff in Hnodup as [Hfresh Hnodup].
  apply List.Forall_cons.
  - intros b. rewrite occurrences_failures_cons.
    rewrite (occurrences_failures_fresh _ _ _ Hfresh), Nat.add_0_r.
    rewrite (proj2 (String_eqb_eq _ _) eq_refl). reflexivity.
  - specialize (IH Hnodup).
    rewrite List.Forall_forall in IH |- *. intros other Hin b.
    rewrite occurrences_failures_cons, (IH other Hin).
    destruct (String_eqb (Rule.id rule) (Rule.id other)) eqn:E; [|reflexivity].
    apply String_eqb_eq in E. exfalso. apply Hfresh. rewrite E.
    apply in_map. exact Hin.
Qed.
End Buckets.

Lemma Forall2_map_r {A B} (R : A -> B -> Prop) (f : A -> B) (l : list A) :
  Forall (fun x => R x (f x)) l -> List.Forall2 R l (map f l).
Proof.
  induction 1; cbn; [apply List.Forall2_nil|apply List.Forall2_cons]; assumption.
Qed.

Lemma category_rule_ids_distinct :
  Forall (fun entry : list N * list Rule.t => List.NoDup (map Rule.id (snd entry)))
         (checkRules new_QualityChecker).
Proof.
  cbv [new_QualityChecker checkRules initCheckRules].
  repeat apply List.Forall_cons; try apply List.Forall_nil;
    apply NoDup_ListNoDup, (bool_decide_unpack _); vm_compute; exact I.
Qed.

(** C3: in the report of a well-formed record the categories are those of
    the table, in its order, and for each of them: total is the number of
    its rules; passed plus the lengths of the three buckets is total; a rule
    that fails occurs once in the bucket of its severity (errors for
    ["error"], warnings for ["warning"], suggestions otherwise) and in no
    other; a rule that passes occurs in none. *)
Theorem category_invariants (data : DocumentRecord) :
  well_formed data = true ->
  exists r,
    checkDocument new_QualityChecker data = Ok r
    /\ List.Forall2
         (fun (entry : list N * list Rule.t) (cat : list N * CategoryResult.t) =>
            fst cat = fst entry
            /\ CategoryResult.total (snd cat) = length (snd entry)
            /\ CategoryResult.passed (snd cat)
               + length (CategoryResult.errors (snd cat))
               + length (CategoryResult.warnings (snd cat))
               + length (CategoryResult.suggestions (snd cat))
               = CategoryResult.total (snd cat)
            /\ Forall (fun rule =>
                         forall b,
                           occurrences (Rule.id rule) (bucket_list b (snd cat)) =
                           if negb (passes data rule) && bucket_eqb (bucket_of rule) b
                           then 1 else 0)
                      (snd entry))
         (checkRules new_QualityChecker)
         (CheckReport.categories r).
Proof.
  intros Hwf. exists (report_of new_QualityChecker data).
  split; [exact (checkDocument_well_formed data Hwf)|].
  cbn [report_of CheckReport.categories]. unfold summaries.
  apply Forall2_map_r.
  eapply List.Forall_impl; [|exact category_rule_ids_distinct].
  intros [category rules] Hnodup. cbn [fst snd] in *.
  split; [reflexivity|]. split; [reflexivity|]. split.
  - exact (summary_partition data rules).
  - eapply List.Forall_impl; [|exact (occurrences_failures data rules Hnodup)].
    intros rule Hocc b. rewrite summary_bucket. exact (Hocc b).
Qed.

Lemma category_invariants_witness :
  exists r,
    checkDocument new_QualityChecker errors_satisfied = Ok r
    /\ List.Forall2
         (fun (entry : list N * list Rule.t) (cat : list N * CategoryResult.t) =>
            fst cat = fst entry
            /\ CategoryResult.total (snd cat) = length (snd entry)
            /\ CategoryResult.passed (snd cat)
               + length (CategoryResult.errors (snd cat))
               + length (CategoryResult.warnings (snd cat))
               + length (CategoryResult.suggestions (snd cat))
               = CategoryResult.total (snd cat)
            /\ Forall (fun rule =>
                         forall b,
                           occurrences (Rule.id rule) (bucket_list b (snd cat)) =
                           if negb (passes errors_satisfied rule)
                              && bucket_eqb (bucket_of rule) b
                           then 1 else 0)
                      (snd entry))
         (checkRules new_QualityChecker)
         (CheckReport.categories r).
Proof.
  apply (category_invariants errors_satisfied). vm_compute. reflexivity.
Defined.

(** ** The score *)

(** With eleven checks the binary64 computation of the source agrees with
    the exact rounding: no quotient [p / 11 * 100] lies near a half. *)
Lemma score_of_eleven p :
  (p <= 11)%nat ->
  score_of p 11 = exact_score p 11 /\ (0 <= score_of p 11 <= 100)%Z.
Proof.
  intros Hp.
  do 12 (destruct p as [|p]; [vm_compute; repeat split; discriminate|]).
  lia.
Qed.

(** The agreement is particular to the table: with 200 checks of which 29
    pass, the binary64 product is 14.499999999999998 and the source's score
    is 14, where the exact quotient 14.5 rounds to 15. *)
Remark score_of_29_200 : score_of 29 200 = 14%Z /\ exact_score 29 200 = 15%Z.
Proof. vm_compute. split; reflexivity. Qed.

Lemma table_size : length (all_rules new_QualityChecker) = 11.
Proof. reflexivity. Qed.

(** C4: the score of the report of a well-formed record is the exact
    quotient [passedChecks / totalChecks * 100] rounded to the nearest
    integer, halves away from zero (0 were there no checks), and lies between
    0 and 100. *)
Theorem score_rounds_ratio (data : DocumentRecord) :
  well_formed data = true ->
  exists r,
    checkDocument new_QualityChecker data = Ok r
    /\ CheckReport.score r =
       exact_score (CheckReport.passedChecks r) (CheckReport.totalChecks r)
    /\ (0 <= CheckReport.score r <= 100)%Z.
Proof.
  intros Hwf. exists (report_of new_QualityChecker data).
  split; [exact (checkDocument_well_formed data Hwf)|].
  cbn [report_of CheckReport.score CheckReport.passedChecks CheckReport.totalChecks].
  rewrite table_size. apply score_of_eleven.
  rewrite <- table_size. apply List.filter_length_le.
Qed.

Lemma score_rounds_ratio_witness :
  exists r,
    checkDocument new_QualityChecker errors_satisfied = Ok r
    /\ CheckReport.score r =
       exact_score (CheckReport.passedChecks r) (CheckReport.totalChecks r)
    /\ (0 <= CheckReport.score r <= 100)%Z.
Proof.
  apply (score_rounds_ratio errors_satisfied). vm_compute. reflexivity.
Defined.

(** ** Length thresholds *)

Lemma passes_min_length (data : DocumentRecord) f n :
  absent_or_string data f = true -> (1 <= n)%nat ->
  match check_min_length f n data with
  | Ok v => ToBoolean v
  | Throw _ => false
  end = (n <=? String_length (String_trim (field_text data f)))%nat.
Proof.
  intros Hf Hn. destruct (check_min_length_spec data f n Hf Hn) as (v & Hv & Ht & _).
  rewrite Hv. exact Ht.
Qed.

Lemma code_points_no_surrogates s :
  no_surrogates s = true -> code_points s = String_length s.
Proof.
  unfold String_length. induction s as [|c s IH]; [reflexivity|].
  cbn [no_surrogates forallb]. intros H. apply andb_true_iff in H as [Hc Hs].
  apply negb_true_iff, orb_false_iff in Hc as [Hc _].
  cbn [code_points]. rewrite Hc. cbn [andb length].
  destruct s; [reflexivity|]. f_equal. exact (IH Hs).
Qed.

(** The code-point reading of C5 fails: [ninety_nine_code_points] is one
    code point short of the threshold of technicalSolution and passes. *)
Lemma threshold_not_in_code_points :
  ~ (forall rule,
       find_rule new_QualityChecker (js "technicalSolution") = Some rule ->
       threshold_in_code_points rule (js "technicalSolution") 100).
Proof.
  intros H.
  specialize (H _ eq_refl
                (<[js "technicalSolution" := VString ninety_nine_code_points]> ∅)
                ninety_nine_code_points (lookup_insert_eq _ _ _)).
  vm_compute in H. discriminate H.
Qed.

Section AbsentOrEmpty.
Variable data : DocumentRecord.
Variable f : list N.

Lemma Get_delete_same : Get (delete f data) f = VUndefined.
Proof. unfold Get. rewrite lookup_delete_eq. reflexivity. Qed.

Lemma Get_insert_same v : Get (<[f := v]> data) f = v.
Proof. unfold Get. rewrite lookup_insert_eq. reflexivity. Qed.

Lemma Get_insert_other v g : f <> g -> Get (<[f := v]> data) g = Get data g.
Proof. intros Hfg. unfold Get. rewrite lookup_insert_ne by exact Hfg. reflexivity. Qed.

Lemma Get_delete_other g : f <> g -> Get (delete f data) g = Get data g.
Proof. intros Hfg. unfold Get. rewrite lookup_delete_ne by exact Hfg. reflexivity. Qed.

(** Each shape of predicate fails alike on a missing field and on an
    empty one, and does not look at other fields. *)
Lemma absent_like_empty_min_length g n :
  match check_min_length g n (delete f data) with Ok v => ToBoolean v | Throw _ => false end
  = match check_min_length g n (<[f := VString []]> data) with
    | Ok v => ToBoolean v | Throw _ => false end.
Proof.
  unfold check_min_length. destruct (decide (f = g)) as [<-|Hfg].
  - rewrite Get_delete_same, Get_insert_same. reflexivity.
  - rewrite Get_delete_other, Get_insert_other by exact Hfg. reflexivity.
Qed.

Lemma absent_like_empty_nonempty g :
  match check_nonempty g (delete f data) with Ok v => ToBoolean v | Throw _ => false end
  = match check_nonempty g (<[f := VString []]> data) with
    | Ok v => ToBoolean v | Throw _ => false end.
Proof. exact (absent_like_empty_min_length g 1). Qed.

Lemma absent_like_empty_array_min g n :
  match check_array_min g n (delete f data) with Ok v => ToBoolean v | Throw _ => false end
  = match check_array_min g n (<[f := VString []]> data) with
    | Ok v => ToBoolean v | Throw _ => false end.
Proof.
  unfold check_array_min. destruct (decide (f = g)) as [<-|Hfg].
  - rewrite Get_delete_same, Get_insert_same. reflexivity.
  - rewrite Get_delete_other, Get_insert_other by exact Hfg. reflexivity.
Qed.
End AbsentOrEmpty.

(** C5, as the code has it: every minimum-length rule is an inclusive
    threshold on the number of UTF-16 code units of the trimmed field text,
    the text of an absent field being empty; on text without surrogates this
    number is the number of code points; technicalSolution passes at exactly
    100 units, also inside surrounding blanks, and fails at 99; and every rule
    has the same outcome on a record that lacks a field as on the record that
    holds the empty string there. *)
Theorem min_length_threshold_in_code_units :
  Forall (fun fn : list N * nat =>
            exists rule,
              find_rule new_QualityChecker (fst fn) = Some rule
              /\ forall data : DocumentRecord,
                   absent_or_string data (fst fn) = true ->
                   passes data rule =
                   (snd fn <=? String_length (String_trim (field_text data (fst fn))))%nat)
         min_length_rules
  /\ (forall s, no_surrogates s = true -> code_points s = String_length s)
  /\ (exists rule,
        find_rule new_QualityChecker (js "technicalSolution") = Some rule
        /\ passes (<[js "technicalSolution" := VString (letters 100)]> ∅) rule = true
        /\ passes (<[js "technicalSolution" :=
                       VString (js "  " ++ letters 100 ++ js " ")]> ∅) rule = true
        /\ passes (<[js "technicalSolution" := VString (letters 99)]> ∅) rule = false
        /\ passes (<[js "technicalSolution" :=
                       VString (js "  " ++ letters 99 ++ js " ")]> ∅) rule = false)
  /\ Forall (fun rule =>
               forall (f : list N) (data : DocumentRecord),
                 passes (delete f data) rule = passes (<[f := VString []]> data) rule)
            (all_rules new_QualityChecker).
Proof.
  split; [|split; [|split]].
  - unfold min_length_rules.
    repeat apply List.Forall_cons; try apply List.Forall_nil;
      (eexists; split; [reflexivity|]); cbn [fst snd];
      intros data Hf; unfold passes; cbn [Rule.check];
      (apply passes_min_length; [exact Hf|lia]).
  - exact code_points_no_surrogates.
  - eexists. split; [reflexivity|]. vm_compute. repeat split.
  - each_rule; intros f data; unfold passes; cbn [Rule.check];
      first [ apply absent_like_empty_min_length
            | apply absent_like_empty_nonempty
            | apply absent_like_empty_array_min ].
Qed.

(** ** The result recorded for a rule *)

Section Verdicts.
Variable data : DocumentRecord.

Lemma check_min_length_value f n :
  absent_or_string data f = true -> (1 <= n)%nat ->
  exists v,
    check_min_length f n data = Ok v
    /\ v = match data !! f with
           | None => VUndefined
           | Some (VString []) => VString []
           | _ => VBool (ToBoolean v)
           end.
Proof.
  unfold absent_or_string, check_min_length, Get. intros Hf Hn.
  destruct (data !! f) as [[| | | |s| |]|]; try discriminate; cbn.
  - destruct s as [|c s]; cbn; eexists; split; reflexivity.
  - eexists; split; reflexivity.
Qed.

Lemma check_nonempty_value f :
  absent_or_string data f = true ->
  exists v,
    check_nonempty f data = Ok v
    /\ v = match data !! f with
           | None => VUndefined
           | Some (VString []) => VString []
           | _ => VBool (ToBoolean v)
           end.
Proof. intros Hf. exact (check_min_length_value f 1 Hf (le_n 1)). Qed.
End Verdicts.

(** On a well-formed record each rule's predicate returns the value
    [copied_verdict] describes. *)
Lemma table_copied_verdicts (data : DocumentRecord) :
  well_formed data = true ->
  Forall (fun rule => Rule.check rule data = Ok (copied_verdict data rule))
         (all_rules new_QualityChecker).
Proof.
  intros Hwf. apply well_formed_fields in Hwf.
  unfold string_fields in Hwf.
  repeat match type of Hwf with
         | Forall _ (_ :: _) =>
           let H := fresh "Hf" in
           apply Forall_cons_1 in Hwf as [H Hwf]
         end.
  each_rule; unfold copied_verdict, passes; cbn [Rule.check Rule.id];
    evaluate_is_text_field; cbv iota;
    try (match goal with
         | |- check_min_length ?f ?n _ = _ =>
           destruct (check_min_length_value data f n) as (v & Hv & Hs);
           [assumption | lia | rewrite Hv; rewrite Hs at 1; reflexivity]
         | |- check_nonempty ?f _ = _ =>
           destruct (check_nonempty_value data f) as (v & Hv & Hs);
           [assumption | rewrite Hv; rewrite Hs at 1; reflexivity]
         end).
  rewrite check_array_min_spec. reflexivity.
Qed.

(** The claim of C8 fails on the empty record: the first result of the
    report's errors, built for the title rule, has [passed] equal to
    [undefined], which is no boolean. *)
Lemma passed_of_absent_title_not_boolean :
  ~ (forall r,
       checkDocument new_QualityChecker ∅ = Ok r ->
       Forall (fun c => exists b, CheckResult.passed c = VBool b)
              (CheckReport.errors r)).
Proof.
  intros H. specialize (H _ (checkDocument_well_formed ∅ eq_refl)).
  vm_compute in H. apply List.Forall_inv in H. destruct H as [b Hb].
  discriminate Hb.
Qed.

Lemma failures_from_table (data : DocumentRecord) b rules :
  Forall (fun rule => Rule.check rule data = Ok (copied_verdict data rule)) rules ->
  Forall (fun c =>
            exists rule,
              In rule rules
              /\ passes data rule = false
              /\ c = checkResult_of rule (copied_verdict data rule))
         (failures b data rules).
Proof.
  intros Hv. unfold failures. rewrite List.Forall_forall in Hv |- *.
  intros c Hc. apply in_map_iff in Hc as (rule & <- & Hin).
  apply List.filter_In in Hin as [Hin Hfail].
  apply andb_true_iff in Hfail as [Hfail _]. apply negb_true_iff in Hfail.
  exists rule. split; [exact Hin|]. split; [exact Hfail|].
  unfold verdict. rewrite (Hv rule Hin). reflexivity.
Qed.

(** C8, as the code has it: the result built for a rule copies the rule's
    id, name, description, severity and suggestion, and its [passed] is the
    value the predicate returned, copied as it is: [true] when the rule
    passes; when it fails, [false], or [undefined] for an absent text field,
    or the empty string for an empty one. Every result kept in the report is
    built so, from a rule that fails. *)
Theorem check_result_copies_verdict (data : DocumentRecord) :
  well_formed data = true ->
  Forall (fun rule =>
            exists v,
              Rule.check rule data = Ok v
              /\ checkResult_of rule v =
                 CheckResult.mk (Rule.id rule) (Rule.name rule) (Rule.description rule)
                   v (Rule.severity rule) (Rule.suggestion rule)
              /\ v = copied_verdict data rule
              /\ (passes data rule = true -> v = VBool true)
              /\ (passes data rule = false ->
                  v = VBool false \/ v = VUndefined \/ v = VString []))
         (all_rules new_QualityChecker)
  /\ exists r,
       checkDocument new_QualityChecker data = Ok r
       /\ Forall (fun c =>
                    exists rule,
                      In rule (all_rules new_QualityChecker)
                      /\ passes data rule = false
                      /\ c = checkResult_of rule (copied_verdict data rule))
                 (CheckReport.errors r ++ CheckReport.warnings r
                  ++ CheckReport.suggestions r).
Proof.
  intros Hwf. pose proof (table_copied_verdicts data Hwf) as Hcopied.
  pose proof (table_verdicts data Hwf) as Hshape. split.
  - rewrite List.Forall_forall in Hcopied, Hshape |- *. intros rule Hin.
    destruct (Hshape rule Hin) as (v & Hv & Hs).
    exists v. split; [exact Hv|]. split; [reflexivity|].
    split; [specialize (Hcopied rule Hin); congruence|].
    unfold passes. rewrite Hv.
    destruct Hs as [-> | [-> | [-> | ->]]]; cbn; split; intros; auto; discriminate.
  - exists (report_of new_QualityChecker data).
    split; [exact (checkDocument_well_formed data Hwf)|].
    cbn [report_of CheckReport.errors CheckReport.warnings CheckReport.suggestions].
    repeat (apply List.Forall_app; split); apply failures_from_table; exact Hcopied.
Qed.

Lemma check_result_copies_verdict_witness :
  exists r,
    checkDocument new_QualityChecker errors_satisfied = Ok r
    /\ Forall (fun c =>
                 exists rule,
                   In rule (all_rules new_QualityChecker)
                   /\ passes errors_satisfied rule = false
                   /\ c = checkResult_of rule (copied_verdict errors_satisfied rule))
              (CheckReport.errors r ++ CheckReport.warnings r
               ++ CheckReport.suggestions r).
Proof.
  apply (check_result_copies_verdict errors_satisfied). vm_compute. reflexivity.
Defined.

(** ** Monotonicity *)

Section Trimming.
Implicit Types s t : list N.

Lemma trimStart_app s t :
  trimStart (s ++ t) =
  match trimStart s with
  | [] => trimStart t
  | _ :: _ => trimStart s ++ t
  end.
Proof.
  induction s as [|c s IH]; [reflexivity|].
  cbn. destruct (isWhiteSpace c); [exact IH|reflexivity].
Qed.

Lemma trimEnd_app_grows s t : (length (trimEnd s) <= length (trimEnd (s ++ t)))%nat.
Proof.
  induction s as [|c s IH]; [cbn; lia|].
  cbn [app trimEnd].
  destruct (trimEnd s) as [|d u]; destruct (trimEnd (s ++ t)) as [|d' u'];
    cbn [length] in *; try lia.
  destruct (isWhiteSpace c); cbn; lia.
Qed.

(** Text appended to a string never shortens its trimmed form. *)
Lemma String_trim_app_grows s t :
  (String_length (String_trim s) <= String_length (String_trim (s ++ t)))%nat.
Proof.
  unfold String_length, String_trim. rewrite trimStart_app.
  destruct (trimStart s) as [|c u] eqn:E.
  - cbn. lia.
  - apply trimEnd_app_grows.
Qed.
End Trimming.

Section OneFieldChanged.
Variable data : DocumentRecord.
Variable f : list N.
Variable v : value.

(** Rules on other fields see the same value. *)
Lemma check_min_length_other g n :
  g <> f -> check_min_length g n (<[f := v]> data) = check_min_length g n data.
Proof.
  intros Hg. unfold check_min_length.
  rewrite Get_insert_other by congruence. reflexivity.
Qed.

Lemma check_nonempty_other g :
  g <> f -> check_nonempty g (<[f := v]> data) = check_nonempty g data.
Proof.
  intros Hg. unfold check_nonempty.
  rewrite Get_insert_other by congruence. reflexivity.
Qed.

Lemma check_array_min_other g n :
  g <> f -> check_array_min g n (<[f := v]> data) = check_array_min g n data.
Proof.
  intros Hg. unfold check_array_min.
  rewrite Get_insert_other by congruence. reflexivity.
Qed.

Lemma check_min_length_removed g n :
  g <> f -> check_min_length g n (delete f data) = check_min_length g n data.
Proof.
  intros Hg. unfold check_min_length.
  rewrite Get_delete_other by congruence. reflexivity.
Qed.

Lemma check_nonempty_removed g :
  g <> f -> check_nonempty g (delete f data) = check_nonempty g data.
Proof.
  intros Hg. unfold check_nonempty.
  rewrite Get_delete_other by congruence. reflexivity.
Qed.

Lemma check_array_min_removed g n :
  g <> f -> check_array_min g n (delete f data) = check_array_min g n data.
Proof.
  intros Hg. unfold check_array_min.
  rewrite Get_delete_other by congruence. reflexivity.
Qed.

(** A rule on the changed field stays satisfied when the measure does not
    drop. *)
Lemma check_min_length_improved n :
  (1 <= n)%nat -> is_text_field f = true ->
  (field_measure f (Get data f) <= field_measure f v)%nat ->
  match check_min_length f n data with Ok w => ToBoolean w | Throw _ => false end = true ->
  match check_min_length f n (<[f := v]> data) with
  | Ok w => ToBoolean w | Throw _ => false end = true.
Proof.
  intros Hn Htext Hle Hpass. unfold field_measure in Hle. rewrite Htext in Hle.
  unfold check_min_length in *. rewrite Get_insert_same.
  destruct (Get data f) as [| |b|x|s|elems|props]; cbn in Hpass, Hle;
    try discriminate Hpass;
    try (destruct b; cbn in Hpass; discriminate Hpass);
    try (destruct x; cbn in Hpass; discriminate Hpass).
  destruct s as [|c0 s]; cbn in Hpass; [discriminate Hpass|].
  apply Nat.leb_le in Hpass. unfold String_length in *.
  destruct v as [| |b'|x'|s'|elems'|props']; try lia.
  destruct s' as [|c s'].
  - change (String_trim []) with (@nil N) in Hle. cbn in Hle. lia.
  - cbn. apply Nat.leb_le. unfold String_length. lia.
Qed.

Lemma check_nonempty_improved :
  is_text_field f = true ->
  (field_measure f (Get data f) <= field_measure f v)%nat ->
  match check_nonempty f data with Ok w => ToBoolean w | Throw _ => false end = true ->
  match check_nonempty f (<[f := v]> data) with
  | Ok w => ToBoolean w | Throw _ => false end = true.
Proof. exact (check_min_length_improved 1 (le_n 1)). Qed.

Lemma check_array_min_improved n :
  (1 <= n)%nat -> is_text_field f = false ->
  (field_measure f (Get data f) <= field_measure f v)%nat ->
  match check_array_min f n data with Ok w => ToBoolean w | Throw _ => false end = true ->
  match check_array_min f n (<[f := v]> data) with
  | Ok w => ToBoolean w | Throw _ => false end = true.
Proof.
  intros Hn Htext Hle Hpass. unfold field_measure in Hle. rewrite Htext in Hle.
  rewrite check_array_min_spec in *. rewrite Get_insert_same.
  cbn [ToBoolean] in *.
  destruct (Get data f) as [| | | | |elems|]; cbn in Hpass, Hle;
    try discriminate Hpass.
  apply Nat.leb_le in Hpass.
  destruct v as [| | | | |elems'|]; try lia.
  cbn. apply Nat.leb_le. lia.
Qed.
End OneFieldChanged.

(** C9, as the code has it: when one field of a record is given a new
    value, or is removed, every rule named after another field returns what
    it returned before; and when the new value is an improvement (its trimmed
    text, or its list, is no shorter: lengthening a text by appending to it
    is one), a rule named after the field that passed still passes, so that
    it can only move from failing to passing. *)
Theorem improving_one_field_is_monotone (data : DocumentRecord) (f : list N) (v : value) :
  Forall (fun rule =>
            (Rule.id rule <> f ->
             Rule.check rule (<[f := v]> data) = Rule.check rule data
             /\ passes (<[f := v]> data) rule = passes data rule
             /\ passes (delete f data) rule = passes data rule)
            /\ (Rule.id rule = f ->
                (field_measure f (Get data f) <= field_measure f v)%nat ->
                passes data rule = true -> passes (<[f := v]> data) rule = true))
         (all_rules new_QualityChecker)
  /\ (forall s t : list N,
        (field_measure f (VString s) <= field_measure f (VString (s ++ t)))%nat).
Proof.
  split.
  - each_rule; (split; [intros Hid; unfold passes; cbn [Rule.check]
                       |intros <- Hle; unfold passes; cbn [Rule.check]]);
      first [ rewrite check_min_length_other, check_min_length_removed by exact Hid;
              repeat split; reflexivity
            | rewrite check_nonempty_other, check_nonempty_removed by exact Hid;
              repeat split; reflexivity
            | rewrite check_array_min_other, check_array_min_removed by exact Hid;
              repeat split; reflexivity
            | apply check_min_length_improved; [lia|reflexivity|exact Hle]
            | apply check_nonempty_improved; [reflexivity|exact Hle]
            | apply check_array_min_improved; [lia|reflexivity|exact Hle] ].
  - intros s t. unfold field_measure. destruct (is_text_field f); [|reflexivity].
    apply String_trim_app_grows.
Qed.

(** The example of the specification: backgroundTechnology lengthened from
    10 to 60 letters, and then by ten more. The rule of the field moves from
    failing to passing and stays there; every other rule stays as it was. *)
Lemma improving_one_field_is_monotone_witness :
  Forall (fun rule =>
            (Rule.id rule <> js "backgroundTechnology" ->
             passes (<[js "backgroundTechnology" := VString (letters 60)]>
                       (background_only (letters 10))) rule
             = passes (background_only (letters 10)) rule)
            /\ (Rule.id rule = js "backgroundTechnology" ->
                passes (background_only (letters 10)) rule = false
                /\ passes (<[js "backgroundTechnology" := VString (letters 60)]>
                             (background_only (letters 10))) rule = true
                /\ passes (<[js "backgroundTechnology"
                             := VString (letters 60 ++ letters 10)]>
                             (background_only (letters 60))) rule = true))
         (all_rules new_QualityChecker).
Proof.
  pose proof (improving_one_field_is_monotone
                (background_only (letters 10))
                (js "backgroundTechnology") (VString (letters 60))) as [H1 _].
  pose proof (improving_one_field_is_monotone
                (background_only (letters 60))
                (js "backgroundTechnology")
                (VString (letters 60 ++ letters 10))) as [H2 G2].
  apply List.Forall_forall. intros rule Hin.
  rewrite List.Forall_forall in H1, H2.
  destruct (H1 rule Hin) as [Hother _]. destruct (H2 rule Hin) as [_ Hsame].
  split.
  - intros Hid. exact (proj1 (proj2 (Hother Hid))).
  - intros Hid.
    assert (passes (background_only (letters 10)) rule = false
            /\ passes (<[js "backgroundTechnology" := VString (letters 60)]>
                         (background_only (letters 10))) rule = true
            /\ passes (background_only (letters 60)) rule = true) as (Hb & Ha & Ha').
    { clear -Hin Hid.
      cbv [all_rules new_QualityChecker checkRules initCheckRules concat map snd app] in Hin.
      repeat (destruct Hin as [<-|Hin];
              [first [ exfalso; vm_compute in Hid; congruence
                     | repeat split; vm_compute; reflexivity ]|]).
      destruct Hin. }
    repeat split; try assumption.
    apply Hsame; [exact Hid| |exact Ha'].
    replace (Get (background_only (letters 60)) (js "backgroundTechnology"))
      with (VString (letters 60)) by (vm_compute; reflexivity).
    apply G2.
Defined.

(** The claim of C9 that any change of a field moves its rule from failing
    to passing or leaves it unchanged fails: backgroundTechnology cut from 60
    letters to 10 moves its rule from passing to failing; and so does a
    lengthening that is no improvement, technicalField changed from 10 letters
    to one letter followed by 59 spaces. *)
Lemma changing_one_field_not_monotone :
  ~ (forall (data : DocumentRecord) (f : list N) (v : value),
       Forall (fun rule =>
                 Rule.id rule = f ->
                 passes data rule = true -> passes (<[f := v]> data) rule = true)
              (all_rules new_QualityChecker))
  /\ ~ (forall (data : DocumentRecord) (f s s' : list N),
          Get data f = VString s ->
          (String_length s <= String_length s')%nat ->
          Forall (fun rule =>
                    Rule.id rule = f ->
                    passes data rule = true ->
                    passes (<[f := VString s']> data) rule = true)
                 (all_rules new_QualityChecker)).
Proof.
  split; intros H.
  - specialize (H (background_only (letters 60)) (js "backgroundTechnology")
                  (VString (letters 10))).
    cbv [all_rules new_QualityChecker checkRules initCheckRules concat map snd app] in H.
    do 3 apply List.Forall_inv_tail in H. apply List.Forall_inv in H.
    specialize (H eq_refl eq_refl). vm_compute in H. discriminate H.
  - specialize (H (<[js "technicalField" := VString (letters 10)]> ∅)
                  (js "technicalField") (letters 10)
                  (letters 1 ++ replicate 59 32%N) eq_refl).
    cbv [all_rules new_QualityChecker checkRules initCheckRules concat map snd app] in H.
    assert (Hlonger : (String_length (letters 10)
                       <= String_length (letters 1 ++ replicate 59 32%N))%nat)
      by (vm_compute; lia).
    specialize (H Hlonger).
    apply List.Forall_inv_tail in H. apply List.Forall_inv in H.
    specialize (H eq_refl eq_refl). vm_compute in H. discriminate H.
Qed.

(** ** The rendered report *)

Section Rendering.

Lemma fold_report_issue (l : list CheckResult.t) (report : list N) :
  fold_left report_issue l report = report ++ concat (map issue_line l).
Proof.
  revert report. induction l as [|x l IH]; intros report; cbn [fold_left map concat].
  - rewrite app_nil_r. reflexivity.
  - rewrite IH. unfold report_issue, issue_line. rewrite <- !app_assoc. reflexivity.
Qed.

Lemma report_category_block (report : list N) entry :
  report_category report entry = report ++ category_block entry.
Proof.
  destruct entry as [category [total passed errors warnings suggestions]].
  unfold report_category, category_block, count_line.
  cbn [fst snd CategoryResult.passed CategoryResult.total CategoryResult.errors
       CategoryResult.warnings CategoryResult.suggestions].
  destruct errors, warnings, suggestions; cbn [length Nat.ltb Nat.leb];
    rewrite <- ?app_assoc; reflexivity.
Qed.

Lemma fold_report_category (l : list (list N * CategoryResult.t)) (report : list N) :
  fold_left report_category l report = report ++ concat (map category_block l).
Proof.
  revert report. induction l as [|x l IH]; intros report; cbn [fold_left map concat].
  - rewrite app_nil_r. reflexivity.
  - rewrite IH, report_category_block, <- app_assoc. reflexivity.
Qed.

Lemma issues_section_empty heading intro l :
  heading <> [] -> (issues_section heading intro l = [] <-> l = []).
Proof.
  intros Hh. destruct l as [|x l]; cbn; [tauto|].
  split; [|discriminate]. destruct heading; [congruence|discriminate].
Qed.

Lemma count_line_empty label l :
  label <> [] -> (count_line label l = [] <-> l = []).
Proof.
  intros Hh. destruct l as [|x l]; cbn; [tauto|].
  split; [|discriminate]. destruct label; [congruence|discriminate].
Qed.
End Rendering.

Lemma generateReport_blocks (r : CheckReport.t) :
  generateReport r = report_blocks r.
Proof.
  unfold generateReport, report_blocks, assessment_block, issues_section.
  rewrite fold_report_category.
  destruct (CheckReport.errors r) as [|e es];
    destruct (CheckReport.warnings r) as [|w ws];
    destruct (CheckReport.suggestions r) as [|g gs];
    cbn [length Nat.ltb Nat.leb]; rewrite ?fold_report_issue;
    rewrite <- ?app_assoc; reflexivity.
Qed.

(** *** What occurs in a text *)

Section Occurrences.
Implicit Types (c : N) (n t a b : list N).

Lemma has_app c a b : has c (a ++ b) = has c a || has c b.
Proof. apply existsb_app. Qed.

Lemma has_concat_map {A} c (f : A -> list N) (l : list A) :
  has c (concat (map f l)) = existsb (fun x => has c (f x)) l.
Proof.
  induction l as [|x l IH]; [reflexivity|].
  cbn [map concat existsb]. rewrite has_app, IH. reflexivity.
Qed.

Lemma starts_with_has n t c : starts_with n t = true -> In c n -> has c t = true.
Proof.
  revert t. induction n as [|d n IH]; intros t Hst Hin; [destruct Hin|].
  destruct t as [|e t]; [discriminate|].
  cbn [starts_with] in Hst. apply andb_prop in Hst as [Hde Hst].
  apply N.eqb_eq in Hde. subst e. cbn [has existsb].
  destruct Hin as [->|Hin]; [rewrite N.eqb_refl; reflexivity|].
  apply orb_true_iff. right. exact (IH t Hst Hin).
Qed.

(** A text in which a run occurs has every unit of the run. *)
Lemma occurs_in_has n t c : occurs_in n t = true -> In c n -> has c t = true.
Proof.
  intros Hocc Hin. induction t as [|e t IH].
  - cbn [occurs_in] in Hocc. rewrite orb_false_r in Hocc.
    exact (starts_with_has n [] c Hocc Hin).
  - cbn [occurs_in] in Hocc. apply orb_prop in Hocc as [Hst|Hocc].
    + exact (starts_with_has n (e :: t) c Hst Hin).
    + cbn [has existsb]. apply orb_true_iff. right. exact (IH Hocc).
Qed.

Lemma starts_with_head n t : starts_with n (n ++ t) = true.
Proof.
  induction n as [|d n IH]; [reflexivity|].
  cbn [starts_with app]. rewrite N.eqb_refl, IH. reflexivity.
Qed.

Lemma occurs_in_head n t : occurs_in n (n ++ t) = true.
Proof.
  destruct (n ++ t) as [|e u] eqn:E; cbn [occurs_in];
    rewrite <- E, starts_with_head; reflexivity.
Qed.

Lemma occurs_in_app_r n a b : occurs_in n b = true -> occurs_in n (a ++ b) = true.
Proof.
  intros Hocc. induction a as [|e a IH]; [exact Hocc|].
  cbn [app occurs_in]. rewrite IH. apply orb_true_r.
Qed.
End Occurrences.

(** *** The units of a number written in decimal *)

Section Digits.

Lemma utf16_of_utf8_ascii (bs : list N) :
  forallb (fun b => (b <? 128)%N) bs = true -> utf16_of_utf8 bs = bs.
Proof.
  induction bs as [|b bs IH]; [reflexivity|].
  cbn [forallb utf16_of_utf8]. intros H. apply andb_prop in H as [Hb H].
  rewrite Hb, (IH H). reflexivity.
Qed.

Lemma is_digit_ascii (c : N) : is_digit c = true -> (c <? 128)%N = true.
Proof.
  unfold is_digit. intros H. apply andb_prop in H as [_ H].
  apply N.leb_le in H. apply N.ltb_lt. lia.
Qed.

Lemma js_digits (s : string) :
  forallb (fun a => is_digit (N_of_ascii a)) (list_ascii_of_string s) = true ->
  forallb is_digit (js s) = true.
Proof.
  intros H. unfold js. rewrite utf16_of_utf8_ascii.
  - rewrite List.forallb_forall in H |- *. intros c Hc.
    apply in_map_iff in Hc as (a & <- & Ha). exact (H a Ha).
  - rewrite List.forallb_forall in H |- *. intros c Hc.
    apply in_map_iff in Hc as (a & <- & Ha). apply is_digit_ascii. exact (H a Ha).
Qed.

Lemma string_of_uint_digits (d : Decimal.uint) :
  forallb (fun a => is_digit (N_of_ascii a))
          (list_ascii_of_string (NilEmpty.string_of_uint d)) = true.
Proof. induction d; cbn; assumption || reflexivity. Qed.

Lemma Number_toString_digits (z : Z) :
  forallb (fun c => is_digit c || (c =? 45)%N) (Number_toString z) = true.
Proof.
  assert (Hd : forallb is_digit
                 (js (NilZero.string_of_uint (N.to_uint (Z.to_N (Z.abs z))))) = true).
  { apply js_digits. unfold NilZero.string_of_uint.
    destruct (N.to_uint (Z.to_N (Z.abs z))) eqn:E;
      try reflexivity; rewrite <- ?E; try apply string_of_uint_digits.
    all: rewrite E; apply string_of_uint_digits. }
  unfold Number_toString.
  assert (Hd' : forallb (fun c => is_digit c || (c =? 45)%N)
                  (js (NilZero.string_of_uint (N.to_uint (Z.to_N (Z.abs z))))) = true).
  { rewrite List.forallb_forall in Hd |- *. intros c Hc. rewrite (Hd c Hc). reflexivity. }
  destruct (z <? 0)%Z; [|exact Hd'].
  rewrite forallb_app, Hd'. reflexivity.
Qed.

(** A unit that is neither a digit nor the minus sign is in no number. *)
Lemma has_number (c : N) (z : Z) :
  is_digit c || (c =? 45)%N = false -> has c (Number_toString z) = false.
Proof.
  intros Hc. pose proof (Number_toString_digits z) as Hz.
  unfold has. apply not_true_is_false. intros Hex.
  apply List.existsb_exists in Hex as (d & Hd & Heq). apply N.eqb_eq in Heq. subst d.
  rewrite List.forallb_forall in Hz. rewrite (Hz c Hd) in Hc. discriminate.
Qed.
End Digits.

(** *** The units of the blocks of a report *)

(** Settles an equation between disjunctions of the same conditions. *)
Ltac bool_cases :=
  repeat match goal with
         | |- context [has ?c ?t] => destruct (has c t)
         | |- context [existsb ?f ?l] => destruct (existsb f l)
         | |- context [is_nil ?l] => destruct (is_nil l)
         end;
  reflexivity.

Section Marks.
Variable c : N.
Hypothesis mark : is_digit c || (c =? 45)%N = false.

Lemma has_issues_section heading intro (l : list CheckResult.t) :
  has c (issues_section heading intro l) =
  negb (is_nil l)
  && (has c heading || has c (js ")") || has c LF || has c intro
      || existsb (fun x => has c (issue_line x)) l).
Proof.
  destruct l as [|x l]; [reflexivity|].
  unfold issues_section, Number_of_length.
  rewrite !has_app, has_concat_map, has_number by exact mark.
  cbn [is_nil negb andb]. bool_cases.
Qed.

Lemma has_count_line label (l : list CheckResult.t) :
  has c (count_line label l) = negb (is_nil l) && (has c label || has c LF).
Proof.
  destruct l as [|x l]; [reflexivity|].
  unfold count_line, Number_of_length.
  rewrite !has_app, has_number by exact mark.
  cbn [is_nil negb andb]. bool_cases.
Qed.

Lemma has_category_block (entry : list N * CategoryResult.t) :
  has c (category_block entry) =
  has c (js "### ") || has c (getCategoryName (fst entry)) || has c LF
  || has c (js "- 通过: ") || has c (js "/")
  || has c (count_line (js "- 错误: ") (CategoryResult.errors (snd entry)))
  || has c (count_line (js "- 警告: ") (CategoryResult.warnings (snd entry)))
  || has c (count_line (js "- 建议: ") (CategoryResult.suggestions (snd entry))).
Proof.
  unfold category_block. rewrite !has_app, !has_number by exact mark. bool_cases.
Qed.

Lemma has_assessment_block (r : CheckReport.t) :
  has c (assessment_block r) =
  has c (js "# 质量检查报告") || has c LF || has c (js "## 总体评估")
  || has c (js "- **总分**: ") || has c (js "/100") || has c (js "- **状态**: ")
  || has c (getStatusText (CheckReport.overall r))
  || has c (js "- **检查项目**: ") || has c (js "/") || has c (js " 通过").
Proof.
  unfold assessment_block. rewrite !has_app, !has_number by exact mark. bool_cases.
Qed.

Lemma has_report_blocks (r : CheckReport.t) :
  has c (report_blocks r) =
  has c (assessment_block r)
  || has c (issues_section (js "## ❌ 错误 (") (js "以下问题需要立即修复：")
              (CheckReport.errors r))
  || has c (issues_section (js "## ⚠️ 警告 (") (js "以下问题建议修复：")
              (CheckReport.warnings r))
  || has c (issues_section (js "## 💡 建议 (") (js "以下改进建议供参考：")
              (CheckReport.suggestions r))
  || has c (js "## 分类详情") || has c LF
  || existsb (fun entry => has c (category_block entry)) (CheckReport.categories r).
Proof.
  unfold report_blocks. rewrite !has_app, has_concat_map. bool_cases.
Qed.

(** The lines written for failed rules of the table have the unit only if
    a name or a suggestion of the table has it. *)
Hypothesis table_lines :
  forallb (fun rule => negb (has c (issue_line (checkResult_of rule VUndefined))))
          (all_rules new_QualityChecker) = true.

Lemma has_failures_lines (data : DocumentRecord) b rules :
  incl rules (all_rules new_QualityChecker) ->
  existsb (fun x => has c (issue_line x)) (failures b data rules) = false.
Proof.
  intros Hincl. apply not_true_is_false. intros Hex.
  apply List.existsb_exists in Hex as (x & Hx & Hc).
  unfold failures in Hx. apply in_map_iff in Hx as (rule & <- & Hin).
  apply List.filter_In in Hin as [Hin _].
  rewrite List.forallb_forall in table_lines.
  specialize (table_lines rule (Hincl rule Hin)).
  change (issue_line (checkResult_of rule (verdict data rule)))
    with (issue_line (checkResult_of rule VUndefined)) in Hc.
  rewrite Hc in table_lines. discriminate.
Qed.
End Marks.

Section TableMarks.
Variable c : N.
Hypothesis mark : is_digit c || (c =? 45)%N = false.
Variable data : DocumentRecord.

(** A unit that is in no category block with every count line written is
    in no category block of the report. *)
Lemma has_category_blocks :
  forallb (fun entry : list N * list Rule.t =>
             negb (has c (category_block (fst entry, every_count))))
          (checkRules new_QualityChecker) = true ->
  existsb (fun entry => has c (category_block entry))
          (summaries data (checkRules new_QualityChecker)) = false.
Proof.
  intros Hframe. apply not_true_is_false. intros Hex.
  apply List.existsb_exists in Hex as (entry & Hentry & Hc).
  unfold summaries in Hentry. apply in_map_iff in Hentry as ([k rules] & <- & Hin).
  rewrite List.forallb_forall in Hframe. specialize (Hframe _ Hin).
  apply negb_true_iff in Hframe. cbn [fst snd] in *.
  rewrite (has_category_block c mark), !(has_count_line c mark) in Hc, Hframe.
  cbn [fst snd every_count CategoryResult.errors CategoryResult.warnings
       CategoryResult.suggestions is_nil negb andb] in Hc, Hframe.
  repeat match type of Hframe with
         | context [has c ?t] => destruct (has c t); try discriminate Hframe
         end.
  repeat match type of Hc with
         | context [is_nil ?l] => destruct (is_nil l)
         end; discriminate Hc.
Qed.

(** The assessment block has the unit only through its fixed text or the
    status label. *)
Lemma has_assessment_of_overall (r : CheckReport.t) overall :
  CheckReport.overall r = overall ->
  has c (assessment_block (CheckReport.mk overall 0 0 0 [] [] [] [])) = false ->
  has c (assessment_block r) = false.
Proof.
  intros Ho Hframe. rewrite (has_assessment_block c mark) in Hframe |- *.
  rewrite Ho. exact Hframe.
Qed.
End TableMarks.

(** *** The headings in the text of a report of the checker *)

(** Evaluates the closed conditions [has c text] of the goal. *)
Ltac eval_has :=
  repeat match goal with
         | |- context [has ?c (js ?s)] =>
           let b := eval vm_compute in (has c (js s)) in
           change (has c (js s)) with b
         | |- context [has ?c LF] =>
           let b := eval vm_compute in (has c LF) in
           change (has c LF) with b
         end.

(** Shows that the unit [c] is in no block of the text of a report of the
    checker, once the section that carries it is empty and the overall
    status is known. *)
Ltac unmarked c :=
  rewrite (has_report_blocks c);
  rewrite !(has_issues_section c eq_refl);
  cbn [CheckReport.errors CheckReport.warnings CheckReport.suggestions
       CheckReport.categories];
  rewrite ?(has_failures_lines c) by first [apply incl_refl | vm_compute; reflexivity];
  rewrite (has_category_blocks c eq_refl) by (vm_compute; reflexivity);
  match goal with
  | |- context [has c (assessment_block ?r)] =>
    rewrite (has_assessment_of_overall c eq_refl r _ eq_refl)
      by (vm_compute; reflexivity)
  end;
  eval_has;
  cbn [is_nil negb andb orb]; rewrite ?andb_false_r; cbn [orb];
  discriminate.

Section Headings.
Variable data : DocumentRecord.

Lemma errors_heading_occurs :
  occurs_in (js "## ❌ 错误 (") (generateReport (report_of new_QualityChecker data))
  = negb (is_nil (CheckReport.errors (report_of new_QualityChecker data))).
Proof.
  rewrite generateReport_blocks. unfold report_of, overall_of.
  destruct (failures Errors data (all_rules new_QualityChecker)) as [|x l].
  - cbn [CheckReport.errors is_nil negb].
    apply not_true_is_false. intros Hocc.
    apply occurs_in_has with (c := 10060%N) in Hocc; [|vm_compute; tauto].
    revert Hocc. change (0 <? length (@nil CheckResult.t))%nat with false. cbv iota.
    destruct (0 <? length (failures Warnings data _))%nat; unmarked 10060%N.
  - cbn [CheckReport.errors is_nil negb]. unfold report_blocks.
    cbn [CheckReport.errors issues_section].
    apply occurs_in_app_r. rewrite <- !app_assoc. apply occurs_in_head.
Qed.

Lemma warnings_heading_occurs :
  occurs_in (js "## ⚠️ 警告 (") (generateReport (report_of new_QualityChecker data))
  = negb (is_nil (CheckReport.warnings (report_of new_QualityChecker data))).
Proof.
  rewrite generateReport_blocks. unfold report_of, overall_of.
  destruct (failures Warnings data (all_rules new_QualityChecker)) as [|x l].
  - cbn [CheckReport.warnings is_nil negb].
    apply not_true_is_false. intros Hocc.
    apply occurs_in_has with (c := 9888%N) in Hocc; [|vm_compute; tauto].
    revert Hocc. change (0 <? length (@nil CheckResult.t))%nat with false. cbv iota.
    destruct (0 <? length (failures Errors data _))%nat; unmarked 9888%N.
  - cbn [CheckReport.warnings is_nil negb]. unfold report_blocks.
    cbn [CheckReport.warnings issues_section].
    do 2 apply occurs_in_app_r. rewrite <- !app_assoc. apply occurs_in_head.
Qed.

Lemma suggestions_heading_occurs :
  occurs_in (js "## 💡 建议 (") (generateReport (report_of new_QualityChecker data))
  = negb (is_nil (CheckReport.suggestions (report_of new_QualityChecker data))).
Proof.
  rewrite generateReport_blocks. unfold report_of, overall_of.
  destruct (failures Suggestions data (all_rules new_QualityChecker)) as [|x l].
  - cbn [CheckReport.suggestions is_nil negb].
    apply not_true_is_false. intros Hocc.
    apply occurs_in_has with (c := 55357%N) in Hocc; [|vm_compute; tauto].
    revert Hocc.
    destruct (0 <? length (failures Errors data _))%nat;
      [|destruct (0 <? length (failures Warnings data _))%nat];
      unmarked 55357%N.
  - cbn [CheckReport.suggestions is_nil negb]. unfold report_blocks.
    cbn [CheckReport.suggestions issues_section].
    do 3 apply occurs_in_app_r. rewrite <- !app_assoc. apply occurs_in_head.
Qed.
End Headings.

(** *** The count labels in the detail of a category *)

Section CountLabels.
Variable entry : list N * CategoryResult.t.

Ltac label_absent unit Hname :=
  apply not_true_is_false; intros Hocc;
  apply occurs_in_has with (c := unit) in Hocc; [|vm_compute; tauto];
  revert Hocc;
  rewrite (has_category_block unit eq_refl), !(has_count_line unit eq_refl);
  cbn [fst snd CategoryResult.errors CategoryResult.warnings
       CategoryResult.suggestions];
  rewrite Hname; eval_has;
  cbn [is_nil negb andb orb]; rewrite ?andb_false_r; cbn [orb];
  discriminate.

Tactic Notation "label_present" integer(n) :=
  unfold category_block;
  cbn [fst snd CategoryResult.errors CategoryResult.warnings
       CategoryResult.suggestions count_line];
  do n apply occurs_in_app_r; rewrite <- !app_assoc; apply occurs_in_head.

Lemma errors_label_occurs :
  has 38169 (getCategoryName (fst entry)) = false ->
  occurs_in (js "- 错误: ") (category_block entry)
  = negb (is_nil (CategoryResult.errors (snd entry))).
Proof.
  intros Hname. destruct entry as [k [t p [|x es] ws ss]];
    cbn [fst snd CategoryResult.errors is_nil negb] in *.
  - label_absent 38169%N Hname.
  - label_present 9.
Qed.

Lemma warnings_label_occurs :
  has 35686 (getCategoryName (fst entry)) = false ->
  occurs_in (js "- 警告: ") (category_block entry)
  = negb (is_nil (CategoryResult.warnings (snd entry))).
Proof.
  intros Hname. destruct entry as [k [t p es [|x ws] ss]];
    cbn [fst snd CategoryResult.warnings is_nil negb] in *.
  - label_absent 35686%N Hname.
  - label_present 10.
Qed.

Lemma suggestions_label_occurs :
  has 24314 (getCategoryName (fst entry)) = false ->
  occurs_in (js "- 建议: ") (category_block entry)
  = negb (is_nil (CategoryResult.suggestions (snd entry))).
Proof.
  intros Hname. destruct entry as [k [t p es ws [|x ss]]];
    cbn [fst snd CategoryResult.suggestions is_nil negb] in *.
  - label_absent 24314%N Hname.
  - label_present 11.
Qed.
End CountLabels.

(** In the text of every report of the checker the headings and the count
    labels occur exactly where their lists are not empty. *)
Lemma headings_match_report_of (data : DocumentRecord) :
  headings_match (report_of new_QualityChecker data) = true.
Proof.
  unfold headings_match. cbv zeta.
  rewrite errors_heading_occurs, warnings_heading_occurs, suggestions_heading_occurs.
  rewrite !Bool.eqb_reflx. cbn [andb].
  apply List.forallb_forall. intros entry Hentry.
  cbn [report_of CheckReport.categories] in Hentry. unfold summaries in Hentry.
  apply in_map_iff in Hentry as ([k rules] & <- & Hin). cbn [fst snd].
  assert (Hnames : forallb (fun e : list N * list Rule.t =>
                              negb (has 38169 (getCategoryName (fst e)))
                              && negb (has 35686 (getCategoryName (fst e)))
                              && negb (has 24314 (getCategoryName (fst e))))
                           (checkRules new_QualityChecker) = true)
    by (vm_compute; reflexivity).
  rewrite List.forallb_forall in Hnames. specialize (Hnames _ Hin).
  cbn [fst] in Hnames.
  apply andb_prop in Hnames as [Hnames H3]. apply andb_prop in Hnames as [H1 H2].
  apply negb_true_iff in H1, H2, H3.
  rewrite errors_label_occurs, warnings_label_occurs, suggestions_label_occurs
    by assumption.
  rewrite !Bool.eqb_reflx. reflexivity.
Qed.

(** C7: [generateReport] is a function of its argument; its text is the
    assessment block, then the errors, warnings and suggestions sections,
    each present exactly when its list is not empty, then the detail of every
    category, where each count line is present exactly when its count is not
    zero. In the text of the report of any well-formed record each section
    heading, and in a category's detail each count label, occurs exactly when
    the list is not empty. On the report of a record that satisfies every
    rule the three section headings do not occur, while the assessment
    heading and the five category headings do. *)
Theorem generateReport_sections (r : CheckReport.t) :
  (forall r' : CheckReport.t, r' = r -> generateReport r' = generateReport r)
  /\ generateReport r =
     assessment_block r
     ++ issues_section (js "## ❌ 错误 (") (js "以下问题需要立即修复：")
          (CheckReport.errors r)
     ++ issues_section (js "## ⚠️ 警告 (") (js "以下问题建议修复：")
          (CheckReport.warnings r)
     ++ issues_section (js "## 💡 建议 (") (js "以下改进建议供参考：")
          (CheckReport.suggestions r)
     ++ js "## 分类详情" ++ LF ++ LF
     ++ concat (map category_block (CheckReport.categories r))
  /\ (issues_section (js "## ❌ 错误 (") (js "以下问题需要立即修复：")
        (CheckReport.errors r) = [] <-> CheckReport.errors r = [])
  /\ (issues_section (js "## ⚠️ 警告 (") (js "以下问题建议修复：")
        (CheckReport.warnings r) = [] <-> CheckReport.warnings r = [])
  /\ (issues_section (js "## 💡 建议 (") (js "以下改进建议供参考：")
        (CheckReport.suggestions r) = [] <-> CheckReport.suggestions r = [])
  /\ Forall (fun entry : list N * CategoryResult.t =>
               (count_line (js "- 错误: ") (CategoryResult.errors (snd entry)) = []
                <-> CategoryResult.errors (snd entry) = [])
               /\ (count_line (js "- 警告: ") (CategoryResult.warnings (snd entry)) = []
                   <-> CategoryResult.warnings (snd entry) = [])
               /\ (count_line (js "- 建议: ") (CategoryResult.suggestions (snd entry)) = []
                   <-> CategoryResult.suggestions (snd entry) = []))
            (CheckReport.categories r)
  /\ (forall data : DocumentRecord,
        well_formed data = true ->
        exists checked,
          checkDocument new_QualityChecker data = Ok checked
          /\ headings_match checked = true)
  /\ exists passing,
       checkDocument new_QualityChecker all_satisfied = Ok passing
       /\ CheckReport.errors passing = []
       /\ CheckReport.warnings passing = []
       /\ CheckReport.suggestions passing = []
       /\ occurs_in (js "## ❌ 错误") (generateReport passing) = false
       /\ occurs_in (js "## ⚠️ 警告") (generateReport passing) = false
       /\ occurs_in (js "## 💡 建议") (generateReport passing) = false
       /\ occurs_in (js "## 总体评估") (generateReport passing) = true
       /\ forallb (fun category =>
                     occurs_in (js "### " ++ getCategoryName category)
                               (generateReport passing))
                  (Object_keys (checkRules new_QualityChecker)) = true.
Proof.
  split; [intros r' ->; reflexivity|].
  split; [exact (generateReport_blocks r)|].
  split; [apply issues_section_empty; vm_compute; discriminate|].
  split; [apply issues_section_empty; vm_compute; discriminate|].
  split; [apply issues_section_empty; vm_compute; discriminate|].
  split.
  { apply List.Forall_forall. intros entry _.
    repeat split; try (apply count_line_empty; vm_compute; discriminate);
      try (apply (proj2 (count_line_empty _ _ ltac:(vm_compute; discriminate)))). }
  split.
  { intros data Hwf. exists (report_of new_QualityChecker data).
    split; [exact (checkDocument_well_formed data Hwf)|].
    exact (headings_match_report_of data). }
  exists (report_of new_QualityChecker all_satisfied).
  split; [apply checkDocument_well_formed; vm_compute; reflexivity|].
  vm_compute. repeat split.
Qed.

(** ** The product behind the random suffix *)

Section ScaledDraw.
Local Open Scope Z_scope.

Lemma Zdigits2_log2 p : Zdigits2 (Zpos p) = Z.log2 (Zpos p) + 1.
Proof.
  assert (H : forall q, digits2_pos q = Pos.size q) by (induction q; cbn; congruence).
  cbn [Zdigits2]. rewrite H. destruct p; cbn; lia.
Qed.

Lemma Zdigits2_bounds p :
  2 ^ (Zdigits2 (Zpos p) - 1) <= Zpos p < 2 ^ Zdigits2 (Zpos p).
Proof.
  rewrite Zdigits2_log2. replace (Z.log2 (Z.pos p) + 1 - 1) with (Z.log2 (Z.pos p)) by lia.
  apply Z.log2_spec. lia.
Qed.

Lemma Zdigits2_le p k : 0 <= k -> Zpos p < 2 ^ k -> Zdigits2 (Zpos p) <= k.
Proof.
  intros Hk Hp. rewrite Zdigits2_log2.
  apply Z.log2_lt_pow2 in Hp; lia.
Qed.

Lemma Zdigits2_ge p k : 2 ^ k <= Zpos p -> k < Zdigits2 (Zpos p).
Proof.
  intros Hp. rewrite Zdigits2_log2.
  destruct (Z.le_gt_cases 0 k) as [Hk|Hk].
  - apply Z.log2_le_pow2 in Hp; lia.
  - pose proof (Z.log2_nonneg (Zpos p)). lia.
Qed.

(** One right shift halves the mantissa and keeps the bit shifted out. *)
Lemma shr_1_spec mrs :
  0 <= shr_m mrs ->
  shr_m (shr_1 mrs) = shr_m mrs / 2
  /\ shr_r (shr_1 mrs) = Z.odd (shr_m mrs).
Proof.
  destruct mrs as [m r s]. cbn [shr_m]. intros Hm.
  destruct m as [|p|p]; [split; reflexivity| |lia].
  destruct p as [p|p|]; cbn [shr_1 shr_m shr_r].
  - split; [|reflexivity]. apply Z.div_unique with 1; lia.
  - split; [|reflexivity]. apply Z.div_unique with 0; lia.
  - split; reflexivity.
Qed.

(** [p] right shifts divide the mantissa by [2 ^ p]; the bit kept is bit
    [p - 1] of the mantissa. *)
Lemma iter_shr_1_spec p :
  forall mrs,
    0 <= shr_m mrs ->
    shr_m (SpecFloat.iter_pos shr_1 p mrs) = shr_m mrs / 2 ^ Zpos p
    /\ shr_r (SpecFloat.iter_pos shr_1 p mrs) = Z.testbit (shr_m mrs) (Zpos p - 1).
Proof.
  induction p as [p IH|p IH|]; intros mrs Hm; cbn [SpecFloat.iter_pos].
  - destruct (shr_1_spec mrs Hm) as [H1 _].
    assert (H1pos : 0 <= shr_m (shr_1 mrs)) by (rewrite H1; apply Z.div_pos; lia).
    destruct (IH _ H1pos) as [H2 _].
    assert (H2pos : 0 <= shr_m (SpecFloat.iter_pos shr_1 p (shr_1 mrs)))
      by (rewrite H2; apply Z.div_pos; lia).
    destruct (IH _ H2pos) as [H3 H3r].
    split.
    + rewrite H3, H2, H1, !Z.div_div by lia.
      f_equal. replace (Z.pos p~1) with (1 + Z.pos p + Z.pos p) by lia.
      rewrite !Z.pow_add_r by lia. change (2 ^ 1) with 2. ring.
    + rewrite H3r, H2, H1, Z.div_div by lia.
      replace (2 * 2 ^ Z.pos p) with (2 ^ (1 + Z.pos p))
        by (rewrite Z.pow_add_r by lia; reflexivity).
      rewrite Z.div_pow2_bits by lia. f_equal. lia.
  - destruct (IH _ Hm) as [H2 _].
    assert (H2pos : 0 <= shr_m (SpecFloat.iter_pos shr_1 p mrs))
      by (rewrite H2; apply Z.div_pos; lia).
    destruct (IH _ H2pos) as [H3 H3r].
    split.
    + rewrite H3, H2, !Z.div_div by lia.
      f_equal. replace (Z.pos p~0) with (Z.pos p + Z.pos p) by lia.
      rewrite Z.pow_add_r by lia. reflexivity.
    + rewrite H3r, H2. rewrite Z.div_pow2_bits by lia. f_equal. lia.
  - destruct (shr_1_spec mrs Hm) as [H1 H1r]. split.
    + rewrite H1. reflexivity.
    + rewrite H1r. symmetry. apply Z.bit0_odd.
Qed.

(** Rounding to nearest keeps the mantissa or adds one, and adds one only
    when the bit shifted out last is set. *)
Lemma round_nearest_even_spec mrs :
  round_nearest_even (shr_m mrs) (loc_of_shr_record mrs) = shr_m mrs
  \/ (round_nearest_even (shr_m mrs) (loc_of_shr_record mrs) = shr_m mrs + 1
      /\ shr_r mrs = true).
Proof.
  destruct mrs as [m [|] [|]]; cbn; auto.
  destruct (Z.even m); auto.
Qed.

(** The last stage of [binary_round_aux]: on a rounded mantissa below
    [1000 * 2 ^ (- e1)] it yields a number whose floor is at most 999. *)
Lemma round_finish m2 e1 :
  0 <= m2 < 2 ^ 54 -> -1074 <= e1 <= -43 -> m2 < 1000 * 2 ^ (- e1) ->
  floor_is_suffix
    (let '(mrs'', e'') := shr_fexp prec emax m2 e1 loc_Exact in
     match shr_m mrs'' with
     | Z0 => S754_zero false
     | Zpos m => if e'' <=? emax - prec then S754_finite false m e''
                 else S754_infinity false
     | Zneg _ => S754_nan
     end).
Proof.
  intros Hm2 He1 Hlt. unfold floor_is_suffix.
  assert (Hd : 0 <= Zdigits2 m2 <= 54).
  { destruct m2 as [|p|p]; [cbn; lia| |lia].
    split; [|apply Zdigits2_le; lia].
    rewrite Zdigits2_log2. pose proof (Z.log2_nonneg (Z.pos p)). lia. }
  unfold shr_fexp, shr, fexp, emin, prec, emax.
  cbn [shr_record_of_loc].
  destruct (Z.max (Zdigits2 m2 + e1 - 53) (3 - 1024 - 53) - e1) as [|q|q] eqn:Hn;
    cbn [shr_m].
  - destruct m2 as [|p|p]; [cbn; lia| |lia].
    destruct (e1 <=? 1024 - 53); [|cbn; lia].
    cbn [Math_floor]. destruct (0 <=? e1) eqn:E0; [apply Z.leb_le in E0; lia|].
    split; [apply Z.div_pos; [lia|apply Z.pow_pos_nonneg; lia]|].
    apply Z.lt_succ_r. apply Z.div_lt_upper_bound; [apply Z.pow_pos_nonneg; lia|].
    rewrite Z.mul_comm. exact Hlt.
  - assert (Hq : q = 1%positive) by lia. subst q. cbn [SpecFloat.iter_pos].
    destruct (shr_1_spec {| shr_m := m2; shr_r := false; shr_s := false |}) as [H1 _];
      [cbn; lia|]. cbn [shr_m] in H1. rewrite H1.
    assert (Hpow : 2 ^ (- e1) = 2 * 2 ^ (- (e1 + 1))).
    { replace (- e1) with (Z.succ (- (e1 + 1))) by lia.
      rewrite Z.pow_succ_r by lia. reflexivity. }
    assert (Hpos : 0 < 2 ^ (- (e1 + 1))) by (apply Z.pow_pos_nonneg; lia).
    assert (Hhalf : 0 <= m2 / 2 < 1000 * 2 ^ (- (e1 + 1))).
    { split; [apply Z.div_pos; lia|].
      apply Z.div_lt_upper_bound; lia. }
    destruct (m2 / 2) as [|p|p]; [cbn; lia| |lia].
    destruct (e1 + 1 <=? 1024 - 53); [|cbn; lia].
    cbn [Math_floor]. destruct (0 <=? e1 + 1) eqn:E0; [apply Z.leb_le in E0; lia|].
    split; [apply Z.div_pos; lia|].
    apply Z.lt_succ_r. apply Z.div_lt_upper_bound; [exact Hpos|].
    rewrite Z.mul_comm. apply Hhalf.
  - destruct m2 as [|p|p]; [cbn; lia| |lia].
    destruct (e1 <=? 1024 - 53); [|cbn; lia].
    cbn [Math_floor]. destruct (0 <=? e1) eqn:E0; [apply Z.leb_le in E0; lia|].
    split; [apply Z.div_pos; [lia|apply Z.pow_pos_nonneg; lia]|].
    apply Z.lt_succ_r. apply Z.div_lt_upper_bound; [apply Z.pow_pos_nonneg; lia|].
    rewrite Z.mul_comm. exact Hlt.
Qed.

Lemma Number_of_thousand : Number_of_Z 1000 = S754_finite false 8796093022208000 (-43).
Proof. reflexivity. Qed.

(** The floor of a thousand times a draw is one of 0, ..., 999: the
    binary64 product never rounds up to 1000. *)
Lemma floor_of_scaled_draw r :
  unit_interval r = true ->
  0 <= Math_floor (SFmul prec emax r (Number_of_Z 1000)) <= 999.
Proof.
  change (unit_interval r = true ->
          floor_is_suffix (SFmul prec emax r (Number_of_Z 1000))).
  rewrite Number_of_thousand.
  destruct r as [s| | |s m e]; try discriminate;
    [intros _; unfold floor_is_suffix; cbn; lia|].
  destruct s; [discriminate|]. cbn [unit_interval].
  intros H. apply andb_prop in H as [H Hlt]. apply andb_prop in H as [Hb He].
  apply Z.ltb_lt in Hlt, He.
  unfold bounded, canonical_mantissa, fexp, emin, prec, emax in Hb.
  apply andb_prop in Hb as [Hc _]. apply Z.eqb_eq in Hc.
  change (Z.pos (digits2_pos m)) with (Zdigits2 (Z.pos m)) in Hc.
  pose proof (Zdigits2_bounds m) as Hdm.
  (* the mantissa has at most 53 bits, and the exponent is at most -53 *)
  assert (Hdm53 : 1 <= Zdigits2 (Z.pos m) <= 53).
  { split; [rewrite Zdigits2_log2; pose proof (Z.log2_nonneg (Z.pos m)); lia|lia]. }
  assert (He53 : -1074 <= e <= -53).
  { split; [lia|].
    assert (Zdigits2 (Z.pos m) - 1 < - e); [|lia].
    apply (Z.pow_lt_mono_r_iff 2); lia. }
  cbn [SFmul xorb]. unfold binary_round_aux.
  set (C := 8796093022208000).
  assert (HM : Z.pos (m * 8796093022208000) = Z.pos m * C) by reflexivity.
  set (M := Z.pos (m * 8796093022208000)) in *.
  set (E := e + -43).
  pose proof (Zdigits2_bounds (m * 8796093022208000)) as HdM. fold M in HdM.
  (* the product has 52 or 53 bits more than the mantissa *)
  assert (HMlo : 2 ^ (Zdigits2 (Z.pos m) - 1) * 2 ^ 52 <= M).
  { rewrite HM. apply Z.mul_le_mono_nonneg; try lia; subst C; cbn; lia. }
  assert (HMhi : M < 2 ^ Zdigits2 (Z.pos m) * 2 ^ 53).
  { rewrite HM. apply Z.mul_lt_mono_nonneg; try lia; subst C; cbn; lia. }
  rewrite <- Z.pow_add_r in HMlo, HMhi by lia.
  assert (Hd : Zdigits2 (Z.pos m) + 52 <= Zdigits2 M <= Zdigits2 (Z.pos m) + 53).
  { split.
    - assert (Zdigits2 (Z.pos m) - 1 + 52 < Zdigits2 M); [|lia].
      apply Zdigits2_ge. exact HMlo.
    - apply Zdigits2_le; lia. }
  (* the product is below a thousand *)
  assert (Hx : M < 1000 * 2 ^ (- E)).
  { rewrite HM. subst E. replace (- (e + -43)) with (43 + - e) by lia.
    rewrite Z.pow_add_r by lia. change (2 ^ 43) with 8796093022208.
    subst C. nia. }
  unfold shr_fexp at 1. unfold shr. cbn [shr_record_of_loc].
  destruct (fexp prec emax (Zdigits2 M + E) - E) as [|q|q] eqn:Hn;
    unfold fexp, emin, prec, emax in Hn.
  - (* nothing is shifted out *)
    cbn [shr_m loc_of_shr_record round_nearest_even].
    apply round_finish; [|subst E; lia|exact Hx].
    split; [subst M; lia|].
    eapply Z.lt_le_trans; [apply HdM|]. apply Z.pow_le_mono_r; lia.
  - (* q bits are shifted out *)
    destruct (iter_shr_1_spec q {| shr_m := M; shr_r := false; shr_s := false |})
      as [Hm' Hr']; [subst M; cbn; lia|]. cbn [shr_m] in Hm', Hr'.
    set (mrs' := SpecFloat.iter_pos shr_1 q {| shr_m := M; shr_r := false; shr_s := false |}) in *.
    assert (Hm53 : 0 <= shr_m mrs' < 2 ^ 53).
    { rewrite Hm'. split; [apply Z.div_pos; [subst M; lia|apply Z.pow_pos_nonneg; lia]|].
      apply Z.div_lt_upper_bound; [apply Z.pow_pos_nonneg; lia|].
      rewrite <- Z.pow_add_r by lia.
      eapply Z.lt_le_trans; [apply HdM|]. apply Z.pow_le_mono_r; lia. }
    destruct (Z.le_gt_cases (E + Z.pos q) (-44)) as [Hlow|Htop].
    + (* the result lies below 512 *)
      apply round_finish.
      * destruct (round_nearest_even_spec mrs') as [-> | [-> _]]; lia.
      * lia.
      * apply Z.le_lt_trans with (2 ^ 53).
        { destruct (round_nearest_even_spec mrs') as [-> | [-> _]]; lia. }
        apply Z.lt_le_trans with (1000 * 2 ^ 44); [cbn; lia|].
        apply Z.mul_le_mono_nonneg_l; [lia|]. apply Z.pow_le_mono_r; lia.
    + (* the draw is at least 0.512: the product lies in [512, 1000) *)
      assert (Hcase : e = -53 /\ Z.pos q = 53 /\ E = -96) by (subst E; lia).
      destruct Hcase as (He' & Hq & HE).
      rewrite He' in Hlt. change (2 ^ (- -53)) with 9007199254740992 in Hlt.
      rewrite Hq in Hm', Hr' |- *. rewrite HE.
      change (-96 + 53) with (-43). change (53 - 1) with 52 in Hr'.
      change (2 ^ 53) with 9007199254740992 in Hm'.
      assert (HMC : M <= 9007199254740991 * C) by (rewrite HM; nia).
      assert (Hm'' : 0 <= round_nearest_even (shr_m mrs') (loc_of_shr_record mrs') < C).
      { destruct (round_nearest_even_spec mrs') as [-> | [-> Hbit]].
        - rewrite Hm'. split; [apply Z.div_pos; subst M; lia|].
          apply Z.div_lt_upper_bound; [lia|]. subst C. lia.
        - rewrite Hr' in Hbit. apply Z.testbit_true in Hbit; [|lia].
          change (2 ^ 52) with 4503599627370496 in Hbit.
          rewrite Hm'. subst C.
          pose proof (Z.div_mod M 4503599627370496 ltac:(lia)) as Hdiv.
          pose proof (Z.mod_pos_bound M 4503599627370496 ltac:(lia)) as Hmod.
          pose proof (Z.div_mod (M / 4503599627370496) 2 ltac:(lia)) as Hdiv2.
          assert (Hdd : M / 9007199254740992 = M / 4503599627370496 / 2)
            by (rewrite Z.div_div by lia; reflexivity).
          rewrite Hdd. lia. }
      apply round_finish; [subst C; lia|lia|]. exact (proj2 Hm'').
  - (* a negative shift count leaves the mantissa alone *)
    cbn [shr_m loc_of_shr_record round_nearest_even].
    apply round_finish; [|subst E; lia|exact Hx].
    split; [subst M; lia|].
    eapply Z.lt_le_trans; [apply HdM|]. apply Z.pow_le_mono_r; lia.
Qed.
End ScaledDraw.

(** ** Proposals for missing fields *)

(** The claim of C10 that a proposal is made exactly when the field is
    absent fails: a title that is present but blank gets one. *)
Lemma title_proposed_though_present :
  ~ (forall w suggestions record w',
       getAutoFixSuggestions blank_title_record w = Ok (suggestions, record, w') ->
       (In (js "title") (map FixSuggestion.type suggestions)
        <-> blank_title_record !! js "title" = None)).
Proof.
  intros H.
  specialize (H still_world _ _ _ eq_refl).
  apply proj1 in H. vm_compute in H.
  assert (Habsurd : @None value = Some (VString [32; 32; 32]%N)); [|discriminate].
  symmetry. apply H. left. reflexivity.
Qed.

(** The suffix written for a number of 0, ..., 999 has three digits and
    they write the number. *)
Lemma suffix_writes_number (n : Z) : (0 <= n <= 999)%Z -> suffix_writes n.
Proof.
  intros Hn. split; [exact Hn|].
  assert (Hall : forallb (fun k => three_digits (suffix_of (Z.of_nat k))
                                   && (digits_value (suffix_of (Z.of_nat k))
                                       =? Z.of_nat k)%Z)
                         (seq 0 1000) = true)
    by (vm_compute; reflexivity).
  rewrite List.forallb_forall in Hall.
  specialize (Hall (Z.to_nat n)). rewrite Z2Nat.id in Hall by lia.
  apply andb_prop in Hall as [Hthree Hvalue]; [|apply in_seq; lia].
  apply Z.eqb_eq in Hvalue. split; assumption.
Qed.

(** The number drawn in a world whose next draw lies in [0, 1). *)
Lemma drawn_number_suffix (w : World) :
  unit_interval (dice w (dice_reads w)) = true -> suffix_writes (drawn_number w).
Proof.
  intros Hdraw. apply suffix_writes_number.
  exact (floor_of_scaled_draw _ Hdraw).
Qed.

Section TitleGuard.
Variable data : DocumentRecord.

(** The condition [!data.title || data.title.trim().length === 0]. *)
Lemma title_guard_returns :
  trimmable (Get data (js "title")) = true ->
  (if negb (ToBoolean (Get data (js "title"))) then Ok true
   else do s <- call_trim (Get data (js "title")) ; Ok (String_length s =? 0)%nat)
  = Ok (title_blank data).
Proof.
  unfold title_blank.
  destruct (Get data (js "title")) as [| |b|x|s|elems|props]; try reflexivity;
    try discriminate.
  - destruct b; [discriminate|reflexivity].
  - destruct x; try discriminate; reflexivity.
  - intros _. destruct s as [|c s]; [reflexivity|].
    change (ToBoolean (VString (c :: s))) with true. reflexivity.
Qed.

Lemma title_guard_throws :
  trimmable (Get data (js "title")) = false ->
  (if negb (ToBoolean (Get data (js "title"))) then Ok true
   else do s <- call_trim (Get data (js "title")) ; Ok (String_length s =? 0)%nat)
  = Throw (TypeError "trim is not a function").
Proof.
  destruct (Get data (js "title")) as [| |b|x|s|elems|props]; try reflexivity;
    try discriminate.
  - destruct b; [reflexivity|discriminate].
  - destruct x; try discriminate; reflexivity.
Qed.
End TitleGuard.

(** Solves [read_between w w' now] for the reading numbered [k]. *)
Ltac reading k := exists k; split; [cbn; lia|reflexivity].

Ltac title_proposal k :=
  left; split; [reflexivity|]; split; [reflexivity|];
  eexists; split; [reading k|reflexivity].

Ltac documentId_proposal k Hsuffix :=
  right; left; split; [reflexivity|]; split; [reflexivity|];
  eexists; split; [reading k|];
  split; [reflexivity|]; split; [reflexivity|exact Hsuffix].

Ltac date_proposal k :=
  right; right; split; [reflexivity|]; split; [reflexivity|];
  eexists; split; [reading k|reflexivity].

(** C10, as the code has it: on a record whose title is falsy or a string,
    [getAutoFixSuggestions] proposes a value for title when the title is
    falsy or made of white space only, and for documentId and for date when
    the field is falsy (absent, [undefined], [null], [false], [0], [NaN] or
    the empty string), in that order and for no other field, hence at most
    three proposals; the title proposed is a fixed prefix followed by the date
    string of a clock reading; the document id is ["TD-"], the year of a
    clock reading, ["-"] and the floor of a thousand times the number the call
    draws from [Math.random()], which lies in 0, ..., 999 and is written with
    three digits, zeros first; the date is the date string of a clock reading;
    and the record is left as it was. *)
Theorem autofix_proposals (data : DocumentRecord) (w : World) :
  trimmable (Get data (js "title")) = true ->
  unit_interval (dice w (dice_reads w)) = true ->
  exists suggestions w',
    getAutoFixSuggestions data w = Ok (suggestions, data, w')
    /\ map FixSuggestion.type suggestions = proposed_fields data
    /\ (length suggestions <= 3)%nat
    /\ Forall (proposal_shape w w') suggestions.
Proof.
  intros Htitle Hdraw. pose proof (drawn_number_suffix w Hdraw) as Hsuffix.
  unfold getAutoFixSuggestions.
  rewrite (title_guard_returns data Htitle). cbn [bind].
  unfold proposed_fields, falsy.
  destruct (title_blank data);
    destruct (ToBoolean (Get data (js "documentId")));
    destruct (ToBoolean (Get data (js "date")));
    cbn [negb new_Date Math_random app];
    eexists; eexists; (split; [reflexivity|]);
    (split; [reflexivity|]); (split; [cbn; lia|]);
    repeat apply List.Forall_cons; try apply List.Forall_nil;
    unfold proposal_shape;
    first [ title_proposal (clock_reads w)
          | documentId_proposal (S (clock_reads w)) Hsuffix
          | documentId_proposal (clock_reads w) Hsuffix
          | date_proposal (clock_reads w)
          | date_proposal (S (clock_reads w))
          | date_proposal (S (S (clock_reads w))) ].
Qed.

(** The empty record in the still world, whose draws are one half: three
    proposals, the document id ending in 500. *)
Lemma autofix_proposals_witness :
  exists suggestions w',
    getAutoFixSuggestions ∅ still_world = Ok (suggestions, ∅, w')
    /\ map FixSuggestion.type suggestions = proposed_fields ∅
    /\ (length suggestions <= 3)%nat
    /\ Forall (proposal_shape still_world w') suggestions.
Proof.
  apply (autofix_proposals ∅ still_world); vm_compute; reflexivity.
Defined.

(** What the call returns there. *)
Remark proposals_in_still_world :
  getAutoFixSuggestions ∅ still_world =
  Ok ([ FixSuggestion.mk (js "title") (js "setTitle") (js "技术方案_2024/1/2");
        FixSuggestion.mk (js "documentId") (js "setDocumentId") (js "TD-2024-500");
        FixSuggestion.mk (js "date") (js "setDate") (js "2024/1/2") ],
      ∅,
      {| clock := clock still_world; clock_reads := 3;
         dice := dice still_world; dice_reads := 1 |}).
Proof. vm_compute. reflexivity. Qed.

(** A record whose documentId is [0] and whose date is [false], values that
    are present and falsy, gets both proposals. *)
Remark falsy_fields_get_proposals :
  exists suggestions w',
    getAutoFixSuggestions
      (<[js "title" := VString (js "Widget")]>
       (<[js "documentId" := VNumber (Number_of_Z 0)]>
        (<[js "date" := VBool false]> ∅))) still_world
    = Ok (suggestions,
          <[js "title" := VString (js "Widget")]>
          (<[js "documentId" := VNumber (Number_of_Z 0)]>
           (<[js "date" := VBool false]> ∅)), w')
    /\ map FixSuggestion.type suggestions = [js "documentId"; js "date"].
Proof. eexists. eexists. split; vm_compute; reflexivity. Qed.

(** * Further properties *)

(** ** Where the predicates return *)

Section Returning.
Variable data : DocumentRecord.

Lemma check_min_length_trimmable f n :
  match check_min_length f n data with Ok _ => true | Throw _ => false end
  = trimmable (Get data f).
Proof.
  unfold check_min_length.
  destruct (Get data f) as [| |b|x|s|elems|props]; try reflexivity.
  - destruct b; reflexivity.
  - destruct x; reflexivity.
  - destruct s; reflexivity.
Qed.

Lemma check_nonempty_trimmable f :
  match check_nonempty f data with Ok _ => true | Throw _ => false end
  = trimmable (Get data f).
Proof. exact (check_min_length_trimmable f 1). Qed.

Lemma returns_on_Forall rules :
  forallb (returns_on data) rules = true ->
  Forall (fun rule => exists v, Rule.check rule data = Ok v) rules.
Proof.
  intros H. apply List.Forall_forall. intros rule Hin.
  apply (proj1 (List.forallb_forall _ _) H) in Hin. unfold returns_on in Hin.
  destruct (Rule.check rule data) as [v|e]; [eauto|discriminate].
Qed.

Lemma returns_on_Exists rules :
  forallb (returns_on data) rules = false ->
  Exists (fun rule => exists e, Rule.check rule data = Throw e) rules.
Proof.
  induction rules as [|rule rules IH]; [discriminate|].
  cbn [forallb]. unfold returns_on at 1.
  destruct (Rule.check rule data) as [v|e] eqn:E.
  - intros H. apply List.Exists_cons_tl, IH, H.
  - intros _. apply List.Exists_cons_hd. eauto.
Qed.

(** The loop of [checkCategory] ends at the first predicate that throws. *)
Lemma forEach_checkRule_throws rules :
  Exists (fun rule => exists e, Rule.check rule data = Throw e) rules ->
  forall result, exists e, forEach (checkRule data) rules result = Throw e.
Proof.
  induction 1 as [rule rules [e He]|rule rules _ IH]; intros result; cbn [forEach].
  - unfold checkRule. rewrite He. cbn [bind]. eauto.
  - destruct (checkRule data rule result) as [result'|e]; cbn [bind]; eauto.
Qed.

Lemma forEach_app {A S} (f : A -> S -> completion S) (l1 l2 : list A) (s : S) :
  forEach f (l1 ++ l2) s = do s' <- forEach f l1 s ; forEach f l2 s'.
Proof.
  revert s. induction l1 as [|x l1 IH]; intros s; [reflexivity|].
  cbn [app forEach]. destruct (f x s) as [s'|e]; cbn [bind]; [apply IH|reflexivity].
Qed.
End Returning.

Section LoopThrows.
Variable this : QualityChecker.
Variable data : DocumentRecord.

Lemma checkDocument_loop_throws (todo : list (list N * list Rule.t)) :
  forall (finished : list (list N * list Rule.t)) (results : CheckReport.t),
    checkRules this = finished ++ todo ->
    List.NoDup (Object_keys (checkRules this)) ->
    Object_keys (CheckReport.categories results) = Object_keys finished ->
    Exists (fun rule => exists e, Rule.check rule data = Throw e)
           (concat (map snd todo)) ->
    exists e, forEach (checkDocument_step this data) (Object_keys todo) results = Throw e.
Proof.
  induction todo as [|[category rules] todo IH];
    intros finished results Hsplit Hnodup Hkeys Hthrows.
  - inversion Hthrows.
  - cbn [map concat fst snd] in Hthrows.
    assert (Hfresh : ~ In category (Object_keys finished)).
    { rewrite Hsplit in Hnodup. unfold Object_keys in *.
      rewrite map_app in Hnodup. cbn in Hnodup.
      apply List.NoDup_remove_2 in Hnodup.
      intros Hin. apply Hnodup, in_or_app. left. exact Hin. }
    cbn [Object_keys map fst forEach]. unfold checkDocument_step at 1.
    rewrite Hsplit, (obj_get_app_fresh _ _ _ Hfresh), obj_get_head.
    destruct (forallb (returns_on data) rules) eqn:Hrules.
    + apply returns_on_Forall in Hrules as Hreturn.
      rewrite (checkCategory_summary data rules Hreturn). cbn [bind].
      rewrite obj_set_fresh
        by (change (~ In category (Object_keys (CheckReport.categories results)));
            rewrite Hkeys; exact Hfresh).
      fold (Object_keys todo).
      apply (IH (finished ++ [(category, rules)])).
      * rewrite <- app_assoc. exact Hsplit.
      * exact Hnodup.
      * cbn [CheckReport.categories]. unfold Object_keys in *.
        rewrite !map_app, Hkeys. reflexivity.
      * apply List.Exists_app in Hthrows as [Hhere|Hrest]; [|exact Hrest].
        exfalso. rewrite List.Forall_forall in Hreturn.
        apply List.Exists_exists in Hhere as (rule & Hin & e & He).
        destruct (Hreturn rule Hin) as [v Hv]. congruence.
    + apply returns_on_Exists in Hrules.
      unfold checkCategory.
      destruct (forEach_checkRule_throws data rules Hrules
                  (CategoryResult.mk (length rules) 0 [] [] [])) as [e He].
      rewrite He. cbn [bind forEach]. eauto.
Qed.

Lemma checkDocument_throws :
  List.NoDup (Object_keys (checkRules this)) ->
  forallb (returns_on data) (all_rules this) = false ->
  exists e, checkDocument this data = Throw e.
Proof.
  intros Hnodup Hthrows. apply returns_on_Exists in Hthrows.
  unfold checkDocument.
  destruct (checkDocument_loop_throws (checkRules this) []
              (CheckReport.mk (js "pass") 0 0 0 [] [] [] [])
              eq_refl Hnodup eq_refl Hthrows) as [e He].
  rewrite He. cbn [bind]. eauto.
Qed.
End LoopThrows.

(** The predicates of the table return exactly on the records whose text
    fields are trimmable. *)
Lemma table_returns_on (data : DocumentRecord) :
  forallb (returns_on data) (all_rules new_QualityChecker) = text_fields_trimmable data.
Proof.
  cbv [all_rules new_QualityChecker checkRules initCheckRules concat map snd app
       text_fields_trimmable string_fields forallb returns_on Rule.check].
  rewrite !check_min_length_trimmable, !check_nonempty_trimmable, check_array_min_spec.
  cbv beta iota. rewrite andb_true_l. reflexivity.
Qed.

Lemma checkDocument_trimmable (data : DocumentRecord) :
  text_fields_trimmable data = true ->
  checkDocument new_QualityChecker data = Ok (report_of new_QualityChecker data).
Proof.
  intros H. apply checkDocument_report.
  - exact category_names_distinct.
  - apply returns_on_Forall. rewrite table_returns_on. exact H.
Qed.

Lemma lacks_trim_trimmable (v : value) : lacks_trim v = negb (trimmable v).
Proof.
  destruct v as [| |b|x|s|elems|props]; try reflexivity.
  - destruct b; reflexivity.
  - destruct x; reflexivity.
Qed.

Lemma existsb_lacks_trim (data : DocumentRecord) (fields : list (list N)) :
  existsb (fun f => lacks_trim (Get data f)) fields
  = negb (forallb (fun f => trimmable (Get data f)) fields).
Proof.
  induction fields as [|f fields IH]; [reflexivity|].
  cbn [existsb forallb]. rewrite IH, lacks_trim_trimmable, negb_andb. reflexivity.
Qed.

(** X1: on a record of data (undefined, null, booleans, numbers, strings,
    arrays and objects of data: no function, no String wrapper object),
    [checkDocument] returns a report when each of the ten text fields holds a
    falsy value ([undefined], [null], [false], [0], [NaN], the empty string)
    or a string, and throws a [TypeError] when some text field holds [true],
    a number other than 0 and NaN, an array or an object. *)
Theorem checkDocument_returns_iff_trimmable (data : DocumentRecord) :
  (text_fields_trimmable data = true ->
   exists r, checkDocument new_QualityChecker data = Ok r)
  /\ (existsb (fun f => lacks_trim (Get data f)) string_fields = true ->
      exists msg, checkDocument new_QualityChecker data = Throw (TypeError msg)).
Proof.
  split; intros H.
  - eexists. exact (checkDocument_trimmable data H).
  - rewrite existsb_lacks_trim in H. apply negb_true_iff in H.
    destruct (checkDocument_throws new_QualityChecker data category_names_distinct)
      as [[msg] He]; [rewrite table_returns_on; exact H|].
    exists msg. exact He.
Qed.

(** A record whose text fields are all [null] is checked; one whose title is
    the number 5 is not. *)
Lemma checkDocument_returns_iff_trimmable_witness :
  (exists r, checkDocument new_QualityChecker null_fields_record = Ok r)
  /\ (exists msg,
        checkDocument new_QualityChecker number_title_record = Throw (TypeError msg)).
Proof.
  split.
  - apply (checkDocument_returns_iff_trimmable null_fields_record).
    vm_compute. reflexivity.
  - apply (checkDocument_returns_iff_trimmable number_title_record).
    vm_compute. reflexivity.
Defined.

(** ** What the report depends on *)

Section SameVerdicts.
Variable this : QualityChecker.
Variables data data' : DocumentRecord.

Lemma forEach_ext {A S} (f g : A -> S -> completion S) (l : list A) :
  Forall (fun x => forall s, f x s = g x s) l ->
  forall s, forEach f l s = forEach g l s.
Proof.
  induction 1 as [|x l Hx _ IH]; intros s; [reflexivity|].
  cbn [forEach]. rewrite Hx. destruct (g x s) as [s'|e]; cbn [bind]; [apply IH|reflexivity].
Qed.

Lemma checkCategory_ext rules :
  Forall (fun rule => Rule.check rule data' = Rule.check rule data) rules ->
  checkCategory data' rules = checkCategory data rules.
Proof.
  intros H. unfold checkCategory. apply forEach_ext.
  eapply List.Forall_impl; [|exact H].
  intros rule Hrule result. unfold checkRule. rewrite Hrule. reflexivity.
Qed.

Lemma obj_get_In {V} (o : list (list N * V)) k v :
  obj_get o k = Some v -> In v (map snd o).
Proof.
  induction o as [|[k' v'] o IH]; [discriminate|].
  cbn. destruct (String_eqb k' k); [intros [= ->]; left; reflexivity|].
  intros H. right. exact (IH H).
Qed.

(** Two records on which every predicate returns the same give the same
    result, report or exception. *)
Lemma checkDocument_ext :
  Forall (fun rule => Rule.check rule data' = Rule.check rule data) (all_rules this) ->
  checkDocument this data' = checkDocument this data.
Proof.
  intros H. unfold checkDocument.
  rewrite (forEach_ext (checkDocument_step this data') (checkDocument_step this data));
    [reflexivity|].
  apply List.Forall_forall. intros category _ results.
  unfold checkDocument_step.
  destruct (obj_get (checkRules this) category) as [rules|] eqn:E; [|reflexivity].
  rewrite checkCategory_ext; [reflexivity|].
  rewrite List.Forall_forall in H |- *. intros rule Hin. apply H.
  unfold all_rules. apply in_concat. exists rules. split; [|exact Hin].
  exact (obj_get_In _ _ _ E).
Qed.
End SameVerdicts.

(** Each predicate of the table reads the property its rule is named after,
    and nothing else. *)
Lemma table_reads_own_field :
  Forall (fun rule =>
            forall data data' : DocumentRecord,
              Get data' (Rule.id rule) = Get data (Rule.id rule) ->
              Rule.check rule data' = Rule.check rule data)
         (all_rules new_QualityChecker).
Proof.
  each_rule; intros data data' H;
    unfold check_min_length, check_nonempty, check_array_min; rewrite H; reflexivity.
Qed.

(** X2: the result of [checkDocument], report or exception, depends on the
    record only through the eleven properties the rules are named after: two
    records that agree on them are checked alike, whatever else they hold. *)
Theorem checkDocument_reads_rule_fields_only (data data' : DocumentRecord) :
  (forall f, In f rule_fields -> Get data' f = Get data f) ->
  checkDocument new_QualityChecker data' = checkDocument new_QualityChecker data.
Proof.
  intros Hsame. apply checkDocument_ext.
  pose proof table_reads_own_field as Hown.
  rewrite List.Forall_forall in Hown |- *. intros rule Hin.
  apply (Hown rule Hin). apply Hsame. unfold rule_fields. apply in_map. exact Hin.
Qed.

(** Giving a record a numeric documentId and removing its date changes
    nothing. *)
Lemma checkDocument_reads_rule_fields_only_witness :
  checkDocument new_QualityChecker
    (<[js "documentId" := VNumber (Number_of_Z 7)]> (delete (js "date") blank_title_record))
  = checkDocument new_QualityChecker blank_title_record.
Proof.
  apply checkDocument_reads_rule_fields_only.
  intros f Hin. cbv [rule_fields all_rules new_QualityChecker checkRules initCheckRules
                     concat map snd app Rule.id] in Hin.
  repeat (destruct Hin as [<-|Hin]; [vm_compute; reflexivity|]).
  destruct Hin.
Defined.

(** ** White space around a text *)

Section Blanks.
Implicit Types a b s : list N.

Lemma trimStart_blank_app a s : blank a = true -> trimStart (a ++ s) = trimStart s.
Proof.
  induction a as [|c a IH]; [reflexivity|].
  cbn [blank forallb app trimStart]. intros H. apply andb_prop in H as [Hc Ha].
  rewrite Hc. exact (IH Ha).
Qed.

Lemma trimEnd_blank b : blank b = true -> trimEnd b = [].
Proof.
  induction b as [|c b IH]; [reflexivity|].
  cbn [blank forallb trimEnd]. intros H. apply andb_prop in H as [Hc Hb].
  rewrite (IH Hb), Hc. reflexivity.
Qed.

Lemma trimEnd_app_blank s b : blank b = true -> trimEnd (s ++ b) = trimEnd s.
Proof.
  intros Hb. induction s as [|c s IH].
  - cbn [app]. exact (trimEnd_blank b Hb).
  - cbn [app trimEnd]. rewrite IH. reflexivity.
Qed.

Lemma trimStart_blank a : blank a = true -> trimStart a = [].
Proof.
  intros Ha. rewrite <- (app_nil_r a), trimStart_blank_app by exact Ha. reflexivity.
Qed.

(** [trim] removes the white space put around a text. *)
Lemma String_trim_padded a s b :
  blank a = true -> blank b = true -> String_trim (a ++ s ++ b) = String_trim s.
Proof.
  intros Ha Hb. unfold String_trim.
  rewrite (trimStart_blank_app a _ Ha), trimStart_app.
  destruct (trimStart s) as [|c u].
  - rewrite (trimStart_blank b Hb). reflexivity.
  - apply trimEnd_app_blank. exact Hb.
Qed.
End Blanks.

(** X3: white space put before and after a text that is not empty changes
    nothing in the result of [checkDocument]. *)
Theorem padding_keeps_report (data : DocumentRecord) (f a s b : list N) :
  blank a = true -> blank b = true -> s <> [] ->
  checkDocument new_QualityChecker (<[f := VString (a ++ s ++ b)]> data)
  = checkDocument new_QualityChecker (<[f := VString s]> data).
Proof.
  intros Ha Hb Hs. apply checkDocument_ext.
  assert (Hpadded : a ++ s ++ b <> []).
  { destruct a; [destruct s; [congruence|discriminate]|discriminate]. }
  pose proof (String_trim_padded a s b Ha Hb) as Htrim.
  generalize dependent (a ++ s ++ b). intros padded Hpadded Htrim.
  each_rule;
    match goal with
    | |- ?check ?g ?n _ = _ =>
      destruct (decide (g = f)) as [<-|Hg];
        [unfold check; rewrite !Get_insert_same
        |unfold check; rewrite !Get_insert_other by congruence; reflexivity]
    | |- ?check ?g _ = _ =>
      destruct (decide (g = f)) as [<-|Hg];
        [unfold check; rewrite !Get_insert_same
        |unfold check; rewrite !Get_insert_other by congruence; reflexivity]
    end;
    try reflexivity;
    cbn [ToBoolean]; rewrite !bool_decide_eq_false_2 by assumption;
    cbn [negb call_trim bind]; rewrite Htrim; reflexivity.
Qed.

Lemma padding_keeps_report_witness :
  checkDocument new_QualityChecker
    (<[js "title" := VString (js "  " ++ js "Widget" ++ js " ")]> errors_satisfied)
  = checkDocument new_QualityChecker
      (<[js "title" := VString (js "Widget")]> errors_satisfied).
Proof.
  apply padding_keeps_report; [reflexivity|reflexivity|discriminate].
Defined.

(** ** [checkCategory] on any list of rules *)

(** X4: on any list of rules whose predicates return, [checkCategory]
    counts every rule in [total] and the passing ones in [passed], and keeps
    the failing ones in rule order: in [errors] those of severity ["error"],
    in [warnings] those of severity ["warning"], in [suggestions] those of
    any other severity. *)
Theorem checkCategory_keeps_rule_order (data : DocumentRecord) (rules : list Rule.t) :
  forallb (returns_on data) rules = true ->
  exists c,
    checkCategory data rules = Ok c
    /\ CategoryResult.total c = length rules
    /\ CategoryResult.passed c = length (List.filter (passes data) rules)
    /\ map CheckResult.id (CategoryResult.errors c) =
       map Rule.id
         (List.filter (fun rule => negb (passes data rule)
                                   && String_eqb (Rule.severity rule) (js "error"))
                      rules)
    /\ map CheckResult.id (CategoryResult.warnings c) =
       map Rule.id
         (List.filter (fun rule => negb (passes data rule)
                                   && String_eqb (Rule.severity rule) (js "warning"))
                      rules)
    /\ map CheckResult.id (CategoryResult.suggestions c) =
       map Rule.id
         (List.filter (fun rule => negb (passes data rule)
                                   && negb (String_eqb (Rule.severity rule) (js "error"))
                                   && negb (String_eqb (Rule.severity rule) (js "warning")))
                      rules).
Proof.
  intros Hret. apply returns_on_Forall in Hret.
  exists (summary data rules). split; [exact (checkCategory_summary data rules Hret)|].
  split; [reflexivity|]. split; [reflexivity|].
  cbn [summary CategoryResult.errors CategoryResult.warnings CategoryResult.suggestions].
  unfold failures. rewrite !map_map. cbn [checkResult_of CheckResult.id].
  repeat split; f_equal; apply List.filter_ext; intros rule; unfold bucket_of;
    destruct (negb (passes data rule)); cbn [andb]; try reflexivity;
    destruct (String_eqb (Rule.severity rule) (js "error")) eqn:Ee;
    destruct (String_eqb (Rule.severity rule) (js "warning")) eqn:Ew;
    try reflexivity.
  apply String_eqb_eq in Ee, Ew. rewrite Ee in Ew. vm_compute in Ew. discriminate.
Qed.

(** The first category of the table on the empty record. *)
Lemma checkCategory_keeps_rule_order_witness :
  exists c,
    checkCategory ∅ basicInfo_rules = Ok c
    /\ CategoryResult.total c = 3
    /\ CategoryResult.passed c = 0
    /\ map CheckResult.id (CategoryResult.errors c) = [js "title"; js "inventor"]
    /\ map CheckResult.id (CategoryResult.warnings c) = [js "technicalField"]
    /\ map CheckResult.id (CategoryResult.suggestions c) = [].
Proof.
  exact (checkCategory_keeps_rule_order ∅ basicInfo_rules eq_refl).
Defined.

(** X5: when a predicate throws, and those of the rules before it return,
    [checkCategory] throws that exception: the results of the rules before
    are not returned. *)
Theorem checkCategory_throws_first_exception
    (data : DocumentRecord) (before after : list Rule.t) (rule : Rule.t) (e : exn) :
  forallb (returns_on data) before = true ->
  Rule.check rule data = Throw e ->
  checkCategory data (before ++ rule :: after) = Throw e.
Proof.
  intros Hret He. apply returns_on_Forall in Hret.
  unfold checkCategory. rewrite forEach_app, (forEach_checkRule data before Hret).
  cbn [bind forEach]. unfold checkRule. rewrite He. reflexivity.
Qed.

(** A technicalField that is [true] stops the first category at its second
    rule. *)
Lemma checkCategory_throws_first_exception_witness :
  checkCategory (<[js "technicalField" := VBool true]> ∅) basicInfo_rules
  = Throw (TypeError "trim is not a function").
Proof.
  exact (checkCategory_throws_first_exception
           (<[js "technicalField" := VBool true]> ∅)
           (take 1 basicInfo_rules) (drop 2 basicInfo_rules)
           (Rule.mk (js "technicalField") (js "技术领域") (js "技术领域是否明确具体")
              (check_min_length (js "technicalField") 10)
              (js "warning") (js "技术领域描述应至少10个字符，并明确具体"))
           (TypeError "trim is not a function") eq_refl eq_refl).
Defined.

(** ** The totals of a report *)

Section Totals.
Variable data : DocumentRecord.

Lemma failures_concat b (l : list (list Rule.t)) :
  failures b data (concat l) = concat (map (failures b data) l).
Proof.
  induction l as [|rules l IH]; [reflexivity|].
  cbn [concat map]. rewrite failures_app, IH. reflexivity.
Qed.

Lemma passed_concat (l : list (list Rule.t)) :
  length (List.filter (passes data) (concat l))
  = list_sum (map (fun rules => length (List.filter (passes data) rules)) l).
Proof.
  induction l as [|rules l IH]; [reflexivity|].
  cbn [concat map list_sum]. rewrite List.filter_app, length_app, IH. reflexivity.
Qed.

(** A bucket holds at most the rules routed to it. *)
Lemma failures_bound b rules :
  (length (failures b data rules)
   <= length (List.filter (fun rule => bucket_eqb (bucket_of rule) b) rules))%nat.
Proof.
  unfold failures. rewrite length_map.
  induction rules as [|rule rules IH]; [reflexivity|].
  cbn [List.filter].
  destruct (bucket_eqb (bucket_of rule) b); rewrite ?andb_false_r, ?andb_true_r.
  - destruct (negb (passes data rule)); cbn [length]; lia.
  - exact IH.
Qed.

Lemma bucket_lists_report_of b :
  bucket_lists b (report_of new_QualityChecker data)
  = map (failures b data) (map snd (checkRules new_QualityChecker)).
Proof.
  unfold bucket_lists. cbn [report_of CheckReport.categories]. unfold summaries.
  rewrite !map_map. apply map_ext. intros entry. cbn [snd]. apply summary_bucket.
Qed.
End Totals.

(** X6: in the report of a record that is checked, [totalChecks] is 11;
    the passed checks and the issues of the three lists add up to it;
    [passedChecks] is the sum over the categories; each of the three lists is
    the concatenation, in category order, of the categories' lists; and there
    are at most 6 errors, 4 warnings and 1 suggestion. *)
Theorem report_totals (data : DocumentRecord) :
  text_fields_trimmable data = true ->
  exists r,
    checkDocument new_QualityChecker data = Ok r
    /\ CheckReport.totalChecks r = 11
    /\ CheckReport.passedChecks r + issue_count r = CheckReport.totalChecks r
    /\ CheckReport.passedChecks r
       = list_sum (map (fun entry => CategoryResult.passed (snd entry))
                       (CheckReport.categories r))
    /\ CheckReport.errors r = concat (bucket_lists Errors r)
    /\ CheckReport.warnings r = concat (bucket_lists Warnings r)
    /\ CheckReport.suggestions r = concat (bucket_lists Suggestions r)
    /\ (length (CheckReport.errors r) <= 6)%nat
    /\ (length (CheckReport.warnings r) <= 4)%nat
    /\ (length (CheckReport.suggestions r) <= 1)%nat.
Proof.
  intros H. exists (report_of new_QualityChecker data).
  split; [exact (checkDocument_trimmable data H)|].
  split; [reflexivity|].
  split.
  { unfold issue_count.
    cbn [report_of CheckReport.passedChecks CheckReport.totalChecks CheckReport.errors
         CheckReport.warnings CheckReport.suggestions].
    pose proof (summary_partition data (all_rules new_QualityChecker)). lia. }
  split.
  { cbn [report_of CheckReport.passedChecks CheckReport.categories].
    unfold all_rules, summaries. rewrite passed_concat, !map_map. reflexivity. }
  rewrite !bucket_lists_report_of, <- !failures_concat.
  split; [reflexivity|]. split; [reflexivity|]. split; [reflexivity|].
  cbn [report_of CheckReport.errors CheckReport.warnings CheckReport.suggestions].
  split; [|split]; (eapply Nat.le_trans; [apply failures_bound|]);
    vm_compute; repeat constructor.
Qed.

Lemma report_totals_witness :
  exists r,
    checkDocument new_QualityChecker errors_satisfied = Ok r
    /\ CheckReport.totalChecks r = 11
    /\ CheckReport.passedChecks r + issue_count r = CheckReport.totalChecks r
    /\ CheckReport.passedChecks r
       = list_sum (map (fun entry => CategoryResult.passed (snd entry))
                       (CheckReport.categories r))
    /\ CheckReport.errors r = concat (bucket_lists Errors r)
    /\ CheckReport.warnings r = concat (bucket_lists Warnings r)
    /\ CheckReport.suggestions r = concat (bucket_lists Suggestions r)
    /\ (length (CheckReport.errors r) <= 6)%nat
    /\ (length (CheckReport.warnings r) <= 4)%nat
    /\ (length (CheckReport.suggestions r) <= 1)%nat.
Proof.
  apply (report_totals errors_satisfied). vm_compute. reflexivity.
Defined.

(** ** The score and the number of passed checks *)

Lemma score_of_eleven_steps p :
  (p <= 11)%nat -> score_of p 11 = nth p score_steps 0%Z.
Proof.
  intros Hp.
  do 12 (destruct p as [|p]; [vm_compute; reflexivity|]).
  lia.
Qed.

Lemma score_steps_increase p q :
  (p <= 11)%nat -> (q <= 11)%nat ->
  ((p < q)%nat <-> (nth p score_steps 0 < nth q score_steps 0)%Z).
Proof.
  intros Hp Hq.
  assert (Hall : forallb (fun p => forallb (fun q =>
                   Bool.eqb (p <? q)%nat (nth p score_steps 0 <? nth q score_steps 0)%Z)
                   (seq 0 12)) (seq 0 12) = true) by (vm_compute; reflexivity).
  rewrite List.forallb_forall in Hall.
  specialize (Hall p ltac:(apply in_seq; lia)).
  rewrite List.forallb_forall in Hall.
  specialize (Hall q ltac:(apply in_seq; lia)).
  apply Bool.eqb_prop in Hall.
  rewrite <- Nat.ltb_lt, <- Z.ltb_lt, Hall. reflexivity.
Qed.

Lemma passed_at_most_eleven (data : DocumentRecord) :
  (length (List.filter (passes data) (all_rules new_QualityChecker)) <= 11)%nat.
Proof. rewrite <- table_size. apply List.filter_length_le. Qed.

(** X7: the score of a report of the checker is fixed by the number of
    passed checks, 0, 9, 18, ..., 91 or 100, and orders two reports as their
    passed checks do; it is 100 exactly when there is no issue, 0 exactly when
    no check passed, and at least 91 when the overall status is ["pass"]. *)
Theorem score_follows_passed_checks (data data' : DocumentRecord) :
  text_fields_trimmable data = true ->
  text_fields_trimmable data' = true ->
  exists r r',
    checkDocument new_QualityChecker data = Ok r
    /\ checkDocument new_QualityChecker data' = Ok r'
    /\ CheckReport.score r = nth (CheckReport.passedChecks r) score_steps 0%Z
    /\ ((CheckReport.passedChecks r < CheckReport.passedChecks r')%nat
        <-> (CheckReport.score r < CheckReport.score r')%Z)
    /\ (CheckReport.score r = 100%Z <-> issue_count r = 0)
    /\ (CheckReport.score r = 0%Z <-> CheckReport.passedChecks r = 0)
    /\ (CheckReport.overall r = js "pass" -> (91 <= CheckReport.score r)%Z).
Proof.
  intros H H'.
  exists (report_of new_QualityChecker data), (report_of new_QualityChecker data').
  split; [exact (checkDocument_trimmable data H)|].
  split; [exact (checkDocument_trimmable data' H')|].
  pose proof (passed_at_most_eleven data) as Hp.
  pose proof (passed_at_most_eleven data') as Hp'.
  pose proof (summary_partition data (all_rules new_QualityChecker)) as Hsum.
  pose proof (failures_bound data Suggestions (all_rules new_QualityChecker)) as Hsug.
  change (length (List.filter _ (all_rules new_QualityChecker))) with 1 in Hsug.
  unfold issue_count.
  cbn [report_of CheckReport.score CheckReport.passedChecks CheckReport.overall
       CheckReport.errors CheckReport.warnings CheckReport.suggestions].
  rewrite table_size in *. rewrite !score_of_eleven_steps by assumption.
  split; [reflexivity|].
  split; [apply score_steps_increase; assumption|].
  set (p := length (List.filter (passes data) (all_rules new_QualityChecker))) in *.
  assert (Hfull : nth p score_steps 0%Z = 100%Z <-> p = 11).
  { clear -Hp. do 12 (destruct p as [|p]; [cbn; split; (lia || discriminate)|]). lia. }
  assert (Hnone : nth p score_steps 0%Z = 0%Z <-> p = 0).
  { clear -Hp. do 12 (destruct p as [|p]; [cbn; split; (lia || discriminate)|]). lia. }
  split; [rewrite Hfull; lia|].
  split; [exact Hnone|].
  unfold overall_of.
  destruct (failures Errors data _) as [|e es]; [|intros Hf; vm_compute in Hf; discriminate Hf].
  destruct (failures Warnings data _) as [|x xs]; [|intros Hf; vm_compute in Hf; discriminate Hf].
  intros _. cbn [length] in Hsum.
  assert (Hten : p = 10 \/ p = 11) by lia.
  destruct Hten as [-> | ->]; cbn; lia.
Qed.

Lemma score_follows_passed_checks_witness :
  exists r r',
    checkDocument new_QualityChecker errors_satisfied = Ok r
    /\ checkDocument new_QualityChecker all_satisfied = Ok r'
    /\ CheckReport.score r = nth (CheckReport.passedChecks r) score_steps 0%Z
    /\ ((CheckReport.passedChecks r < CheckReport.passedChecks r')%nat
        <-> (CheckReport.score r < CheckReport.score r')%Z)
    /\ (CheckReport.score r = 100%Z <-> issue_count r = 0)
    /\ (CheckReport.score r = 0%Z <-> CheckReport.passedChecks r = 0)
    /\ (CheckReport.overall r = js "pass" -> (91 <= CheckReport.score r)%Z).
Proof.
  apply (score_follows_passed_checks errors_satisfied all_satisfied);
    vm_compute; reflexivity.
Defined.

(** ** Improving a field, seen in the report *)

Section Improved.
Variable data : DocumentRecord.
Variable f : list N.
Variable v : value.
Hypothesis improved : (field_measure f (Get data f) <= field_measure f v)%nat.

(** A rule of the table that passes still passes on the improved record. *)
Lemma table_still_passes :
  Forall (fun rule => passes data rule = true -> passes (<[f := v]> data) rule = true)
         (all_rules new_QualityChecker).
Proof.
  each_rule; unfold passes; cbn [Rule.check];
    match goal with
    | |- context [check_min_length ?g ?n] =>
      destruct (decide (g = f)) as [<-|Hg];
        [apply check_min_length_improved; [lia|reflexivity|exact improved]
        |rewrite check_min_length_other by exact Hg; tauto]
    | |- context [check_nonempty ?g] =>
      destruct (decide (g = f)) as [<-|Hg];
        [apply check_nonempty_improved; [reflexivity|exact improved]
        |rewrite check_nonempty_other by exact Hg; tauto]
    | |- context [check_array_min ?g ?n] =>
      destruct (decide (g = f)) as [<-|Hg];
        [apply check_array_min_improved; [lia|reflexivity|exact improved]
        |rewrite check_array_min_other by exact Hg; tauto]
    end.
Qed.

Lemma filter_length_le_impl {A} (p q : A -> bool) (l : list A) :
  Forall (fun x => p x = true -> q x = true) l ->
  (length (List.filter p l) <= length (List.filter q l))%nat.
Proof.
  induction 1 as [|x l Hx _ IH]; [reflexivity|].
  cbn [List.filter]. destruct (p x); [rewrite (Hx eq_refl)|destruct (q x)];
    cbn [length]; lia.
Qed.

Lemma passed_grows :
  (length (List.filter (passes data) (all_rules new_QualityChecker))
   <= length (List.filter (passes (<[f := v]> data)) (all_rules new_QualityChecker)))%nat.
Proof. apply filter_length_le_impl, table_still_passes. Qed.

Lemma failures_shrink b :
  (length (failures b (<[f := v]> data) (all_rules new_QualityChecker))
   <= length (failures b data (all_rules new_QualityChecker)))%nat.
Proof.
  unfold failures. rewrite !length_map. apply filter_length_le_impl.
  eapply List.Forall_impl; [|exact table_still_passes].
  intros rule Hrule H. apply andb_prop in H as [Hfail Hb]. rewrite Hb, andb_true_r.
  cbv beta in Hrule.
  destruct (passes data rule); [rewrite (Hrule eq_refl) in Hfail; discriminate|reflexivity].
Qed.
End Improved.

(** X8: a record and the same record with one field improved (its trimmed
    text, or its list, not shorter), both checked: the improved one has no
    fewer passed checks, no lower score, no more errors, warnings or
    suggestions, and its overall status is no worse. *)
Theorem improving_never_lowers_score (data : DocumentRecord) (f : list N) (v : value) :
  (field_measure f (Get data f) <= field_measure f v)%nat ->
  text_fields_trimmable data = true ->
  text_fields_trimmable (<[f := v]> data) = true ->
  exists r r',
    checkDocument new_QualityChecker data = Ok r
    /\ checkDocument new_QualityChecker (<[f := v]> data) = Ok r'
    /\ (CheckReport.passedChecks r <= CheckReport.passedChecks r')%nat
    /\ (CheckReport.score r <= CheckReport.score r')%Z
    /\ (length (CheckReport.errors r') <= length (CheckReport.errors r))%nat
    /\ (length (CheckReport.warnings r') <= length (CheckReport.warnings r))%nat
    /\ (length (CheckReport.suggestions r') <= length (CheckReport.suggestions r))%nat
    /\ (CheckReport.overall r = js "pass" -> CheckReport.overall r' = js "pass")
    /\ (CheckReport.overall r' = js "fail" -> CheckReport.overall r = js "fail").
Proof.
  intros Himp H H'.
  exists (report_of new_QualityChecker data),
         (report_of new_QualityChecker (<[f := v]> data)).
  split; [exact (checkDocument_trimmable data H)|].
  split; [exact (checkDocument_trimmable _ H')|].
  pose proof (passed_grows data f v Himp) as Hp.
  pose proof (failures_shrink data f v Himp Errors) as He.
  pose proof (failures_shrink data f v Himp Warnings) as Hw.
  pose proof (failures_shrink data f v Himp Suggestions) as Hs.
  pose proof (passed_at_most_eleven data) as H11.
  pose proof (passed_at_most_eleven (<[f := v]> data)) as H11'.
  cbn [report_of CheckReport.score CheckReport.passedChecks CheckReport.overall
       CheckReport.errors CheckReport.warnings CheckReport.suggestions].
  rewrite table_size. rewrite !score_of_eleven_steps by assumption.
  split; [exact Hp|].
  split.
  { apply Nat.lt_eq_cases in Hp as [Hlt|Heq]; [|rewrite Heq; lia].
    apply Z.lt_le_incl. apply score_steps_increase; assumption. }
  split; [exact He|]. split; [exact Hw|]. split; [exact Hs|].
  unfold overall_of.
  destruct (failures Errors data _) as [|e es];
    destruct (failures Errors (<[f := v]> data) _) as [|e' es'];
    destruct (failures Warnings data _) as [|x xs];
    destruct (failures Warnings (<[f := v]> data) _) as [|x' xs'];
    cbn [length] in *; try lia;
    split; intros Hf; try reflexivity; vm_compute in Hf; discriminate Hf.
Qed.

Lemma improving_never_lowers_score_witness :
  exists r r',
    checkDocument new_QualityChecker (background_only (letters 10)) = Ok r
    /\ checkDocument new_QualityChecker
         (<[js "backgroundTechnology" := VString (letters 60)]>
            (background_only (letters 10))) = Ok r'
    /\ (CheckReport.passedChecks r <= CheckReport.passedChecks r')%nat
    /\ (CheckReport.score r <= CheckReport.score r')%Z
    /\ (length (CheckReport.errors r') <= length (CheckReport.errors r))%nat
    /\ (length (CheckReport.warnings r') <= length (CheckReport.warnings r))%nat
    /\ (length (CheckReport.suggestions r') <= length (CheckReport.suggestions r))%nat
    /\ (CheckReport.overall r = js "pass" -> CheckReport.overall r' = js "pass")
    /\ (CheckReport.overall r' = js "fail" -> CheckReport.overall r = js "fail").
Proof.
  apply (improving_never_lowers_score (background_only (letters 10))
           (js "backgroundTechnology") (VString (letters 60)));
    vm_compute; first [reflexivity | lia].
Defined.

(** ** Where [getAutoFixSuggestions] returns *)

(** What a call does to the world, by the fields it proposes. *)
Lemma getAutoFixSuggestions_trimmable (data : DocumentRecord) (w : World) :
  trimmable (Get data (js "title")) = true ->
  exists suggestions w',
    getAutoFixSuggestions data w = Ok (suggestions, data, w')
    /\ map FixSuggestion.type suggestions = proposed_fields data
    /\ clock w' = clock w
    /\ dice w' = dice w
    /\ clock_reads w' = clock_reads w + length suggestions
    /\ dice_reads w' = dice_reads w + (if falsy data (js "documentId") then 1 else 0)
    /\ (suggestions = [] -> w' = w)
    /\ Forall (fun p =>
                 FixSuggestion.type p = js "title" ->
                 exists now, FixSuggestion.value p =
                             js "技术方案_" ++ Date.toLocaleDateString now)
              suggestions.
Proof.
  intros Htitle. unfold getAutoFixSuggestions.
  rewrite (title_guard_returns data Htitle). cbn [bind].
  unfold proposed_fields, falsy.
  destruct (title_blank data);
    destruct (ToBoolean (Get data (js "documentId")));
    destruct (ToBoolean (Get data (js "date")));
    cbn [negb new_Date Math_random app clock clock_reads dice dice_reads];
    eexists; eexists; (split; [reflexivity|]);
    cbn [map FixSuggestion.type length clock clock_reads dice dice_reads app];
    (split; [reflexivity|]); (split; [reflexivity|]); (split; [reflexivity|]);
    (split; [lia|]); (split; [lia|]);
    (split; [first [discriminate | intros _; destruct w; reflexivity]|]);
    repeat apply List.Forall_cons; try apply List.Forall_nil;
    cbn [FixSuggestion.type FixSuggestion.value];
    first [ intros _; eexists; reflexivity
          | intros Hty; vm_compute in Hty; discriminate Hty ].
Qed.

(** X9: on a record of data (no function, no String wrapper object),
    [getAutoFixSuggestions] returns, with the record as it was and a proposal
    for each of title, documentId, date that its condition selects, when the
    title is falsy or a string, whatever documentId and date hold; and it
    throws a [TypeError] when the title is [true], a number other than 0 and
    NaN, an array or an object. *)
Theorem getAutoFixSuggestions_returns_iff (data : DocumentRecord) (w : World) :
  (trimmable (Get data (js "title")) = true ->
   exists suggestions w',
     getAutoFixSuggestions data w = Ok (suggestions, data, w')
     /\ map FixSuggestion.type suggestions = proposed_fields data)
  /\ (lacks_trim (Get data (js "title")) = true ->
      exists msg, getAutoFixSuggestions data w = Throw (TypeError msg)).
Proof.
  split; intros Htitle.
  - destruct (getAutoFixSuggestions_trimmable data w Htitle)
      as (suggestions & w' & Hcall & Hfields & _).
    exists suggestions, w'. split; assumption.
  - rewrite lacks_trim_trimmable in Htitle. apply negb_true_iff in Htitle.
    unfold getAutoFixSuggestions. rewrite (title_guard_throws data Htitle).
    cbn [bind]. eauto.
Qed.

(** A title that is [null] gets a proposal; a title that is the number 5
    makes the call throw. *)
Lemma getAutoFixSuggestions_returns_iff_witness :
  (exists suggestions w',
     getAutoFixSuggestions (<[js "title" := VNull]> complete_record) still_world
     = Ok (suggestions, <[js "title" := VNull]> complete_record, w')
     /\ map FixSuggestion.type suggestions = [js "title"])
  /\ (exists msg,
        getAutoFixSuggestions number_title_record still_world = Throw (TypeError msg)).
Proof.
  split.
  - exact (proj1 (getAutoFixSuggestions_returns_iff
                    (<[js "title" := VNull]> complete_record) still_world) eq_refl).
  - apply (getAutoFixSuggestions_returns_iff number_title_record still_world).
    vm_compute. reflexivity.
Defined.

(** X10: a call of [getAutoFixSuggestions] reads the clock once for each
    proposal it makes and draws one random number when it proposes a
    documentId, none otherwise; when the record lacks nothing it proposes
    nothing and reads neither. *)
Theorem getAutoFixSuggestions_reads (data : DocumentRecord) (w : World) :
  trimmable (Get data (js "title")) = true ->
  exists suggestions w',
    getAutoFixSuggestions data w = Ok (suggestions, data, w')
    /\ clock w' = clock w
    /\ dice w' = dice w
    /\ clock_reads w' = clock_reads w + length suggestions
    /\ dice_reads w' = dice_reads w + (if falsy data (js "documentId") then 1 else 0)
    /\ (proposed_fields data = [] -> suggestions = [] /\ w' = w).
Proof.
  intros Htitle.
  destruct (getAutoFixSuggestions_trimmable data w Htitle)
    as (suggestions & w' & Hcall & Hfields & Hclock & Hdice & Hreads & Hdraws & Hsame & _).
  exists suggestions, w'. repeat (split; [assumption|]).
  intros Hnone. rewrite Hnone in Hfields.
  destruct suggestions; [|discriminate Hfields]. split; [reflexivity|]. exact (Hsame eq_refl).
Qed.

(** A complete record in the still world. *)
Lemma getAutoFixSuggestions_reads_witness :
  exists suggestions w',
    getAutoFixSuggestions complete_record still_world = Ok (suggestions, complete_record, w')
    /\ clock w' = clock still_world
    /\ dice w' = dice still_world
    /\ clock_reads w' = clock_reads still_world + length suggestions
    /\ dice_reads w' = dice_reads still_world
                       + (if falsy complete_record (js "documentId") then 1 else 0)
    /\ suggestions = [] /\ w' = still_world.
Proof.
  destruct (getAutoFixSuggestions_reads complete_record still_world eq_refl)
    as (suggestions & w' & Hcall & Hclock & Hdice & Hreads & Hdraws & Hnone).
  exists suggestions, w'. repeat (split; [assumption|]).
  apply Hnone. vm_compute. reflexivity.
Defined.

(** ** The title proposed and the title rule *)

Lemma String_trim_head (c : N) (s : list N) :
  isWhiteSpace c = false -> (0 <? String_length (String_trim (c :: s)))%nat = true.
Proof.
  intros Hc. unfold String_trim, String_length. cbn [trimStart]. rewrite Hc.
  cbn [trimEnd]. destruct (trimEnd s); [rewrite Hc|]; reflexivity.
Qed.

Lemma title_rule_passes (data : DocumentRecord) :
  trimmable (Get data (js "title")) = true ->
  match check_nonempty (js "title") data with
  | Ok v => ToBoolean v
  | Throw _ => false
  end = negb (title_blank data).
Proof.
  unfold check_nonempty, title_blank.
  destruct (Get data (js "title")) as [| |b|x|s|elems|props]; try reflexivity;
    try discriminate.
  - destruct b; [discriminate|reflexivity].
  - destruct x; try discriminate; reflexivity.
  - intros _. destruct s as [|c s]; [reflexivity|].
    change (ToBoolean (VString (c :: s))) with true. cbn [call_trim bind ToBoolean].
    destruct (String_length (String_trim (c :: s))); reflexivity.
Qed.

(** X11: [getAutoFixSuggestions] proposes a title exactly when the title
    rule of the checker fails on the record, and the title it proposes, put
    in the record, passes that rule. *)
Theorem title_proposed_when_rule_fails (data : DocumentRecord) (w : World) :
  trimmable (Get data (js "title")) = true ->
  exists suggestions w' rule,
    getAutoFixSuggestions data w = Ok (suggestions, data, w')
    /\ find_rule new_QualityChecker (js "title") = Some rule
    /\ (In (js "title") (map FixSuggestion.type suggestions)
        <-> passes data rule = false)
    /\ Forall (fun p =>
                 FixSuggestion.type p = js "title" ->
                 passes (<[js "title" := VString (FixSuggestion.value p)]> data) rule
                 = true)
              suggestions.
Proof.
  intros Htitle.
  destruct (getAutoFixSuggestions_trimmable data w Htitle)
    as (suggestions & w' & Hcall & Hfields & _ & _ & _ & _ & _ & Hvalues).
  exists suggestions, w'. eexists.
  split; [exact Hcall|]. split; [reflexivity|]. split.
  - rewrite Hfields. unfold passes. cbn [Rule.check].
    rewrite (title_rule_passes data Htitle). unfold proposed_fields.
    destruct (title_blank data); cbn [negb app].
    + split; [reflexivity|]. intros _. left. reflexivity.
    + split; [|discriminate]. intros Hin. exfalso.
      destruct (falsy data (js "documentId")); destruct (falsy data (js "date"));
        cbn [app In] in Hin;
        repeat (destruct Hin as [Hin|Hin]; [vm_compute in Hin; discriminate Hin|]);
        exact Hin.
  - eapply List.Forall_impl; [|exact Hvalues].
    intros p Hp Hty. destruct (Hp Hty) as [now ->].
    unfold passes. cbn [Rule.check]. unfold check_nonempty.
    rewrite Get_insert_same.
    change (js "技术方案_") with ([25216; 26415; 26041; 26696; 95]%N).
    cbn [app]. change (ToBoolean (VString (?c :: ?s))) with true.
    cbn [call_trim bind ToBoolean]. apply String_trim_head. reflexivity.
Qed.

(** A blank title in the still world. *)
Lemma title_proposed_when_rule_fails_witness :
  exists suggestions w' rule,
    getAutoFixSuggestions blank_title_record still_world
    = Ok (suggestions, blank_title_record, w')
    /\ find_rule new_QualityChecker (js "title") = Some rule
    /\ (In (js "title") (map FixSuggestion.type suggestions)
        <-> passes blank_title_record rule = false)
    /\ Forall (fun p =>
                 FixSuggestion.type p = js "title" ->
                 passes (<[js "title" := VString (FixSuggestion.value p)]>
                           blank_title_record) rule
                 = true)
              suggestions.
Proof.
  apply (title_proposed_when_rule_fails blank_title_record still_world).
  reflexivity.
Defined.

(** ** The labels written for a report of the checker *)

(** X12: for a report of the checker, [getStatusText] of its overall status
    is the label of the table, never the raw status: the failed label when
    there are errors, else the warning label when there are warnings, else the
    passed label; and [getCategoryName] gives each of the five categories its
    display name. *)
Theorem report_labels (data : DocumentRecord) :
  text_fields_trimmable data = true ->
  exists r,
    checkDocument new_QualityChecker data = Ok r
    /\ getStatusText (CheckReport.overall r) =
       match CheckReport.errors r, CheckReport.warnings r with
       | _ :: _, _ => js "❌ 未通过"
       | [], _ :: _ => js "⚠️ 有警告"
       | [], [] => js "✅ 通过"
       end
    /\ map (fun entry => getCategoryName (fst entry)) (CheckReport.categories r) =
       [ js "基本信息"; js "背景技术"; js "技术方案"; js "技术效果"; js "实施方式" ].
Proof.
  intros H. exists (report_of new_QualityChecker data).
  split; [exact (checkDocument_trimmable data H)|].
  cbn [report_of CheckReport.overall CheckReport.errors CheckReport.warnings
       CheckReport.categories]. unfold overall_of. split.
  - destruct (failures Errors data _); [|vm_compute; reflexivity].
    destruct (failures Warnings data _); vm_compute; reflexivity.
  - unfold summaries. rewrite map_map. cbn [fst]. vm_compute. reflexivity.
Qed.

Lemma report_labels_witness :
  exists r,
    checkDocument new_QualityChecker errors_satisfied = Ok r
    /\ getStatusText (CheckReport.overall r) =
       match CheckReport.errors r, CheckReport.warnings r with
       | _ :: _, _ => js "❌ 未通过"
       | [], _ :: _ => js "⚠️ 有警告"
       | [], [] => js "✅ 通过"
       end
    /\ map (fun entry => getCategoryName (fst entry)) (CheckReport.categories r) =
       [ js "基本信息"; js "背景技术"; js "技术方案"; js "技术效果"; js "实施方式" ].
Proof.
  apply (report_labels errors_satisfied). vm_compute. reflexivity.
Defined.

(** ** Nothing is left out of the text *)

Section Inside.
Implicit Types n a b t : list N.

Lemma starts_with_app_l n a b :
  starts_with n a = true -> starts_with n (a ++ b) = true.
Proof.
  revert a. induction n as [|d n IH]; intros a Hst; [reflexivity|].
  destruct a as [|e a]; [discriminate|].
  cbn [starts_with app] in *. apply andb_prop in Hst as [Hde Hst].
  rewrite Hde, (IH a Hst). reflexivity.
Qed.

Lemma occurs_in_app_l n a b : occurs_in n a = true -> occurs_in n (a ++ b) = true.
Proof.
  induction a as [|e a IH]; intros Hocc.
  - cbn [occurs_in] in Hocc. rewrite orb_false_r in Hocc.
    destruct n; [|discriminate]. destruct ([] ++ b); reflexivity.
  - cbn [app occurs_in] in *. apply orb_prop in Hocc as [Hst|Hocc].
    + pose proof (starts_with_app_l n (e :: a) b Hst) as H. cbn [app] in H.
      rewrite H. reflexivity.
    + rewrite (IH Hocc). apply orb_true_r.
Qed.

Lemma occurs_in_middle n a b : occurs_in n (a ++ n ++ b) = true.
Proof. apply occurs_in_app_r, occurs_in_head. Qed.

(** A part of a concatenation occurs in it. *)
Lemma occurs_in_concat {A} (f : A -> list N) (l : list A) (x : A) :
  In x l -> occurs_in (f x) (concat (map f l)) = true.
Proof.
  intros Hin. apply in_split in Hin as (l1 & l2 & ->).
  rewrite map_app, concat_app. cbn [map concat]. apply occurs_in_middle.
Qed.

Lemma occurs_in_issues_section heading intro (l : list CheckResult.t) x :
  In x l -> occurs_in (issue_line x) (issues_section heading intro l) = true.
Proof.
  intros Hin. destruct l as [|y l]; [destruct Hin|].
  unfold issues_section. do 8 apply occurs_in_app_r.
  apply occurs_in_app_l. apply occurs_in_concat. exact Hin.
Qed.
End Inside.

(** X13: the text of any report starts with the assessment block and
    holds, for every issue of the three lists, the line written for it, and
    for every category its detail block. *)
Theorem generateReport_lists_every_issue (r : CheckReport.t) :
  Forall (fun x => occurs_in (issue_line x) (generateReport r) = true)
         (CheckReport.errors r ++ CheckReport.warnings r ++ CheckReport.suggestions r)
  /\ Forall (fun entry => occurs_in (category_block entry) (generateReport r) = true)
            (CheckReport.categories r)
  /\ starts_with (assessment_block r) (generateReport r) = true.
Proof.
  rewrite generateReport_blocks. unfold report_blocks. split; [|split].
  - repeat (apply List.Forall_app; split); apply List.Forall_forall; intros x Hin.
    + apply occurs_in_app_r, occurs_in_app_l, occurs_in_issues_section, Hin.
    + do 2 apply occurs_in_app_r. apply occurs_in_app_l, occurs_in_issues_section, Hin.
    + do 3 apply occurs_in_app_r. apply occurs_in_app_l, occurs_in_issues_section, Hin.
  - apply List.Forall_forall. intros entry Hin.
    do 7 apply occurs_in_app_r. apply occurs_in_concat. exact Hin.
  - apply starts_with_head.
Qed.

(** ** The rules that are not length thresholds *)

(** A trimmed text is empty exactly when the text is blank. *)
Lemma String_trim_blank (s : list N) :
  (0 <? String_length (String_trim s))%nat = negb (blank s).
Proof.
  induction s as [|c s IH]; [reflexivity|].
  cbn [blank forallb]. change (forallb isWhiteSpace s) with (blank s).
  destruct (isWhiteSpace c) eqn:Hc.
  - cbn [andb]. rewrite <- IH. unfold String_trim. cbn [trimStart]. rewrite Hc.
    reflexivity.
  - cbn [andb negb]. apply String_trim_head. exact Hc.
Qed.

Lemma passes_nonempty (data : DocumentRecord) f :
  trimmable (Get data f) = true ->
  match check_nonempty f data with
  | Ok v => ToBoolean v
  | Throw _ => false
  end = match Get data f with
        | VString s => negb (blank s)
        | _ => false
        end.
Proof.
  unfold check_nonempty.
  destruct (Get data f) as [| |b|x|s|elems|props]; try reflexivity; try discriminate.
  - destruct b; [discriminate|reflexivity].
  - destruct x; try discriminate; reflexivity.
  - intros _. destruct s as [|c s]; [reflexivity|].
    change (ToBoolean (VString (c :: s))) with true.
    cbn [call_trim bind ToBoolean]. apply String_trim_blank.
Qed.

(** X14: a non-emptiness rule (title, inventor, performanceData) passes,
    on a field that is falsy or a string, exactly when the field is a string
    that is not blank; the keyFeatures rule passes exactly when the field is
    an array of three or more elements, whatever the elements are. *)
Theorem presence_rules (data : DocumentRecord) :
  Forall (fun f =>
            exists rule,
              find_rule new_QualityChecker f = Some rule
              /\ (trimmable (Get data f) = true ->
                  passes data rule =
                  match Get data f with
                  | VString s => negb (blank s)
                  | _ => false
                  end))
         nonempty_rules
  /\ exists rule,
       find_rule new_QualityChecker (js "keyFeatures") = Some rule
       /\ passes data rule =
          match Get data (js "keyFeatures") with
          | VArray elems => (3 <=? length elems)%nat
          | _ => false
          end.
Proof.
  split.
  - unfold nonempty_rules.
    repeat apply List.Forall_cons; try apply List.Forall_nil;
      (eexists; split; [reflexivity|]); unfold passes; cbn [Rule.check];
      apply passes_nonempty.
  - eexists. split; [reflexivity|]. unfold passes. cbn [Rule.check].
    rewrite check_array_min_spec. cbn [ToBoolean].
    destruct (Get data (js "keyFeatures")); reflexivity.
Qed.

(** A blank title fails its rule; three empty features pass theirs. *)
Lemma presence_rules_witness :
  (exists rule,
     find_rule new_QualityChecker (js "title") = Some rule
     /\ passes blank_title_record rule = false)
  /\ (exists rule,
        find_rule new_QualityChecker (js "keyFeatures") = Some rule
        /\ passes (<[js "keyFeatures" := VArray [VString []; VString []; VNull]]> ∅)
                  rule = true).
Proof.
  split.
  - destruct (presence_rules blank_title_record) as [H _].
    apply List.Forall_inv in H. destruct H as (rule & Hfind & Hpass).
    exists rule. split; [exact Hfind|]. rewrite Hpass; vm_compute; reflexivity.
  - destruct (presence_rules
                (<[js "keyFeatures" := VArray [VString []; VString []; VNull]]> ∅))
      as [_ (rule & Hfind & Hpass)].
    exists rule. split; [exact Hfind|]. rewrite Hpass. vm_compute. reflexivity.
Defined.
